(** * VentureCRM: the extraction pipeline of first.py

    A shallow embedding of the functions of first.py that make up the
    pipeline (fetch_web_page, parse_html_to_text, extract_vc_data,
    initialize_database, insert_vc_records, query_all_vc_records),
    the front end that runs them in sequence (the start-up check of the
    API key and main), and the properties of this code.

    Conventions.
    - A Python [str] is a Rocq [string], read as the UTF-8 bytes of the text.
    - Values produced by the JSON decoder are [pyval]s.
    - Effects (standard output, the database file, the clock, the two
      remote services) are threaded through a state-and-exception monad
      over a [world]. *)

From Stdlib Require Import List String Ascii ZArith NArith Lia Bool Arith.
From Stdlib Require Import DecimalString.
Import ListNotations.
Open Scope string_scope.

Set Warnings "-register-all".

(* ================================================================= *)
(** ** Characters and text helpers *)

Module Text.

Definition dquote : ascii := ascii_of_nat 34.
Definition backslash : ascii := ascii_of_nat 92.
Definition newline : ascii := ascii_of_nat 10.
Definition tab : ascii := ascii_of_nat 9.
Definition cr : ascii := ascii_of_nat 13.

Definition nl : string := String newline EmptyString.

(** [quoted s] is [s] between two double-quote characters. *)
Definition quoted (s : string) : string :=
  String dquote (s ++ String dquote EmptyString).

(** Decimal rendering of an integer, as [str(int)] and an f-string do. *)
Definition str_of_Z (z : Z) : string := NilZero.string_of_int (Z.to_int z).

Definition str_of_nat (n : nat) : string := str_of_Z (Z.of_nat n).

(** [sep.join(parts)] *)
Fixpoint join (sep : string) (parts : list string) : string :=
  match parts with
  | [] => EmptyString
  | [p] => p
  | p :: rest => p ++ sep ++ join sep rest
  end.

(** [strip_prefix p s] is what follows [p] in [s] when [s] starts with [p]. *)
Fixpoint strip_prefix (p s : string) : option string :=
  match p, s with
  | EmptyString, _ => Some s
  | String a p', String b s' =>
      if Ascii.eqb a b then strip_prefix p' s' else None
  | String _ _, EmptyString => None
  end.

Definition is_digit (c : ascii) : bool :=
  let n := N_of_ascii c in (48 <=? n)%N && (n <=? 57)%N.

Definition digit_val (c : ascii) : Z := Z.of_N (N_of_ascii c) - 48.

(** Longest prefix of decimal digits, and what follows it. *)
Fixpoint span_digits (s : string) : string * string :=
  match s with
  | String c rest =>
      if is_digit c
      then let (ds, r) := span_digits rest in (String c ds, r)
      else (EmptyString, s)
  | EmptyString => (EmptyString, EmptyString)
  end.

Fixpoint Z_of_digits_from (acc : Z) (ds : string) : Z :=
  match ds with
  | EmptyString => acc
  | String c rest => Z_of_digits_from (10 * acc + digit_val c) rest
  end.

Definition Z_of_digits (ds : string) : Z := Z_of_digits_from 0 ds.

Definition hex_val (c : ascii) : option N :=
  let n := N_of_ascii c in
  if (48 <=? n)%N && (n <=? 57)%N then Some (n - 48)%N
  else if (97 <=? n)%N && (n <=? 102)%N then Some (n - 87)%N
  else if (65 <=? n)%N && (n <=? 70)%N then Some (n - 55)%N
  else None.

Definition byte (n : N) : ascii := ascii_of_N n.

(** UTF-8 bytes of a code point (a lone surrogate is kept as its three
    bytes, the way Python keeps it as one character of the str). *)
Definition utf8 (cp : N) : string :=
  if (cp <? 128)%N then String (byte cp) EmptyString
  else if (cp <? 2048)%N then
    String (byte (192 + cp / 64))
      (String (byte (128 + cp mod 64)) EmptyString)
  else if (cp <? 65536)%N then
    String (byte (224 + cp / 4096))
      (String (byte (128 + (cp / 64) mod 64))
        (String (byte (128 + cp mod 64)) EmptyString))
  else
    String (byte (240 + cp / 262144))
      (String (byte (128 + (cp / 4096) mod 64))
        (String (byte (128 + (cp / 64) mod 64))
          (String (byte (128 + cp mod 64)) EmptyString))).

End Text.

(* ================================================================= *)
(** ** Python values and exceptions *)

(** The values [json.loads] can return.  A float keeps the lexeme it was
    read from: no arithmetic is ever done on it. *)
Inductive pyval : Type :=
| PNone
| PBool (b : bool)
| PInt (z : Z)
| PFloat (lexeme : string)
| PStr (s : string)
| PList (items : list pyval)
| PDict (entries : list (string * pyval)).

(** The exceptions that the code and the libraries it calls raise. *)
Inductive exn : Type :=
| Exception (msg : string)            (* raise Exception(...) of fetch_web_page *)
| JSONDecodeError (doc : string)      (* json.loads; doc is the text it was given *)
| RecursionError                      (* json.loads: containers nested too deeply *)
| ValueError                          (* json.loads: an integer of too many digits *)
| TypeError (msg : string)
| AttributeError (msg : string)
| IndexError
| OverflowError                       (* an int outside SQLite's 64 bits *)
| ProgrammingError                    (* sqlite3: a parameter of unsupported type
                                         (InterfaceError before Python 3.11) *)
| UnicodeEncodeError                  (* sqlite3: a text with a lone surrogate *)
| OperationalError (msg : string)     (* sqlite3: no such table; no rowid left *)
| ServiceError (msg : string).        (* raised by requests or by the openai client *)

Inductive result (A : Type) : Type :=
| Ok (a : A)
| Raise (e : exn).

Arguments Ok {A} a.
Arguments Raise {A} e.

(** A dict keeps its keys in insertion order; keys are unique. *)
Module Dict.

Definition t := list (string * pyval).

Fixpoint lookup (k : string) (d : t) : option pyval :=
  match d with
  | [] => None
  | (k', v) :: rest => if String.eqb k k' then Some v else lookup k rest
  end.

(** [d.get(k, default)] *)
Definition get (d : t) (k : string) (default : pyval) : pyval :=
  match lookup k d with
  | Some v => v
  | None => default
  end.

(** [d[k] = v]: overwrite in place, or append a new key. *)
Fixpoint setitem (k : string) (v : pyval) (d : t) : t :=
  match d with
  | [] => [(k, v)]
  | (k', v') :: rest =>
      if String.eqb k k' then (k', v) :: rest else (k', v') :: setitem k v rest
  end.

Definition keys (d : t) : list string := map fst d.

End Dict.

(* ================================================================= *)
(** ** The JSON decoder: json.loads

    The decoder follows the scanner of Python's json module: a value is
    a string, an object, an array, one of null, true, false, a number
    (an int when it has neither fraction nor exponent, a float
    otherwise), or one of NaN, Infinity, -Infinity.  Whitespace is
    space, tab, line feed and carriage return; strings are decoded in
    strict mode (no raw control character).

    Two limits of the interpreter end a decoding early.

    An integer written with more than [max_digits] digits is refused
    with ValueError; 0 stands for no limit, as it does in
    sys.set_int_max_str_digits, whose other values are at least 640.

    The interpreter counts the calls that are running and refuses one
    call too many with RecursionError.  [max_nesting] is what is left
    of this count when the scanner starts on the text.  Every array and
    every object that is open takes one of it, so that an array or an
    object opened inside [max_nesting] others is refused.  The call
    that makes NaN or an infinity takes [constant_levels] for as long
    as it runs, and building a JSONDecodeError takes [error_levels]:
    where so many are not left, the decoding ends with RecursionError.
    The error for a text in which no value starts where one must is
    built by the caller of the scanner, one call further out, the one
    for text that follows the value two calls further out, and the one
    for a byte order mark three calls further out; every other error is
    built where the scanner meets it.  CPython 3.11 has 1 for
    [constant_levels] and 3 for [error_levels]; a script that calls
    json.loads from a function called by its main function, under the
    default recursion limit of 1000, has 993 for [max_nesting]. *)

Module Json.
Import Text.

Record limits : Type := mkLimits {
  max_nesting : nat;
  max_digits : nat;
  constant_levels : nat;
  error_levels : nat
}.

(** Outcome of scanning a prefix of the text: a value and what follows
    it; a text that is not JSON, told by an error built on the spot; a
    text in which no value starts where one must; one of the two
    limits; or the end of the fuel that makes the scanner a structural
    recursion. *)
Inductive scan (A : Type) : Type :=
| Scanned (a : A) (rest : string)
| Malformed
| NoValue
| TooDeep
| TooLong
| NoFuel.

Arguments Scanned {A} a rest.
Arguments Malformed {A}.
Arguments NoValue {A}.
Arguments TooDeep {A}.
Arguments TooLong {A}.
Arguments NoFuel {A}.

(** The scanner meets an error where [room] calls are left. *)
Definition complain {A : Type} (lim : limits) (room : nat) : scan A :=
  if Nat.ltb room (error_levels lim) then TooDeep else Malformed.

Definition is_ws (c : ascii) : bool :=
  Ascii.eqb c " " || Ascii.eqb c tab || Ascii.eqb c newline || Ascii.eqb c cr.

Fixpoint skip_ws (s : string) : string :=
  match s with
  | String c rest => if is_ws c then skip_ws rest else s
  | EmptyString => s
  end.

(** A string literal is read as a sequence of pieces: characters taken
    as they are, and code units written as backslash-u escapes. *)
Inductive piece : Type :=
| Raw (c : ascii)
| Escaped (cp : N).

Definition simple_escape (c : ascii) : option ascii :=
  if Ascii.eqb c dquote then Some dquote
  else if Ascii.eqb c backslash then Some backslash
  else if Ascii.eqb c "/" then Some "/"%char
  else if Ascii.eqb c "b" then Some (ascii_of_nat 8)
  else if Ascii.eqb c "f" then Some (ascii_of_nat 12)
  else if Ascii.eqb c "n" then Some newline
  else if Ascii.eqb c "r" then Some cr
  else if Ascii.eqb c "t" then Some tab
  else None.

Definition hex4 (a b c d : ascii) : option N :=
  match hex_val a, hex_val b, hex_val c, hex_val d with
  | Some x, Some y, Some z, Some w => Some (((x * 16 + y) * 16 + z) * 16 + w)%N
  | _, _, _, _ => None
  end.

Definition push (p : piece) (r : option (list piece * string))
  : option (list piece * string) :=
  match r with
  | Some (ps, rest) => Some (p :: ps, rest)
  | None => None
  end.

(** [scan_pieces s] reads a string literal whose opening quote has just
    been consumed, up to and including its closing quote; None when the
    literal is not closed or holds a raw control character or a wrong
    escape. *)
Fixpoint scan_pieces (s : string) : option (list piece * string) :=
  match s with
  | EmptyString => None
  | String c rest =>
      if Ascii.eqb c dquote then Some ([], rest)
      else if Ascii.eqb c backslash then
        match rest with
        | EmptyString => None
        | String e rest1 =>
            if Ascii.eqb e "u" then
              match rest1 with
              | String h1 (String h2 (String h3 (String h4 rest2))) =>
                  match hex4 h1 h2 h3 h4 with
                  | Some cp => push (Escaped cp) (scan_pieces rest2)
                  | None => None
                  end
              | _ => None
              end
            else
              match simple_escape e with
              | Some ch => push (Raw ch) (scan_pieces rest1)
              | None => None
              end
        end
      else if (N_of_ascii c <? 32)%N then None
      else push (Raw c) (scan_pieces rest)
  end.

Definition is_high_surrogate (cp : N) : bool := (55296 <=? cp)%N && (cp <=? 56319)%N.
Definition is_low_surrogate (cp : N) : bool := (56320 <=? cp)%N && (cp <=? 57343)%N.

(** The text of a literal: an escaped high surrogate directly followed
    by an escaped low surrogate is one code point. *)
Fixpoint assemble (ps : list piece) : string :=
  match ps with
  | [] => EmptyString
  | Raw c :: tl => String c (assemble tl)
  | Escaped hi :: tl =>
      match tl with
      | Escaped lo :: tl' =>
          if is_high_surrogate hi && is_low_surrogate lo
          then utf8 (65536 + (hi - 55296) * 1024 + (lo - 56320))%N ++ assemble tl'
          else utf8 hi ++ assemble tl
      | _ => utf8 hi ++ assemble tl
      end
  end.

(** The number pattern: an optional minus sign; then either a single 0
    or a nonzero digit followed by digits; then, optionally, a dot and at
    least one digit; then, optionally, e or E, an optional sign and at
    least one digit.  An optional part that does not match in full is
    left unread. *)
Definition scan_int (s : string) : option (string * string) :=
  match s with
  | EmptyString => None
  | String c r =>
      if is_digit c
      then Some (if Ascii.eqb c "0" then ("0", r) else span_digits s)
      else None
  end.

Definition scan_frac (s : string) : string * string :=
  match s with
  | String d r1 =>
      if Ascii.eqb d "." then
        match span_digits r1 with
        | (EmptyString, _) => (EmptyString, s)
        | (fd, r2) => (String d fd, r2)
        end
      else (EmptyString, s)
  | EmptyString => (EmptyString, s)
  end.

Definition scan_sign (s : string) : string * string :=
  match s with
  | String sg r =>
      if Ascii.eqb sg "-" || Ascii.eqb sg "+"
      then (String sg EmptyString, r)
      else (EmptyString, s)
  | EmptyString => (EmptyString, s)
  end.

Definition scan_exp (s : string) : string * string :=
  match s with
  | String e r1 =>
      if Ascii.eqb e "e" || Ascii.eqb e "E" then
        let (sign, r2) := scan_sign r1 in
        match span_digits r2 with
        | (EmptyString, _) => (EmptyString, s)
        | (ed, r3) => (String e (sign ++ ed), r3)
        end
      else (EmptyString, s)
  | EmptyString => (EmptyString, s)
  end.

Definition scan_number (s : string) : option (pyval * string) :=
  let (neg, s1) :=
    match s with
    | String c r => if Ascii.eqb c "-" then (true, r) else (false, s)
    | EmptyString => (false, s)
    end in
  match scan_int s1 with
  | None => None
  | Some (int_digits, rest) =>
      let (frac, rest1) := scan_frac rest in
      let (expo, rest2) := scan_exp rest1 in
      match frac, expo with
      | EmptyString, EmptyString =>
          Some (PInt (if neg then - Z_of_digits int_digits
                      else Z_of_digits int_digits), rest2)
      | _, _ =>
          Some (PFloat ((if neg then "-" else EmptyString)
                        ++ int_digits ++ frac ++ expo), rest2)
      end
  end.

(** An integer literal has no leading zero: it has as many digits as
    its value has. *)
Definition too_many_digits (lim : limits) (z : Z) : bool :=
  negb (Nat.eqb (max_digits lim) 0)
  && Nat.ltb (max_digits lim) (String.length (str_of_Z (Z.abs z))).

(** NaN and the infinities are made by a call of their own. *)
Definition constant (lim : limits) (room : nat) (lexeme rest : string)
  : scan pyval :=
  if Nat.ltb room (constant_levels lim) then TooDeep
  else Scanned (PFloat lexeme) rest.

(** What a value may be when it is neither a string, an object nor an
    array: a keyword, a number, or one of the three float constants. *)
Definition scan_atom (lim : limits) (room : nat) (s : string) : scan pyval :=
  match strip_prefix "null" s with
  | Some r => Scanned PNone r
  | None =>
  match strip_prefix "true" s with
  | Some r => Scanned (PBool true) r
  | None =>
  match strip_prefix "false" s with
  | Some r => Scanned (PBool false) r
  | None =>
  match scan_number s with
  | Some (PInt z, r) => if too_many_digits lim z then TooLong else Scanned (PInt z) r
  | Some (v, r) => Scanned v r
  | None =>
  match strip_prefix "NaN" s with
  | Some r => constant lim room "NaN" r
  | None =>
  match strip_prefix "Infinity" s with
  | Some r => constant lim room "Infinity" r
  | None =>
  match strip_prefix "-Infinity" s with
  | Some r => constant lim room "-Infinity" r
  | None => NoValue
  end end end end end end end.

(** [scan_once] reads one value at the start of the text; [JSONArray]
    reads the elements of an array from the start of an element on;
    [JSONObject] reads the members of an object from just after the
    opening quote of a key on.  [room] is what is left of the count of
    calls, an open array or object taking one; [fuel] bounds the calls
    of this model and is there for its recursion only. *)
Fixpoint scan_once (lim : limits) (fuel room : nat) (s : string) {struct fuel}
  : scan pyval :=
  match fuel with
  | O => NoFuel
  | S fuel' =>
      match s with
      | EmptyString => NoValue
      | String c rest =>
          if Ascii.eqb c dquote then
            match scan_pieces rest with
            | Some (ps, r) => Scanned (PStr (assemble ps)) r
            | None => complain lim room
            end
          else if Ascii.eqb c "{" then
            match room with
            | O => TooDeep
            | S room' =>
                match skip_ws rest with
                | EmptyString => complain lim room'
                | String c1 r1 =>
                    if Ascii.eqb c1 "}" then Scanned (PDict []) r1
                    else if Ascii.eqb c1 dquote then JSONObject lim fuel' room' r1 []
                    else complain lim room'
                end
            end
          else if Ascii.eqb c "[" then
            match room with
            | O => TooDeep
            | S room' =>
                match skip_ws rest with
                | EmptyString => NoValue
                | String c1 r1 =>
                    if Ascii.eqb c1 "]" then Scanned (PList []) r1
                    else JSONArray lim fuel' room' (String c1 r1) []
                end
            end
          else scan_atom lim room s
      end
  end

with JSONArray (lim : limits) (fuel room : nat) (s : string) (seen : list pyval)
    {struct fuel} : scan pyval :=
  match fuel with
  | O => NoFuel
  | S fuel' =>
      match scan_once lim fuel' room s with
      | Scanned v r =>
          match skip_ws r with
          | EmptyString => complain lim room
          | String c r1 =>
              if Ascii.eqb c "]" then Scanned (PList (rev (v :: seen))) r1
              else if Ascii.eqb c ","
                   then JSONArray lim fuel' room (skip_ws r1) (v :: seen)
                   else complain lim room
          end
      | other => other
      end
  end

with JSONObject (lim : limits) (fuel room : nat) (s : string) (seen : Dict.t)
    {struct fuel} : scan pyval :=
  match fuel with
  | O => NoFuel
  | S fuel' =>
      match scan_pieces s with
      | Some (ps, r) =>
          match skip_ws r with
          | EmptyString => complain lim room
          | String c r1 =>
              if Ascii.eqb c ":" then
                match scan_once lim fuel' room (skip_ws r1) with
                | Scanned v r2 =>
                    let seen' := Dict.setitem (assemble ps) v seen in
                    match skip_ws r2 with
                    | EmptyString => complain lim room
                    | String c2 r3 =>
                        if Ascii.eqb c2 "}" then Scanned (PDict seen') r3
                        else if Ascii.eqb c2 "," then
                          match skip_ws r3 with
                          | EmptyString => complain lim room
                          | String c3 r4 =>
                              if Ascii.eqb c3 dquote
                              then JSONObject lim fuel' room r4 seen'
                              else complain lim room
                          end
                        else complain lim room
                    end
                | other => other
                end
              else complain lim room
          end
      | None => complain lim room
      end
  end.

(** The byte order mark U+FEFF, as the three bytes it has in UTF-8. *)
Definition byte_order_mark : string :=
  String (ascii_of_nat 239) (String (ascii_of_nat 187)
    (String (ascii_of_nat 191) EmptyString)).

(** A JSONDecodeError for the text [s], built [out] calls out of the
    scanner. *)
Definition decode_error (lim : limits) (out : nat) (s : string) : result pyval :=
  if Nat.ltb (max_nesting lim + out) (error_levels lim)
  then Raise RecursionError
  else Raise (JSONDecodeError s).

(** [json.loads(s)] under the limits [lim]: no byte order mark, then
    one value, surrounded by optional whitespace and nothing else.  The
    fuel is more than any text needs, so the last case does not
    arise. *)
Definition loads (lim : limits) (s : string) : result pyval :=
  match strip_prefix byte_order_mark s with
  | Some _ => decode_error lim 3 s
  | None =>
      match scan_once lim (2 * String.length s + 2) (max_nesting lim) (skip_ws s) with
      | Scanned v rest =>
          match skip_ws rest with
          | EmptyString => Ok v
          | String _ _ => decode_error lim 2 s
          end
      | Malformed => Raise (JSONDecodeError s)
      | NoValue => decode_error lim 1 s
      | TooDeep => Raise RecursionError
      | TooLong => Raise ValueError
      | NoFuel => Raise RecursionError
      end
  end.

End Json.

Import Text.

(* ================================================================= *)
(** ** The world the program runs in *)

(** *** The store: the file vc_data.db *)

(** A value as SQLite takes and keeps it.  [SqlReal] is the float
    Python read from the lexeme. *)
Inductive sqlval : Type :=
| SqlNull
| SqlInteger (z : Z)
| SqlReal (lexeme : string)
| SqlText (s : string).

(** One row of vc_firms, in the column order of the schema. *)
Record row : Type := mkRow {
  id : Z;
  name : sqlval;
  location : sqlval;
  website : sqlval;
  focus : sqlval;
  last_updated : sqlval
}.

(** The table vc_firms: its rows in rowid order, and the largest rowid
    it ever held (its entry in sqlite_sequence, 0 when it has none). *)
Record table : Type := mkTable {
  rows : list row;
  sqlite_sequence : Z
}.

(** The database holds at most the one table this program creates. *)
Record database : Type := mkDatabase {
  vc_firms : option table
}.

Definition DB_FILENAME : string := "vc_data.db".

(** *** The document tree of BeautifulSoup *)

(** [ident] stands for the identity of the Python object of a tag.
    The strings of a tree come in the classes the library gives them:
    [NavigableString] is a string of the classes get_text takes
    (NavigableString itself and CData); [Comment] is a comment, a
    doctype, a declaration or a processing instruction; [Special] is the
    text inside the element named [container], for the elements whose
    text the library sets apart in a class of its own (template, rt, rp,
    and script and style too).  Which strings are set apart is the
    parser's doing. *)
Inductive node : Type :=
| NavigableString (s : string)
| Comment (s : string)
| Special (container : string) (s : string)
| Tag (ident : nat) (name : string) (attrs : list (string * string))
      (children : list node).

(** *** Requests and responses of the two services *)

Record http_request : Type := mkHttpRequest {
  req_url : string;
  req_headers : list (string * string)
}.

Record http_response : Type := mkHttpResponse {
  status_code : Z;
  text : string
}.

Record chat_request : Type := mkChatRequest {
  model : string;
  messages : list (string * string);   (* role, content *)
  temperature : string;
  max_tokens : Z
}.

(** What print wrote: a line of text, or the tuple of a row.  The
    standard output is taken to encode every text it is given, as it
    does when its encoding is UTF-8 and its error handler lets a lone
    surrogate pass (PYTHONIOENCODING=utf-8:surrogatepass): print never
    raises. *)
Inductive printed : Type :=
| Line (s : string)
| RowTuple (r : row).

(** The state all effects act on. *)
Record world : Type := mkWorld {
  stdout : list printed;            (* everything printed so far, oldest first *)
  db_file : database;               (* the committed contents of DB_FILENAME *)
  clock_reads : nat;                (* how many times the clock was read *)
  http_sent : list http_request;    (* the requests sent, oldest first *)
  chat_sent : list chat_request     (* the completion requests sent *)
}.

(** What lies outside the program: the web, the completion service, the
    clock and the markup parser.  The first argument of the two services
    and of the clock is the number of earlier calls, so that a repeated
    call may be answered differently.  Two settings of the libraries
    belong here too: the limits of the interpreter where json.loads is
    called, and the text SQLite makes of a float, given by the lexeme
    Python read the float from, when it stores it in a TEXT column. *)
Record environment : Type := mkEnvironment {
  requests_get : nat -> string -> list (string * string) -> result http_response;
  ChatCompletion_create : nat -> chat_request -> result (list string);
  utcnow_isoformat : nat -> string;
  html_parser : string -> list node;
  json_limits : Json.limits;
  float_text : string -> string
}.

(* ================================================================= *)
(** ** The monad of effects *)

Definition M (A : Type) : Type := world -> result A * world.

Definition ret {A : Type} (a : A) : M A := fun w => (Ok a, w).

Definition raise {A : Type} (e : exn) : M A := fun w => (Raise e, w).

Definition bind {A B : Type} (m : M A) (k : A -> M B) : M B :=
  fun w =>
    match m w with
    | (Ok a, w') => k a w'
    | (Raise e, w') => (Raise e, w')
    end.

(** A computation without effects, run inside the monad. *)
Definition lift {A : Type} (r : result A) : M A := fun w => (r, w).

Declare Scope monad_scope.
Delimit Scope monad_scope with monad.
Notation "x <- m ;; k" := (bind m (fun x => k))
  (at level 61, m at next level, right associativity) : monad_scope.
Notation "m ;; k" := (bind m (fun _ => k))
  (at level 61, right associativity) : monad_scope.
Open Scope monad_scope.

Definition print (p : printed) : M unit :=
  fun w => (Ok tt, mkWorld (stdout w ++ [p]) (db_file w) (clock_reads w)
                           (http_sent w) (chat_sent w)).

(** Exceptions in computations that touch nothing of the world. *)
Definition and_then {A B : Type} (r : result A) (k : A -> result B) : result B :=
  match r with
  | Ok a => k a
  | Raise e => Raise e
  end.

Notation "'try' x ':=' r 'in' k" := (and_then r (fun x => k))
  (at level 10, x name, r at level 100, k at level 200) : monad_scope.

(* ================================================================= *)
(** The characters of a text: in its bytes, every byte that is not a
    continuation byte (128 to 191) starts a character, which takes the
    continuation bytes that follow it. *)
Definition is_continuation (c : ascii) : bool :=
  (128 <=? N_of_ascii c)%N && (N_of_ascii c <=? 191)%N.

Definition starts_inside (s : string) : bool :=
  match s with
  | String c _ => is_continuation c
  | EmptyString => false
  end.

Fixpoint code_points (s : string) : list string :=
  match s with
  | EmptyString => []
  | String c rest =>
      match code_points rest with
      | first :: others =>
          if starts_inside rest then String c first :: others
          else String c EmptyString :: first :: others
      | [] => [String c EmptyString]
      end
  end.

(** ** Python operations the program applies to decoded values *)

Definition type_name (v : pyval) : string :=
  match v with
  | PNone => "NoneType"
  | PBool _ => "bool"
  | PInt _ => "int"
  | PFloat _ => "float"
  | PStr _ => "str"
  | PList _ => "list"
  | PDict _ => "dict"
  end.

(** [record.get(key, default)]: only a dict has the method. *)
Definition py_get (record : pyval) (key : string) (default : pyval) : result pyval :=
  match record with
  | PDict d => Ok (Dict.get d key default)
  | other =>
      Raise (AttributeError ("'" ++ type_name other ++ "' object has no attribute 'get'"))
  end.

(** The elements [for x in v] goes through: the items of a list, the
    keys of a dict, the characters of a str. *)
Definition py_iter (v : pyval) : result (list pyval) :=
  match v with
  | PList items => Ok items
  | PDict d => Ok (map PStr (Dict.keys d))
  | PStr s => Ok (map PStr (code_points s))
  | other => Raise (TypeError ("'" ++ type_name other ++ "' object is not iterable"))
  end.

(** [len(v)] *)
Definition py_len (v : pyval) : result nat :=
  match v with
  | PList items => Ok (List.length items)
  | PDict d => Ok (List.length d)
  | PStr s => Ok (List.length (code_points s))
  | other => Raise (TypeError ("object of type '" ++ type_name other ++ "' has no len()"))
  end.

(* ================================================================= *)
(** ** The sqlite3 module *)

(** A connection works on its own view of the database; what it changed
    inside a transaction reaches the file at commit and is lost when
    the connection goes away without one. *)
Record connection : Type := mkConnection {
  working : database;
  in_transaction : bool
}.

Definition write_db (db : database) : M unit :=
  fun w => (Ok tt, mkWorld (stdout w) db (clock_reads w) (http_sent w) (chat_sent w)).

Definition sqlite3_connect : M connection :=
  fun w => (Ok (mkConnection (db_file w) false), w).

Definition commit (conn : connection) : M unit :=
  if in_transaction conn then write_db (working conn) else ret tt.

Definition close (conn : connection) : M unit := ret tt.

Definition empty_table : table := mkTable [] 0.

(** CREATE TABLE IF NOT EXISTS vc_firms (...).  A schema statement opens
    no transaction: outside of one it is written through at once. *)
Definition execute_create_table (conn : connection) : M connection :=
  match vc_firms (working conn) with
  | Some _ => ret conn
  | None =>
      let db' := mkDatabase (Some empty_table) in
      if in_transaction conn then ret (mkConnection db' true)
      else (write_db db' ;; ret (mkConnection db' false))
  end.

Definition fits_int64 (z : Z) : bool :=
  ((- 9223372036854775808 <=? z) && (z <=? 9223372036854775807))%Z.

(** A text holds a lone surrogate: in the bytes of the text, the byte
    237 followed by a byte from 160 to 191. *)
Fixpoint has_surrogate (s : string) : bool :=
  match s with
  | EmptyString => false
  | String a rest =>
      match rest with
      | EmptyString => false
      | String b _ =>
          (N_of_ascii a =? 237)%N
          && (160 <=? N_of_ascii b)%N && (N_of_ascii b <=? 191)%N
          || has_surrogate rest
      end
  end.

(** How a Python value is bound to a parameter of a statement.  A text
    is passed in UTF-8, which has no encoding for a lone surrogate. *)
Definition bind_param (v : pyval) : result sqlval :=
  match v with
  | PNone => Ok SqlNull
  | PBool b => Ok (SqlInteger (if b then 1 else 0))
  | PInt z => if fits_int64 z then Ok (SqlInteger z) else Raise OverflowError
  | PFloat l => if String.eqb l "NaN" then Ok SqlNull else Ok (SqlReal l)
  | PStr s => if has_surrogate s then Raise UnicodeEncodeError else Ok (SqlText s)
  | PList _ => Raise ProgrammingError
  | PDict _ => Raise ProgrammingError
  end.

(** A column declared TEXT turns a number into its text; [render] gives
    the text of a float. *)
Definition text_affinity (render : string -> string) (v : sqlval) : sqlval :=
  match v with
  | SqlInteger z => SqlText (str_of_Z z)
  | SqlReal l => SqlText (render l)
  | other => other
  end.

Definition max_rowid (rs : list row) : Z :=
  fold_right (fun r m => Z.max (id r) m) 0%Z rs.

(** INTEGER PRIMARY KEY AUTOINCREMENT: one more than the largest rowid
    the table has ever held. *)
Definition next_rowid (t : table) : Z :=
  (Z.max (sqlite_sequence t) (max_rowid (rows t)) + 1)%Z.

(** The largest rowid there is. *)
Definition largest_rowid : Z := 9223372036854775807.

Definition params5 : Type := pyval * pyval * pyval * pyval * pyval.

(** The row a statement with these parameters adds under [rowid]:
    each parameter is bound, then stored by a TEXT column. *)
Definition new_row (render : string -> string) (rowid : Z) (params : params5)
  : result row :=
  let '(p1, p2, p3, p4, p5) := params in
  try v1 := bind_param p1 in
  try v2 := bind_param p2 in
  try v3 := bind_param p3 in
  try v4 := bind_param p4 in
  try v5 := bind_param p5 in
  Ok (mkRow rowid (text_affinity render v1) (text_affinity render v2)
            (text_affinity render v3) (text_affinity render v4)
            (text_affinity render v5)).

(** INSERT INTO vc_firms (name, location, website, focus, last_updated)
    VALUES (?, ?, ?, ?, ?).  The statement opens a transaction.  The
    table is looked up when the statement is prepared and the
    parameters are bound next, in their order.  Running the statement
    takes the rowid and writes the row: once the table has held the
    largest rowid, no row can be added to it.  No column of the table
    is declared NOT NULL. *)
Definition execute_insert (render : string -> string) (params : params5)
    (conn : connection) : result connection :=
  match vc_firms (working conn) with
  | None => Raise (OperationalError "no such table: vc_firms")
  | Some t =>
      try r := new_row render (next_rowid t) params in
      if (largest_rowid <? id r)%Z
      then Raise (OperationalError "database or disk is full")
      else Ok (mkConnection (mkDatabase (Some (mkTable (rows t ++ [r]) (id r)))) true)
  end.

(** SELECT id, name, location, website, focus, last_updated FROM
    vc_firms, then fetchall: the rows as the table scan meets them. *)
Definition execute_select (conn : connection) : result (list row) :=
  match vc_firms (working conn) with
  | None => Raise (OperationalError "no such table: vc_firms")
  | Some t => Ok (rows t)
  end.

(* ================================================================= *)
(** ** BeautifulSoup: searching, removing, serialising *)

Definition name_in (names : list string) (nm : string) : bool :=
  existsb (String.eqb nm) names.

(** [soup(names)], that is find_all: the tags with one of the names, at
    any depth, in document order. *)
Fixpoint find_all (names : list string) (n : node) : list nat :=
  match n with
  | Tag i nm _ kids =>
      (if name_in names nm then [i] else []) ++ flat_map (find_all names) kids
  | _ => []
  end.

(** [tag.decompose()]: the tag of identity [i] leaves the tree with all
    that it contains.  [decompose i n] is what is left of [n]. *)
Fixpoint decompose (i : nat) (n : node) : list node :=
  match n with
  | Tag j nm attrs kids =>
      if Nat.eqb i j then []
      else [Tag j nm attrs (flat_map (decompose i) kids)]
  | other => [other]
  end.

(** The strings get_text joins when called on the document: the
    strings of the classes it takes, in document order; comments and
    the strings set apart for special elements are not among them. *)
Fixpoint all_strings (n : node) : list string :=
  match n with
  | NavigableString s => [s]
  | Comment _ => []
  | Special _ _ => []
  | Tag _ _ _ kids => flat_map all_strings kids
  end.

Definition get_text (separator : string) (soup : list node) : string :=
  join separator (flat_map all_strings soup).

(** The loop [for script in found: script.decompose()] on the tree. *)
Definition decompose_each (found : list nat) (soup : list node) : list node :=
  fold_left (fun tree script => flat_map (decompose script) tree) found soup.

(* ================================================================= *)
(** ** The program *)

Section Program.

Variable env : environment.

(** *** Calls that leave the program *)

Definition requests_get_call (url : string) (headers : list (string * string))
  : M http_response :=
  fun w =>
    (requests_get env (List.length (http_sent w)) url headers,
     mkWorld (stdout w) (db_file w) (clock_reads w)
             (http_sent w ++ [mkHttpRequest url headers]) (chat_sent w)).

Definition ChatCompletion_create_call (request : chat_request) : M (list string) :=
  fun w =>
    (ChatCompletion_create env (List.length (chat_sent w)) request,
     mkWorld (stdout w) (db_file w) (clock_reads w)
             (http_sent w) (chat_sent w ++ [request])).

(** [datetime.utcnow().isoformat()] *)
Definition utcnow_isoformat_call : M string :=
  fun w =>
    (Ok (utcnow_isoformat env (clock_reads w)),
     mkWorld (stdout w) (db_file w) (S (clock_reads w)) (http_sent w) (chat_sent w)).

(** *** 2. Data ingestion layer *)

Definition fetch_web_page (url : string) : M string :=
  let headers := [("User-Agent", "Mozilla/5.0")] in
  response <- requests_get_call url headers ;;
  if negb (status_code response =? 200)%Z
  then raise (Exception ("Error fetching " ++ url ++ ": "
                         ++ str_of_Z (status_code response)))
  else ret (text response).

Definition parse_html_to_text (html_content : string) : string :=
  let soup := html_parser env html_content in
  let soup := decompose_each (flat_map (find_all ["script"; "style"]) soup) soup in
  get_text nl soup.

(** *** 3. Data extraction layer *)

Definition prompt_of (text : string) : string :=
  nl ++ "You are an expert data extractor. Your task is to analyze the following text and extract a list of venture capital (VC) firms."
  ++ nl ++ "For each VC firm, provide:"
  ++ nl ++ "- " ++ quoted "Name" ++ ": The name of the VC firm."
  ++ nl ++ "- " ++ quoted "Location" ++ ": The headquarters or main location."
  ++ nl ++ "- " ++ quoted "Website" ++ ": The website URL."
  ++ nl ++ "- " ++ quoted "Focus" ++ ": The sectors or industries the firm invests in (if available)."
  ++ nl ++ "Output the result as a JSON array where each element is an object with these keys."
  ++ nl
  ++ nl ++ "Text to analyze:"
  ++ nl ++ text
  ++ nl.

(** The arguments of ChatCompletion.create. *)
Definition completion_request (prompt : string) : chat_request :=
  mkChatRequest "gpt-4"
    [("system", "You are an expert data extractor."); ("user", prompt)]
    "0.0" 1500.

Definition extract_vc_data (text : string) : M pyval :=
  let prompt := prompt_of text in
  response <- ChatCompletion_create_call (completion_request prompt) ;;
  reply <- lift (match response with
                 | first :: _ => Ok first
                 | [] => Raise IndexError
                 end) ;;
  match Json.loads (json_limits env) reply with
  | Ok vc_list => ret vc_list
  | Raise e =>
      print (Line "Failed to parse GPT response. Raw reply:") ;;
      print (Line reply) ;;
      raise e
  end.

(** *** 4. Data storage layer *)

Definition initialize_database : M pyval :=
  conn <- sqlite3_connect ;;
  conn <- execute_create_table conn ;;
  commit conn ;;
  close conn ;;
  ret PNone.

(** The tuple of parameters built for one record. *)
Definition row_params (record : pyval) (now : string) : result params5 :=
  try v_name := py_get record "Name" (PStr EmptyString) in
  try v_location := py_get record "Location" (PStr EmptyString) in
  try v_website := py_get record "Website" (PStr EmptyString) in
  try v_focus := py_get record "Focus" (PStr EmptyString) in
  Ok (v_name, v_location, v_website, v_focus, PStr now).

(** The for loop of insert_vc_records, on the connection it mutates. *)
Fixpoint insert_each (now : string) (records : list pyval) (conn : connection)
  : result connection :=
  match records with
  | [] => Ok conn
  | record :: rest =>
      try params := row_params record now in
      try conn' := execute_insert (float_text env) params conn in
      insert_each now rest conn'
  end.

Definition insert_vc_records (vc_records : pyval) : M pyval :=
  conn <- sqlite3_connect ;;
  now <- utcnow_isoformat_call ;;
  records <- lift (py_iter vc_records) ;;
  conn <- lift (insert_each now records conn) ;;
  commit conn ;;
  close conn ;;
  n <- lift (py_len vc_records) ;;
  print (Line ("Inserted " ++ str_of_nat n ++ " records into the database.")) ;;
  ret PNone.

Fixpoint print_rows (rs : list row) : M unit :=
  match rs with
  | [] => ret tt
  | r :: rest => print (RowTuple r) ;; print_rows rest
  end.

Definition query_all_vc_records : M pyval :=
  conn <- sqlite3_connect ;;
  rows <- lift (execute_select conn) ;;
  close conn ;;
  print (Line "Current VC Records:") ;;
  print_rows rows ;;
  ret PNone.

End Program.

(* ================================================================= *)
(** ** The console front end *)

(** *** str.strip

    The characters Python strips are those str.isspace accepts; on the
    UTF-8 bytes of a text they are the single bytes 9 to 13, 28 to 31
    and 32, and the encodings of U+0085, U+00A0, U+1680, U+2000 to
    U+200A, U+2028, U+2029, U+202F, U+205F and U+3000. *)

Module Str.

Definition code (c : ascii) : N := N_of_ascii c.

Definition is_space1 (a : ascii) : bool :=
  let n := code a in
  ((9 <=? n) && (n <=? 13) || (28 <=? n) && (n <=? 32))%N.

Definition is_space2 (a b : ascii) : bool :=
  ((code a =? 194) && ((code b =? 133) || (code b =? 160)))%N.

Definition is_space3 (a b c : ascii) : bool :=
  ((code a =? 225) && (code b =? 154) && (code c =? 128)
   || (code a =? 226) && (code b =? 128)
      && ((128 <=? code c) && (code c <=? 138)
          || (code c =? 168) || (code c =? 169) || (code c =? 175))
   || (code a =? 226) && (code b =? 129) && (code c =? 159)
   || (code a =? 227) && (code b =? 128) && (code c =? 128))%N.

(** Drop the whitespace characters a text starts with; [sp2] and [sp3]
    recognise the characters of two and of three bytes. *)
Fixpoint drop_spaces (sp2 : ascii -> ascii -> bool)
    (sp3 : ascii -> ascii -> ascii -> bool) (s : string) : string :=
  match s with
  | EmptyString => s
  | String a r1 =>
      if is_space1 a then drop_spaces sp2 sp3 r1
      else
        match r1 with
        | EmptyString => s
        | String b r2 =>
            if sp2 a b then drop_spaces sp2 sp3 r2
            else
              match r2 with
              | EmptyString => s
              | String c r3 =>
                  if sp3 a b c then drop_spaces sp2 sp3 r3 else s
              end
        end
  end.

Definition reverse (s : string) : string :=
  string_of_list_ascii (rev (list_ascii_of_string s)).

Definition lstrip (s : string) : string := drop_spaces is_space2 is_space3 s.

(** From the right, the bytes of a character come last byte first. *)
Definition rstrip (s : string) : string :=
  reverse (drop_spaces (fun a b => is_space2 b a)
                       (fun a b c => is_space3 c b a) (reverse s)).

(** [s.strip()] *)
Definition strip (s : string) : string := rstrip (lstrip s).

End Str.

(** What the front end needs besides the environment of the pipeline:
    the variables of the process, the line typed at the prompt (or the
    exception input raises), and json.dumps with indent=2. *)
Record shell : Type := mkShell {
  getenv : string -> option string;
  input : string -> result string;
  json_dumps : pyval -> string
}.

Section FrontEnd.

Variable env : environment.
Variable sh : shell.

(** *** 1. Configuration: the statements run when the file is loaded *)

Definition startup : result string :=
  match getenv sh "OPENAI_API_KEY" with
  | Some api_key =>
      if String.eqb api_key EmptyString
      then Raise (Exception "OPENAI_API_KEY environment variable not set.")
      else Ok api_key
  | None => Raise (Exception "OPENAI_API_KEY environment variable not set.")
  end.

(** *** 5. Main routine

    The prompt of input reaches the terminal through input itself; the
    log of the world holds what print wrote. *)
Definition main : M pyval :=
  initialize_database ;;
  source_url <- lift (try line := input sh "Enter the URL of a VC directory page: " in
                      Ok (Str.strip line)) ;;
  print (Line "Fetching web page content...") ;;
  html <- fetch_web_page env source_url ;;
  print (Line "Parsing HTML to extract text...") ;;
  let text := parse_html_to_text env html in
  print (Line "Extracting VC data from text using AI...") ;;
  vc_data <- extract_vc_data env text ;;
  print (Line "Extracted Data:") ;;
  print (Line (json_dumps sh vc_data)) ;;
  print (Line "Saving data into the database...") ;;
  insert_vc_records env vc_data ;;
  query_all_vc_records ;;
  ret PNone.

(** Running the file: the configuration, then main. *)
Definition script : M pyval :=
  lift startup ;;
  main.

End FrontEnd.

(* ================================================================= *)
(** ** Vocabulary of the statements *)

(** The rows the file holds (none while the table does not exist). *)
Definition stored_rows (db : database) : list row :=
  match vc_firms db with
  | Some t => rows t
  | None => []
  end.

Fixpoint ascending (zs : list Z) : bool :=
  match zs with
  | a :: tl =>
      match tl with
      | b :: _ => (a <? b)%Z && ascending tl
      | [] => true
      end
  | [] => true
  end.

(** The world after the clock was read at the start of a batch. *)
Definition after_clock (w : world) : world :=
  mkWorld (stdout w) (db_file w) (S (clock_reads w)) (http_sent w) (chat_sent w).

(** The line insert_vc_records prints for a batch of [n] records. *)
Definition inserted_line (n : nat) : printed :=
  Line ("Inserted " ++ str_of_nat n ++ " records into the database.").

(** The rows carry the rowids [first], [first + 1], ... in this order. *)
Fixpoint numbered_from (first : Z) (rs : list row) : bool :=
  match rs with
  | [] => true
  | r :: tl => (id r =? first)%Z && numbered_from (first + 1) tl
  end.

(** [r] is the row the INSERT of insert_vc_records writes for [record]
    at the instant [now], under the rowid [r] carries. *)
Definition row_of_record (env : environment) (now : string) (record : pyval)
    (r : row) : Prop :=
  exists params,
    row_params record now = Ok params
    /\ new_row (float_text env) (id r) params = Ok r.

(** The table has rowids left for [n] more rows. *)
Definition has_room (t : table) (n : nat) : bool :=
  Nat.eqb n 0 || (next_rowid t + Z.of_nat n <=? largest_rowid + 1)%Z.

(** The text the clock shows at its next reading has no lone
    surrogate: SQLite takes it as a parameter. *)
Definition plain_instant (env : environment) (w : world) : bool :=
  negb (has_surrogate (utcnow_isoformat env (clock_reads w))).

(** A record: a JSON object. *)
Definition is_object (v : pyval) : bool :=
  match v with
  | PDict _ => true
  | _ => false
  end.

(** Only a JSON array all of whose elements are objects is a list of
    records. *)
Definition is_array_of_objects (v : pyval) : bool :=
  match v with
  | PList items => forallb is_object items
  | _ => false
  end.

Definition field_keys : list string := ["Name"; "Location"; "Website"; "Focus"].

(** A value SQLite takes as a parameter. *)
Definition bindable (v : pyval) : bool :=
  match bind_param v with
  | Ok _ => true
  | Raise _ => false
  end.

(** A record the INSERT statement accepts: an object whose four fields,
    where present, hold values SQLite takes. *)
Definition storable (record : pyval) : bool :=
  match record with
  | PDict d =>
      forallb (fun k => bindable (Dict.get d k (PStr EmptyString))) field_keys
  | _ => false
  end.

(** What a record gives for a key, read from its entries: the value
    the key is paired with, or the empty string when no entry has the
    key. *)
Definition field_of (d : Dict.t) (k : string) (v : pyval) : Prop :=
  In (k, v) d \/ (~ In k (Dict.keys d) /\ v = PStr EmptyString).

(** An object has each of its keys once. *)
Definition unique_keys (v : pyval) : Prop :=
  match v with
  | PDict d => NoDup (Dict.keys d)
  | _ => True
  end.

(** Two objects with the same entries under the four keys. *)
Definition same_fields (d1 d2 : Dict.t) : Prop :=
  forall k, In k field_keys -> Dict.lookup k d1 = Dict.lookup k d2.

(** The identities of all tags of a tree, and the names they carry. *)
Fixpoint tags (n : node) : list (nat * string) :=
  match n with
  | Tag i nm _ kids => (i, nm) :: flat_map tags kids
  | _ => []
  end.

(** The strings of the text nodes that lie in no script or style
    element, in document order. *)
Fixpoint content_strings (n : node) : list string :=
  match n with
  | NavigableString s => [s]
  | Comment _ => []
  | Special _ _ => []
  | Tag _ nm _ kids =>
      if name_in ["script"; "style"] nm then []
      else flat_map content_strings kids
  end.

(** The tag has one of the names. *)
Definition wanted (names : list string) (tag : nat * string) : bool :=
  name_in names (snd tag).

(** The tree without the tags whose identity is in [ids]. *)
Fixpoint prune (ids : list nat) (n : node) : list node :=
  match n with
  | Tag j nm attrs kids =>
      if existsb (Nat.eqb j) ids then []
      else [Tag j nm attrs (flat_map (prune ids) kids)]
  | other => [other]
  end.

(** No number occurs twice. *)
Fixpoint distinct (l : list nat) : bool :=
  match l with
  | [] => true
  | a :: tl => negb (existsb (Nat.eqb a) tl) && distinct tl
  end.

(** Every tag of the tree is its own Python object. *)
Definition well_identified (soup : list node) : bool :=
  distinct (map fst (flat_map tags soup)).

(** *** A scripted environment and sample data, for concrete runs *)

Module Demo.

(** An environment that answers every request with the same status and
    body, every completion with the same reply, parses every markup to
    the same tree, and whose clock shows one fixed instant.  The limits
    are those of CPython 3.11 with its default settings running the
    file as a script, and the text of a float is right for the floats
    of the sample data. *)
Definition scripted (status : Z) (body reply : string) (soup : list node)
  : environment :=
  mkEnvironment
    (fun _ _ _ => Ok (mkHttpResponse status body))
    (fun _ _ => Ok [reply])
    (fun _ => "2024-05-01T12:00:00.000000")
    (fun _ => soup)
    (Json.mkLimits 993 4300 1 3)
    (fun lexeme =>
       if String.eqb lexeme "1e2" then "100.0"
       else if String.eqb lexeme "Infinity" then "Inf"
       else lexeme).

Definition page : list node :=
  [Tag 0 "html" []
     [Tag 1 "head" []
        [Tag 2 "style" [] [NavigableString "p { color: red }"];
         Tag 3 "title" [] [NavigableString "Directory"]];
      Tag 4 "body" []
        [Tag 5 "p" [] [NavigableString "Acme Ventures"; Comment "hidden"];
         Tag 6 "script" [("type", "text/javascript")]
           [NavigableString "track()"];
         Tag 7 "p" [] [NavigableString "SF"]]]].

Definition field (k v : string) : string := quoted k ++ ":" ++ quoted v.

(** The reply of the last scenario of the specification. *)
Definition acme_reply : string :=
  "[{" ++ field "Name" "Acme Ventures" ++ "," ++ field "Location" "SF" ++ ","
       ++ field "Website" "acme.vc" ++ "," ++ field "Focus" "seed" ++ "}]".

Definition acme : pyval :=
  PDict [("Name", PStr "Acme Ventures"); ("Location", PStr "SF");
         ("Website", PStr "acme.vc"); ("Focus", PStr "seed")].

(** A reply whose objects leave keys out. *)
Definition sparse_reply : string :=
  "[{" ++ field "Name" "Acme Ventures" ++ "," ++ field "Focus" "seed" ++ "}, {}]".

Definition sparse : list pyval :=
  [PDict [("Name", PStr "Acme Ventures"); ("Focus", PStr "seed")]; PDict []].




Definition env : environment := scripted 200 "<p>Acme Ventures</p>" acme_reply page.

(** Nothing printed, no store yet, nothing sent. *)
Definition fresh : world := mkWorld [] (mkDatabase None) 0 [] [].

(** A world whose store has been initialised and is empty. *)
Definition ready : world := mkWorld [] (mkDatabase (Some empty_table)) 0 [] [].

End Demo.

(** *** Vocabulary and sample data for the front end *)

(** The database after initialize_database: the table is created,
    empty, when it was not there. *)
Definition initialized (db : database) : database :=
  match vc_firms db with
  | Some _ => db
  | None => mkDatabase (Some empty_table)
  end.

(** The world after these items were printed. *)
Definition printing (items : list printed) (w : world) : world :=
  mkWorld (stdout w ++ items) (db_file w) (clock_reads w)
          (http_sent w) (chat_sent w).

(** The request fetch_web_page sends for a URL. *)
Definition page_request (url : string) : http_request :=
  mkHttpRequest url [("User-Agent", "Mozilla/5.0")].

(** The prompt main shows. *)
Definition url_prompt : string := "Enter the URL of a VC directory page: ".

(** The part of the prompt of extract_vc_data that comes before the
    text of the page. *)
Definition instructions : string :=
  nl ++ "You are an expert data extractor. Your task is to analyze the following text and extract a list of venture capital (VC) firms."
  ++ nl ++ "For each VC firm, provide:"
  ++ nl ++ "- " ++ quoted "Name" ++ ": The name of the VC firm."
  ++ nl ++ "- " ++ quoted "Location" ++ ": The headquarters or main location."
  ++ nl ++ "- " ++ quoted "Website" ++ ": The website URL."
  ++ nl ++ "- " ++ quoted "Focus" ++ ": The sectors or industries the firm invests in (if available)."
  ++ nl ++ "Output the result as a JSON array where each element is an object with these keys."
  ++ nl
  ++ nl ++ "Text to analyze:"
  ++ nl.

(** The one request extract_vc_data sends for the text of a page: the
    instructions, the text, a line feed. *)
Definition request_for (page_text : string) : chat_request :=
  mkChatRequest "gpt-4"
    [("system", "You are an expert data extractor.");
     ("user", instructions ++ page_text ++ nl)]
    "0.0" 1500.

(** What a column holds for what the record has under its key: the
    empty text for no entry, NULL for null, the text itself for a text,
    the decimal text of an integer, 1 and 0 for a boolean, and the text
    SQLite makes of a float.  An array or an object cannot be stored. *)
Definition column_holds (env : environment) (entry : option pyval) (x : sqlval)
  : Prop :=
  match entry with
  | None => x = SqlText EmptyString
  | Some PNone => x = SqlNull
  | Some (PBool b) => x = SqlText (if b then "1" else "0")
  | Some (PInt z) => x = SqlText (str_of_Z z)
  | Some (PFloat l) =>
      x = if String.eqb l "NaN" then SqlNull else SqlText (float_text env l)
  | Some (PStr s) => x = SqlText s
  | Some (PList _) => False
  | Some (PDict _) => False
  end.

(** The row holds, column by column, what the record has under the
    four keys, and the instant [now]. *)
Definition row_holds (env : environment) (now : string) (record : pyval)
    (r : row) : Prop :=
  match record with
  | PDict d =>
      column_holds env (Dict.lookup "Name" d) (name r)
      /\ column_holds env (Dict.lookup "Location" d) (location r)
      /\ column_holds env (Dict.lookup "Website" d) (website r)
      /\ column_holds env (Dict.lookup "Focus" d) (focus r)
      /\ last_updated r = SqlText now
  | _ => False
  end.

(** The rows of the second list continue the first. *)
Definition extends (before after : list row) : Prop :=
  exists new : list row, after = (before ++ new)%list.

Module Run.

(** A shell with the API key set, where [line] is typed at the prompt;
    json.dumps is replaced by a fixed text. *)
Definition typing (line : string) : shell :=
  mkShell (fun v => if String.eqb v "OPENAI_API_KEY" then Some "sk-test" else None)
          (fun _ => Ok line)
          (fun _ => "[...]").

(** A shell where the API key is set to the empty string. *)
Definition empty_key : shell :=
  mkShell (fun v => if String.eqb v "OPENAI_API_KEY" then Some EmptyString else None)
          (fun _ => Ok "http://vc.example/list")
          (fun _ => "[...]").

(** A store that already holds one row. *)
Definition one_row : row :=
  mkRow 7 (SqlText "Old Fund") (SqlText "NYC") (SqlText "old.vc")
          (SqlText "growth") (SqlText "2023-01-01T00:00:00").

Definition stocked : world :=
  mkWorld [] (mkDatabase (Some (mkTable [one_row] 7))) 3 [] [].

(** A text that is one lone surrogate, U+D800, as json.loads makes it
    of an escape: Python has no UTF-8 for it. *)
Definition lone : pyval :=
  PStr (String (ascii_of_nat 237) (String (ascii_of_nat 160)
         (String (ascii_of_nat 128) EmptyString))).

(** A page without script and without style; two tags share an
    identity, and the text of the template is set apart. *)
Definition plain_page : list node :=
  [Tag 0 "p" [] [NavigableString "Acme Ventures"; Comment "hidden"];
   Tag 2 "template" [] [Special "template" "draft"];
   Tag 0 "p" [] [Tag 1 "b" [] [NavigableString "SF"]]].

End Run.

(* ================================================================= *)
(** * Properties *)

(** ** The page fetcher *)

(** C5. When the transport answers a GET for [url] with a response,
    fetch_web_page returns the body of the response as it is if the
    status is exactly 200; for every other status it raises an
    exception whose message holds the URL and the status code.  In both
    cases exactly one request was sent: nothing is retried. *)
Theorem fetch_web_page_status :
  forall (env : environment) (url : string) (w : world) (response : http_response),
    requests_get env (List.length (http_sent w)) url [("User-Agent", "Mozilla/5.0")]
      = Ok response ->
    (status_code response = 200%Z ->
       fst (fetch_web_page env url w) = Ok (text response))
    /\ (status_code response <> 200%Z ->
       fst (fetch_web_page env url w)
         = Raise (Exception ("Error fetching " ++ url ++ ": "
                             ++ str_of_Z (status_code response))))
    /\ http_sent (snd (fetch_web_page env url w))
         = (http_sent w ++ [mkHttpRequest url [("User-Agent", "Mozilla/5.0")]])%list.
Proof.
  intros env url w response Hget.
  unfold fetch_web_page, bind, requests_get_call.
  rewrite Hget.
  destruct (Z.eqb_spec (status_code response) 200) as [E | E]; cbn.
  - split; [ reflexivity | split; [ intros Hne; contradiction | reflexivity ] ].
  - split; [ intros Heq; contradiction | split; reflexivity ].
Qed.

Lemma fetch_web_page_status_witness :
  fst (fetch_web_page (Demo.scripted 404 "gone" "" []) "http://vc.example/list" Demo.fresh)
    = Raise (Exception "Error fetching http://vc.example/list: 404")
  /\ fst (fetch_web_page Demo.env "http://vc.example/list" Demo.fresh)
    = Ok "<p>Acme Ventures</p>".
Proof.
  split.
  - apply (fetch_web_page_status (Demo.scripted 404 "gone" "" [])
             "http://vc.example/list" Demo.fresh
             (mkHttpResponse 404 "gone")).
    + reflexivity.
    + cbn. lia.
  - apply (fetch_web_page_status Demo.env "http://vc.example/list" Demo.fresh
             (mkHttpResponse 200 "<p>Acme Ventures</p>")).
    + reflexivity.
    + reflexivity.
Defined.

(* ================================================================= *)
(* ================================================================= *)
(** ** The JSON decoder is total

    The fuel [Json.loads] gives the scanner is a termination measure
    only: it never runs out, and more of it changes nothing.  What
    stops the decoder early are the two limits of the interpreter: the
    calls it allows to run at a time and the digits it allows in an
    integer. *)

Module JsonFacts.
Import Json.

Lemma skip_ws_length :
  forall s : string, String.length (skip_ws s) <= String.length s.
Proof.
  induction s as [| c s IH]; cbn; [ lia | ].
  destruct (is_ws c); cbn; lia.
Qed.

Lemma strip_prefix_length :
  forall (p s r : string),
    strip_prefix p s = Some r ->
    String.length s = String.length p + String.length r.
Proof.
  induction p as [| a p IH]; intros s r H; cbn in H.
  - injection H as ->. reflexivity.
  - destruct s as [| b s]; [ discriminate | ].
    destruct (Ascii.eqb a b); [ | discriminate ].
    cbn. rewrite (IH _ _ H). reflexivity.
Qed.

Lemma span_digits_length :
  forall (s ds r : string),
    span_digits s = (ds, r) ->
    String.length s = String.length ds + String.length r.
Proof.
  induction s as [| c s IH]; intros ds r H; cbn in H.
  - injection H as <- <-. reflexivity.
  - destruct (is_digit c).
    + destruct (span_digits s) as [ds' r'] eqn:E. injection H as <- <-.
      cbn. rewrite (IH _ _ eq_refl). reflexivity.
    + injection H as <- <-. reflexivity.
Qed.

Lemma scan_int_length :
  forall (s ds r : string),
    scan_int s = Some (ds, r) -> String.length r < String.length s.
Proof.
  intros [| c s] ds r H; cbn [scan_int] in H; [ discriminate | ].
  destruct (is_digit c) eqn:Hc; [ | discriminate ].
  destruct (Ascii.eqb c "0").
  - injection H as <- <-. cbn. lia.
  - cbn [span_digits] in H. rewrite Hc in H. destruct (span_digits s) as [ds' r'] eqn:E.
    injection H as <- <-. apply span_digits_length in E. cbn. lia.
Qed.

Lemma scan_frac_length :
  forall (s f r : string),
    scan_frac s = (f, r) -> String.length r <= String.length s.
Proof.
  intros [| d s] f r H; cbn in H.
  - injection H as <- <-. cbn. lia.
  - destruct (Ascii.eqb d ".").
    + destruct (span_digits s) as [[| c fd] r2] eqn:E.
      * injection H as <- <-. cbn. lia.
      * injection H as <- <-. apply span_digits_length in E. cbn in *. lia.
    + injection H as <- <-. cbn. lia.
Qed.

Lemma scan_sign_length :
  forall (s sg r : string),
    scan_sign s = (sg, r) -> String.length r <= String.length s.
Proof.
  intros [| c s] sg r H; cbn in H.
  - injection H as <- <-. cbn. lia.
  - destruct (Ascii.eqb c "-" || Ascii.eqb c "+"); injection H as <- <-; cbn; lia.
Qed.

Lemma scan_exp_length :
  forall (s e r : string),
    scan_exp s = (e, r) -> String.length r <= String.length s.
Proof.
  intros [| c s] e r H; cbn in H.
  - injection H as <- <-. cbn. lia.
  - destruct (Ascii.eqb c "e" || Ascii.eqb c "E").
    + destruct (scan_sign s) as [sg r2] eqn:Hs. apply scan_sign_length in Hs.
      destruct (span_digits r2) as [[| d ed] r3] eqn:E.
      * injection H as <- <-. cbn. lia.
      * injection H as <- <-. apply span_digits_length in E. cbn in *. lia.
    + injection H as <- <-. cbn. lia.
Qed.

Lemma scan_number_length :
  forall (s : string) (v : pyval) (r : string),
    scan_number s = Some (v, r) -> String.length r < String.length s.
Proof.
  intros s v r H. unfold scan_number in H.
  set (split := match s with
                | String c r0 => if Ascii.eqb c "-" then (true, r0) else (false, s)
                | EmptyString => (false, s)
                end) in H.
  assert (Hsplit : String.length (snd split) <= String.length s).
  { subst split. destruct s as [| c r0]; cbn; [ lia | ].
    destruct (Ascii.eqb c "-"); cbn; lia. }
  destruct split as [neg s1]. cbn [snd] in Hsplit.
  destruct (scan_int s1) as [[ds rest] |] eqn:Hint; [ | discriminate ].
  apply scan_int_length in Hint.
  destruct (scan_frac rest) as [frac rest1] eqn:Hfrac. apply scan_frac_length in Hfrac.
  destruct (scan_exp rest1) as [expo rest2] eqn:Hexp. apply scan_exp_length in Hexp.
  assert (r = rest2) by (destruct frac, expo; injection H as _ <-; reflexivity).
  subst r. lia.
Qed.

(** An error the scanner meets gives no value and takes no fuel. *)
Lemma complain_scanned :
  forall (A : Type) (lim : limits) (room : nat) (a : A) (r : string),
    complain lim room = Scanned a r -> False.
Proof.
  intros A lim room a r H. unfold complain in H.
  destruct (Nat.ltb room (error_levels lim)); discriminate.
Qed.

Lemma complain_fuel :
  forall (A : Type) (lim : limits) (room : nat),
    @complain A lim room <> NoFuel.
Proof.
  intros A lim room. unfold complain.
  destruct (Nat.ltb room (error_levels lim)); discriminate.
Qed.

Ltac no_value H :=
  solve [ discriminate H | exfalso; exact (complain_scanned _ _ _ _ _ H) ].

Lemma constant_scanned :
  forall (lim : limits) (room : nat) (lexeme rest : string) (v : pyval) (r : string),
    constant lim room lexeme rest = Scanned v r -> v = PFloat lexeme /\ r = rest.
Proof.
  intros lim room lexeme rest v r H. unfold constant in H.
  destruct (Nat.ltb room (constant_levels lim)); [ discriminate | ].
  injection H as <- <-. split; reflexivity.
Qed.

Lemma constant_fuel :
  forall (lim : limits) (room : nat) (lexeme rest : string),
    constant lim room lexeme rest <> NoFuel.
Proof.
  intros lim room lexeme rest. unfold constant.
  destruct (Nat.ltb room (constant_levels lim)); discriminate.
Qed.

Lemma scan_atom_length :
  forall (lim : limits) (room : nat) (s : string) (v : pyval) (r : string),
    scan_atom lim room s = Scanned v r -> String.length r < String.length s.
Proof.
  intros lim room s v r H. unfold scan_atom in H.
  destruct (strip_prefix "null" s) eqn:E1;
    [ injection H as _ <-; apply strip_prefix_length in E1; cbn in E1; lia | ].
  destruct (strip_prefix "true" s) eqn:E2;
    [ injection H as _ <-; apply strip_prefix_length in E2; cbn in E2; lia | ].
  destruct (strip_prefix "false" s) eqn:E3;
    [ injection H as _ <-; apply strip_prefix_length in E3; cbn in E3; lia | ].
  destruct (scan_number s) as [[v' r'] |] eqn:E4.
  { apply scan_number_length in E4.
    destruct v'; try (injection H as _ <-; exact E4).
    destruct (too_many_digits lim z); [ discriminate | ].
    injection H as _ <-; exact E4. }
  destruct (strip_prefix "NaN" s) eqn:E5;
    [ apply constant_scanned in H; destruct H as [_ ->];
      apply strip_prefix_length in E5; cbn in E5; lia | ].
  destruct (strip_prefix "Infinity" s) eqn:E6;
    [ apply constant_scanned in H; destruct H as [_ ->];
      apply strip_prefix_length in E6; cbn in E6; lia | ].
  destruct (strip_prefix "-Infinity" s) eqn:E7;
    [ apply constant_scanned in H; destruct H as [_ ->];
      apply strip_prefix_length in E7; cbn in E7; lia | ].
  discriminate.
Qed.

Lemma push_scanned :
  forall (p : piece) (res : option (list piece * string)) (ps : list piece)
         (r : string),
    push p res = Some (ps, r) -> exists ps', res = Some (ps', r).
Proof.
  intros p [[ps' r'] |] ps r H; cbn in H; [ | discriminate ].
  injection H as _ <-. exists ps'. reflexivity.
Qed.

Lemma scan_pieces_length :
  forall (s : string) (ps : list piece) (r : string),
    scan_pieces s = Some (ps, r) -> String.length r < String.length s.
Proof.
  intros s. remember (String.length s) as n eqn:Hn.
  revert s Hn. induction n as [n IH] using lt_wf_ind. intros s Hn ps r H.
  destruct s as [| c rest]; [ discriminate | ]. cbn [scan_pieces] in H.
  cbn [String.length] in Hn.
  destruct (Ascii.eqb c dquote); [ injection H as _ <-; cbn in *; lia | ].
  destruct (Ascii.eqb c backslash).
  - destruct rest as [| e rest1]; [ discriminate | ].
    destruct (Ascii.eqb e "u").
    + destruct rest1 as [| h1 [| h2 [| h3 [| h4 rest2]]]]; try discriminate.
      destruct (hex4 h1 h2 h3 h4); [ | discriminate ].
      apply push_scanned in H. destruct H as [ps' H].
      apply (IH (String.length rest2)) in H; [ | cbn in Hn; lia | reflexivity ].
      cbn in *. lia.
    + destruct (simple_escape e); [ | discriminate ].
      apply push_scanned in H. destruct H as [ps' H].
      apply (IH (String.length rest1)) in H; [ | cbn in Hn; lia | reflexivity ].
      cbn in *. lia.
  - destruct (N_of_ascii c <? 32)%N; [ discriminate | ].
    apply push_scanned in H. destruct H as [ps' H].
    apply (IH (String.length rest)) in H; [ | lia | reflexivity ].
    cbn in *. lia.
Qed.

Lemma scan_atom_fuel :
  forall (lim : limits) (room : nat) (s : string), scan_atom lim room s <> NoFuel.
Proof.
  intros lim room s. unfold scan_atom.
  destruct (strip_prefix "null" s); [ discriminate | ].
  destruct (strip_prefix "true" s); [ discriminate | ].
  destruct (strip_prefix "false" s); [ discriminate | ].
  destruct (scan_number s) as [[v' r'] |];
    [ destruct v'; try discriminate;
      destruct (too_many_digits lim z); discriminate | ].
  destruct (strip_prefix "NaN" s); [ apply constant_fuel | ].
  destruct (strip_prefix "Infinity" s); [ apply constant_fuel | ].
  destruct (strip_prefix "-Infinity" s); [ apply constant_fuel | ].
  discriminate.
Qed.

(** What follows a skipped run of whitespace is no longer than the text. *)
Lemma skip_ws_cons :
  forall (s : string) (c : ascii) (r : string),
    skip_ws s = String c r -> String.length r < String.length s.
Proof.
  intros s c r H. pose proof (skip_ws_length s) as Hle.
  rewrite H in Hle. cbn in Hle. lia.
Qed.

(** Every scanner consumes at least one character. *)
Lemma scan_shrinks :
  forall (lim : limits) (fuel : nat),
    (forall room s v r, scan_once lim fuel room s = Scanned v r ->
                        String.length r < String.length s)
    /\ (forall room s seen v r, JSONArray lim fuel room s seen = Scanned v r ->
                                String.length r < String.length s)
    /\ (forall room s seen v r, JSONObject lim fuel room s seen = Scanned v r ->
                                String.length r < String.length s).
Proof.
  intros lim. induction fuel as [| fuel (IHv & IHa & IHo)].
  - repeat split; intros; discriminate.
  - split; [ | split ].
    + intros room s v r H. cbn [scan_once] in H.
      destruct s as [| c rest]; [ discriminate | ].
      destruct (Ascii.eqb c dquote).
      { destruct (scan_pieces rest) as [[ps r'] |] eqn:E; [ | no_value H ].
        injection H as _ <-. apply scan_pieces_length in E. cbn. lia. }
      destruct (Ascii.eqb c "{").
      { destruct room as [| room']; [ discriminate | ].
        destruct (skip_ws rest) as [| c1 r1] eqn:E; [ no_value H | ].
        apply skip_ws_cons in E.
        destruct (Ascii.eqb c1 "}"); [ injection H as _ <-; cbn; lia | ].
        destruct (Ascii.eqb c1 dquote); [ | no_value H ].
        apply IHo in H. cbn. lia. }
      destruct (Ascii.eqb c "[").
      { destruct room as [| room']; [ discriminate | ].
        destruct (skip_ws rest) as [| c1 r1] eqn:E; [ discriminate | ].
        apply skip_ws_cons in E.
        destruct (Ascii.eqb c1 "]"); [ injection H as _ <-; cbn; lia | ].
        apply IHa in H. cbn in *. lia. }
      exact (scan_atom_length _ _ _ _ _ H).
    + intros room s seen v r H. cbn [JSONArray] in H.
      destruct (scan_once lim fuel room s) as [v1 r1 | | | | |] eqn:E1;
        try discriminate.
      apply IHv in E1.
      destruct (skip_ws r1) as [| c r2] eqn:E2; [ no_value H | ].
      apply skip_ws_cons in E2.
      destruct (Ascii.eqb c "]"); [ injection H as _ <-; lia | ].
      destruct (Ascii.eqb c ","); [ | no_value H ].
      apply IHa in H. pose proof (skip_ws_length r2). lia.
    + intros room s seen v r H. cbn [JSONObject] in H.
      destruct (scan_pieces s) as [[ps r1] |] eqn:E1; [ | no_value H ].
      apply scan_pieces_length in E1.
      destruct (skip_ws r1) as [| c r2] eqn:E2; [ no_value H | ].
      apply skip_ws_cons in E2.
      destruct (Ascii.eqb c ":"); [ | no_value H ].
      destruct (scan_once lim fuel room (skip_ws r2)) as [v1 r3 | | | | |] eqn:E3;
        try discriminate.
      apply IHv in E3. pose proof (skip_ws_length r2).
      destruct (skip_ws r3) as [| c2 r4] eqn:E4; [ no_value H | ].
      apply skip_ws_cons in E4.
      destruct (Ascii.eqb c2 "}"); [ injection H as _ <-; lia | ].
      destruct (Ascii.eqb c2 ","); [ | no_value H ].
      destruct (skip_ws r4) as [| c3 r5] eqn:E5; [ no_value H | ].
      apply skip_ws_cons in E5.
      destruct (Ascii.eqb c3 dquote); [ | no_value H ].
      apply IHo in H. lia.
Qed.

(** With fuel above twice the length of the text no scanner runs out
    of it. *)
Lemma fuel_suffices :
  forall (lim : limits) (fuel : nat),
    (forall room s, 2 * String.length s + 1 <= fuel ->
                    scan_once lim fuel room s <> NoFuel)
    /\ (forall room s seen, 2 * String.length s + 2 <= fuel ->
                            JSONArray lim fuel room s seen <> NoFuel)
    /\ (forall room s seen, 2 * String.length s + 2 <= fuel ->
                            JSONObject lim fuel room s seen <> NoFuel).
Proof.
  intros lim. induction fuel as [| fuel (IHv & IHa & IHo)].
  - repeat split; intros; lia.
  - destruct (scan_shrinks lim fuel) as (Sv & _ & _).
    split; [ | split ].
    + intros room s Hfuel. cbn [scan_once].
      destruct s as [| c rest]; [ discriminate | ]. cbn [String.length] in Hfuel.
      destruct (Ascii.eqb c dquote).
      { destruct (scan_pieces rest) as [[ps r] |];
          [ discriminate | apply complain_fuel ]. }
      destruct (Ascii.eqb c "{").
      { destruct room as [| room']; [ discriminate | ].
        destruct (skip_ws rest) as [| c1 r1] eqn:E; [ apply complain_fuel | ].
        apply skip_ws_cons in E.
        destruct (Ascii.eqb c1 "}"); [ discriminate | ].
        destruct (Ascii.eqb c1 dquote); [ | apply complain_fuel ].
        apply IHo. lia. }
      destruct (Ascii.eqb c "[").
      { destruct room as [| room']; [ discriminate | ].
        destruct (skip_ws rest) as [| c1 r1] eqn:E; [ discriminate | ].
        apply skip_ws_cons in E.
        destruct (Ascii.eqb c1 "]"); [ discriminate | ].
        apply IHa. cbn [String.length]. lia. }
      apply scan_atom_fuel.
    + intros room s seen Hfuel. cbn [JSONArray].
      pose proof (IHv room s ltac:(lia)) as Hv.
      destruct (scan_once lim fuel room s) as [v1 r1 | | | | |] eqn:E1;
        try congruence; try discriminate.
      apply Sv in E1.
      destruct (skip_ws r1) as [| c r2] eqn:E2; [ apply complain_fuel | ].
      apply skip_ws_cons in E2.
      destruct (Ascii.eqb c "]"); [ discriminate | ].
      destruct (Ascii.eqb c ","); [ | apply complain_fuel ].
      apply IHa. pose proof (skip_ws_length r2). lia.
    + intros room s seen Hfuel. cbn [JSONObject].
      destruct (scan_pieces s) as [[ps r1] |] eqn:E1; [ | apply complain_fuel ].
      apply scan_pieces_length in E1.
      destruct (skip_ws r1) as [| c r2] eqn:E2; [ apply complain_fuel | ].
      apply skip_ws_cons in E2.
      destruct (Ascii.eqb c ":"); [ | apply complain_fuel ].
      pose proof (skip_ws_length r2).
      pose proof (IHv room (skip_ws r2) ltac:(lia)) as Hv.
      destruct (scan_once lim fuel room (skip_ws r2)) as [v1 r3 | | | | |] eqn:E3;
        try congruence; try discriminate.
      apply Sv in E3.
      destruct (skip_ws r3) as [| c2 r4] eqn:E4; [ apply complain_fuel | ].
      apply skip_ws_cons in E4.
      destruct (Ascii.eqb c2 "}"); [ discriminate | ].
      destruct (Ascii.eqb c2 ","); [ | apply complain_fuel ].
      destruct (skip_ws r4) as [| c3 r5] eqn:E5; [ apply complain_fuel | ].
      apply skip_ws_cons in E5.
      destruct (Ascii.eqb c3 dquote); [ | apply complain_fuel ].
      apply IHo. lia.
Qed.

(** A scanner that did not run out of fuel gives the same result with
    more fuel. *)
Lemma fuel_monotone :
  forall (lim : limits) (fuel : nat),
    (forall room s, scan_once lim fuel room s <> NoFuel ->
                    scan_once lim (S fuel) room s = scan_once lim fuel room s)
    /\ (forall room s seen, JSONArray lim fuel room s seen <> NoFuel ->
           JSONArray lim (S fuel) room s seen = JSONArray lim fuel room s seen)
    /\ (forall room s seen, JSONObject lim fuel room s seen <> NoFuel ->
           JSONObject lim (S fuel) room s seen = JSONObject lim fuel room s seen).
Proof.
  intros lim. induction fuel as [| fuel (IHv & IHa & IHo)].
  - repeat split; intros; cbn in *; congruence.
  - split; [ | split ].
    + intros room s H.
      cbn [scan_once] in H |- *.
      destruct s as [| c rest]; [ reflexivity | ].
      destruct (Ascii.eqb c dquote); [ reflexivity | ].
      destruct (Ascii.eqb c "{").
      { destruct room as [| room']; [ reflexivity | ].
        destruct (skip_ws rest) as [| c1 r1]; [ reflexivity | ].
        destruct (Ascii.eqb c1 "}"); [ reflexivity | ].
        destruct (Ascii.eqb c1 dquote); [ | reflexivity ].
        apply IHo. exact H. }
      destruct (Ascii.eqb c "["); [ | reflexivity ].
      destruct room as [| room']; [ reflexivity | ].
      destruct (skip_ws rest) as [| c1 r1]; [ reflexivity | ].
      destruct (Ascii.eqb c1 "]"); [ reflexivity | ].
      apply IHa. exact H.
    + intros room s seen H.
      cbn [JSONArray] in H |- *.
      assert (Hv : scan_once lim fuel room s <> NoFuel)
        by (intros E; rewrite E in H; congruence).
      rewrite (IHv room s Hv).
      destruct (scan_once lim fuel room s) as [v1 r1 | | | | |]; try reflexivity.
      destruct (skip_ws r1) as [| c r2]; [ reflexivity | ].
      destruct (Ascii.eqb c "]"); [ reflexivity | ].
      destruct (Ascii.eqb c ","); [ | reflexivity ].
      apply IHa. exact H.
    + intros room s seen H.
      cbn [JSONObject] in H |- *.
      destruct (scan_pieces s) as [[ps r1] |]; [ | reflexivity ].
      destruct (skip_ws r1) as [| c r2]; [ reflexivity | ].
      destruct (Ascii.eqb c ":"); [ | reflexivity ].
      assert (Hv : scan_once lim fuel room (skip_ws r2) <> NoFuel)
        by (intros E; rewrite E in H; congruence).
      rewrite (IHv _ _ Hv).
      destruct (scan_once lim fuel room (skip_ws r2)) as [v1 r3 | | | | |];
        try reflexivity.
      cbv zeta in H |- *.
      destruct (skip_ws r3) as [| c2 r4]; [ reflexivity | ].
      destruct (Ascii.eqb c2 "}"); [ reflexivity | ].
      destruct (Ascii.eqb c2 ","); [ | reflexivity ].
      destruct (skip_ws r4) as [| c3 r5]; [ reflexivity | ].
      destruct (Ascii.eqb c3 dquote); [ | reflexivity ].
      apply IHo. exact H.
Qed.

(** The value decoded does not depend on the fuel, once there is
    enough of it. *)
Lemma scan_once_any_fuel :
  forall (lim : limits) (room : nat) (s : string) (fuel : nat),
    2 * String.length s + 1 <= fuel ->
    scan_once lim fuel room s = scan_once lim (2 * String.length s + 1) room s.
Proof.
  intros lim room s fuel Hfuel.
  induction Hfuel as [| fuel Hle IH]; [ reflexivity | ].
  rewrite <- IH. destruct (fuel_monotone lim fuel) as (Hv & _ & _).
  apply Hv. destruct (fuel_suffices lim fuel) as (Hs & _ & _).
  apply Hs. exact Hle.
Qed.

Lemma decode_error_outcome :
  forall (lim : limits) (out : nat) (s : string),
    decode_error lim out s = Raise (JSONDecodeError s)
    \/ decode_error lim out s = Raise RecursionError.
Proof.
  intros lim out s. unfold decode_error.
  destruct (Nat.ltb (max_nesting lim + out) (error_levels lim)); auto.
Qed.


(** The last case of [loads] is never taken. *)
Lemma loads_has_fuel :
  forall (lim : limits) (s : string),
    scan_once lim (2 * String.length s + 2) (max_nesting lim) (skip_ws s) <> NoFuel.
Proof.
  intros lim s. destruct (fuel_suffices lim (2 * String.length s + 2)) as (Hv & _ & _).
  apply Hv. pose proof (skip_ws_length s). lia.
Qed.

(** *** The decoder gives every object its keys once *)

Lemma lookup_not_in :
  forall (k : string) (d : Dict.t),
    Dict.lookup k d = None <-> ~ In k (Dict.keys d).
Proof.
  intros k d. induction d as [| [k' v'] d IH]; cbn.
  - split; auto.
  - destruct (String.eqb_spec k k') as [-> | Hne].
    + split; [ discriminate | intros H; exfalso; apply H; left; reflexivity ].
    + rewrite IH. split.
      * intros H [Heq | Hin]; [ congruence | contradiction ].
      * intros H Hin. apply H. right. exact Hin.
Qed.

(** With each key once, looking a key up finds the value it is paired
    with. *)
Lemma lookup_in :
  forall (k : string) (v : pyval) (d : Dict.t),
    NoDup (Dict.keys d) -> In (k, v) d -> Dict.lookup k d = Some v.
Proof.
  intros k v d. induction d as [| [k' v'] d IH]; intros Hnd Hin; [ contradiction | ].
  cbn in Hnd |- *. inversion Hnd as [| ? ? Hfresh Hrest]; subst.
  destruct Hin as [Heq | Hin].
  - injection Heq as -> ->. rewrite String.eqb_refl. reflexivity.
  - destruct (String.eqb_spec k k') as [-> | Hne].
    + exfalso. apply Hfresh. apply (in_map fst) in Hin. exact Hin.
    + exact (IH Hrest Hin).
Qed.

Lemma setitem_keys :
  forall (k : string) (v : pyval) (d : Dict.t),
    Dict.keys (Dict.setitem k v d)
    = if existsb (String.eqb k) (Dict.keys d) then Dict.keys d
      else (Dict.keys d ++ [k])%list.
Proof.
  intros k v d. induction d as [| [k' v'] d IH]; [ reflexivity | ].
  cbn. destruct (String.eqb k k'); cbn; [ reflexivity | ].
  unfold Dict.keys in IH. rewrite IH.
  destruct (existsb (String.eqb k) (map fst d)); reflexivity.
Qed.

Lemma setitem_unique :
  forall (k : string) (v : pyval) (d : Dict.t),
    NoDup (Dict.keys d) -> NoDup (Dict.keys (Dict.setitem k v d)).
Proof.
  intros k v d Hnd. rewrite setitem_keys.
  destruct (existsb (String.eqb k) (Dict.keys d)) eqn:E; [ exact Hnd | ].
  apply NoDup_app; [ exact Hnd | repeat constructor; intros [] | ].
  intros x Hx [Heq | []]. subst x.
  assert (existsb (String.eqb k) (Dict.keys d) = true); [ | congruence ].
  apply existsb_exists. exists k. split; [ exact Hx | apply String.eqb_refl ].
Qed.

(** A value read by [scan_atom] is neither an array nor an object. *)
Lemma scan_atom_flat :
  forall (lim : limits) (room : nat) (s : string) (v : pyval) (r : string),
    scan_atom lim room s = Scanned v r ->
    unique_keys v /\ forall items, v <> PList items.
Proof.
  intros lim room s v r H. unfold scan_atom in H.
  destruct (strip_prefix "null" s);
    [ injection H as <- _; split; [ exact I | discriminate ] | ].
  destruct (strip_prefix "true" s);
    [ injection H as <- _; split; [ exact I | discriminate ] | ].
  destruct (strip_prefix "false" s);
    [ injection H as <- _; split; [ exact I | discriminate ] | ].
  destruct (scan_number s) as [[v' r'] |] eqn:En.
  - unfold scan_number in En.
    destruct (match s with
              | String c r0 => if Ascii.eqb c "-" then (true, r0) else (false, s)
              | EmptyString => (false, s)
              end) as [neg s1].
    destruct (scan_int s1) as [[ds rest] |]; [ | discriminate ].
    destruct (scan_frac rest) as [frac rest1].
    destruct (scan_exp rest1) as [expo rest2].
    destruct frac, expo; injection En as <- <-;
      try (injection H as <- _; split; [ exact I | discriminate ]).
    destruct (too_many_digits lim _); [ discriminate | ].
    injection H as <- _; split; [ exact I | discriminate ].
  - destruct (strip_prefix "NaN" s);
      [ apply constant_scanned in H; destruct H as [-> _];
        split; [ exact I | discriminate ] | ].
    destruct (strip_prefix "Infinity" s);
      [ apply constant_scanned in H; destruct H as [-> _];
        split; [ exact I | discriminate ] | ].
    destruct (strip_prefix "-Infinity" s);
      [ apply constant_scanned in H; destruct H as [-> _];
        split; [ exact I | discriminate ] | ].
    discriminate.
Qed.

(** The objects the scanners build have each key once, and so have the
    objects that are the elements of an array they build. *)
Lemma scanned_unique_keys :
  forall (lim : limits) (fuel : nat),
    (forall room s v r,
       scan_once lim fuel room s = Scanned v r ->
       unique_keys v /\ forall items, v = PList items -> Forall unique_keys items)
    /\ (forall room s seen v r,
          JSONArray lim fuel room s seen = Scanned v r ->
          Forall unique_keys seen ->
          exists items, v = PList items /\ Forall unique_keys items)
    /\ (forall room s seen v r,
          JSONObject lim fuel room s seen = Scanned v r ->
          NoDup (Dict.keys seen) ->
          exists d, v = PDict d /\ NoDup (Dict.keys d)).
Proof.
  intros lim. induction fuel as [| fuel (IHv & IHa & IHo)].
  - repeat split; intros; discriminate.
  - split; [ | split ].
    + intros room s v r H. cbn [scan_once] in H.
      destruct s as [| c rest]; [ discriminate | ].
      destruct (Ascii.eqb c dquote).
      { destruct (scan_pieces rest) as [[ps r'] |]; [ | no_value H ].
        injection H as <- _. split; [ exact I | discriminate ]. }
      destruct (Ascii.eqb c "{").
      { destruct room as [| room']; [ discriminate | ].
        destruct (skip_ws rest) as [| c1 r1]; [ no_value H | ].
        destruct (Ascii.eqb c1 "}").
        { injection H as <- _. split; [ constructor | discriminate ]. }
        destruct (Ascii.eqb c1 dquote); [ | no_value H ].
        destruct (IHo _ _ _ _ _ H (NoDup_nil _)) as (d & -> & Hd).
        split; [ exact Hd | discriminate ]. }
      destruct (Ascii.eqb c "[").
      { destruct room as [| room']; [ discriminate | ].
        destruct (skip_ws rest) as [| c1 r1]; [ discriminate | ].
        destruct (Ascii.eqb c1 "]").
        { injection H as <- _. split; [ exact I | ].
          intros items Hi. injection Hi as <-. constructor. }
        destruct (IHa _ _ _ _ _ H (Forall_nil _)) as (items & -> & Hitems).
        split; [ exact I | ]. intros items' Hi. injection Hi as <-. exact Hitems. }
      destruct (scan_atom_flat lim _ _ _ _ H) as [Hu Hflat].
      split; [ exact Hu | ]. intros items ->. exfalso. exact (Hflat items eq_refl).
    + intros room s seen v r H Hseen. cbn [JSONArray] in H.
      destruct (scan_once lim fuel room s) as [v1 r1 | | | | |] eqn:E1;
        try discriminate.
      destruct (IHv _ _ _ _ E1) as [Hv1 _].
      assert (Hseen' : Forall unique_keys (v1 :: seen)) by (constructor; assumption).
      destruct (skip_ws r1) as [| c r2]; [ no_value H | ].
      destruct (Ascii.eqb c "]").
      { injection H as <- _. eexists. split; [ reflexivity | ].
        apply Forall_app. split; [ apply Forall_rev; exact Hseen | ].
        constructor; [ exact Hv1 | constructor ]. }
      destruct (Ascii.eqb c ","); [ | no_value H ].
      exact (IHa _ _ _ _ _ H Hseen').
    + intros room s seen v r H Hseen. cbn [JSONObject] in H.
      destruct (scan_pieces s) as [[ps r1] |]; [ | no_value H ].
      destruct (skip_ws r1) as [| c r2]; [ no_value H | ].
      destruct (Ascii.eqb c ":"); [ | no_value H ].
      destruct (scan_once lim fuel room (skip_ws r2)) as [v1 r3 | | | | |];
        try discriminate.
      cbv zeta in H.
      pose proof (setitem_unique (assemble ps) v1 seen Hseen) as Hseen'.
      destruct (skip_ws r3) as [| c2 r4]; [ no_value H | ].
      destruct (Ascii.eqb c2 "}").
      { injection H as <- _. eexists. split; [ reflexivity | exact Hseen' ]. }
      destruct (Ascii.eqb c2 ","); [ | no_value H ].
      destruct (skip_ws r4) as [| c3 r5]; [ no_value H | ].
      destruct (Ascii.eqb c3 dquote); [ | no_value H ].
      exact (IHo _ _ _ _ _ H Hseen').
Qed.

(** The elements of a decoded array that are objects have each key
    once. *)
Lemma loads_unique_keys :
  forall (lim : limits) (s : string) (items : list pyval),
    loads lim s = Ok (PList items) -> Forall unique_keys items.
Proof.
  intros lim s items H. unfold loads in H.
  destruct (strip_prefix byte_order_mark s).
  { destruct (decode_error_outcome lim 3 s) as [E | E]; rewrite E in H;
      discriminate. }
  destruct (scan_once lim _ _ (skip_ws s)) as [v rest | | | | |] eqn:E;
    try discriminate.
  - destruct (skip_ws rest).
    + injection H as ->.
      destruct (scanned_unique_keys lim (2 * String.length s + 2)) as (Hv & _ & _).
      destruct (Hv _ _ _ _ E) as [_ Hitems]. exact (Hitems items eq_refl).
    + destruct (decode_error_outcome lim 2 s) as [E' | E']; rewrite E' in H;
        discriminate.
  - destruct (decode_error_outcome lim 1 s) as [E' | E']; rewrite E' in H;
      discriminate.
Qed.
End JsonFacts.
(* ================================================================= *)
(** ** The structured extractor *)

(** What extract_vc_data does once the service has answered. *)
Lemma extract_vc_data_run :
  forall (env : environment) (text : string) (w : world) (reply : string)
         (others : list string),
    ChatCompletion_create env (List.length (chat_sent w))
      (completion_request (prompt_of text)) = Ok (reply :: others) ->
    let w1 := mkWorld (stdout w) (db_file w) (clock_reads w) (http_sent w)
                (chat_sent w ++ [completion_request (prompt_of text)]) in
    extract_vc_data env text w =
      match Json.loads (json_limits env) reply with
      | Ok vc_list => (Ok vc_list, w1)
      | Raise e =>
          (Raise e,
           mkWorld (stdout w ++ [Line "Failed to parse GPT response. Raw reply:";
                                 Line reply])
                   (db_file w) (clock_reads w) (http_sent w) (chat_sent w1))
      end.
Proof.
  intros env text w reply others Hreply w1.
  unfold extract_vc_data, bind, ChatCompletion_create_call, lift.
  rewrite Hreply.
  destruct (Json.loads (json_limits env) reply) as [v | e]; cbn.
  - reflexivity.
  - rewrite <- app_assoc. reflexivity.
Qed.




(** What get gives for a key is what the entries of the object give
    for it. *)
Lemma get_field_of :
  forall (d : Dict.t) (k : string),
    field_of d k (Dict.get d k (PStr EmptyString)).
Proof.
  intros d k. unfold field_of, Dict.get.
  destruct (Dict.lookup k d) as [v |] eqn:E.
  - left. induction d as [| [k' v'] d IH]; [ discriminate | ].
    cbn in E. destruct (String.eqb_spec k k') as [-> | Hne].
    + injection E as ->. left. reflexivity.
    + right. exact (IH E).
  - right. split; [ | reflexivity ]. apply JsonFacts.lookup_not_in. exact E.
Qed.

(** When each key is there once, the entries give one value for a key. *)
Lemma field_of_unique :
  forall (d : Dict.t) (k : string) (v v' : pyval),
    NoDup (Dict.keys d) -> field_of d k v -> field_of d k v' -> v = v'.
Proof.
  intros d k v v' Hnd [Hin | [Hout ->]] [Hin' | [Hout' ->]].
  - pose proof (JsonFacts.lookup_in k v d Hnd Hin) as H1.
    pose proof (JsonFacts.lookup_in k v' d Hnd Hin') as H2. congruence.
  - exfalso. apply Hout'. apply (in_map fst) in Hin. exact Hin.
  - exfalso. apply Hout. apply (in_map fst) in Hin'. exact Hin'.
  - reflexivity.
Qed.

(** C2, as the code has it.  When the reply decodes to an array of
    objects, extract_vc_data returns that array as decoded: one record
    per element, each an object with every key once, holding the
    entries of the reply and no others.  The four fields are filled in
    where insert_vc_records reads a record: the parameter it builds for
    a key is the value the record pairs with the key, and the empty
    string when the record has no entry for the key. *)
Theorem extract_vc_data_records :
  forall (env : environment) (text : string) (w : world) (reply : string)
         (others : list string) (objs : list pyval),
    ChatCompletion_create env (List.length (chat_sent w))
      (completion_request (prompt_of text)) = Ok (reply :: others) ->
    Json.loads (json_limits env) reply = Ok (PList objs) ->
    forallb is_object objs = true ->
    fst (extract_vc_data env text w) = Ok (PList objs)
    /\ py_iter (PList objs) = Ok objs
    /\ py_len (PList objs) = Ok (List.length objs)
    /\ Forall
         (fun record =>
            exists d, record = PDict d
              /\ NoDup (Dict.keys d)
              /\ forall now,
                   exists v_name v_location v_website v_focus,
                     row_params record now
                     = Ok (v_name, v_location, v_website, v_focus, PStr now)
                     /\ field_of d "Name" v_name
                     /\ field_of d "Location" v_location
                     /\ field_of d "Website" v_website
                     /\ field_of d "Focus" v_focus)
         objs.
Proof.
  intros env text w reply others objs Hreply Hloads Hobjs.
  rewrite (extract_vc_data_run env text w reply others Hreply), Hloads.
  repeat split.
  pose proof (JsonFacts.loads_unique_keys (json_limits env) reply objs Hloads)
    as Hunique.
  rewrite forallb_forall in Hobjs. rewrite Forall_forall in Hunique.
  apply Forall_forall. intros record Hin.
  specialize (Hobjs record Hin). specialize (Hunique record Hin).
  destruct record as [| | | | | | d]; try discriminate.
  exists d. split; [ reflexivity | ]. split; [ exact Hunique | ].
  intros now.
  exists (Dict.get d "Name" (PStr EmptyString)),
         (Dict.get d "Location" (PStr EmptyString)),
         (Dict.get d "Website" (PStr EmptyString)),
         (Dict.get d "Focus" (PStr EmptyString)).
  split; [ reflexivity | ].
  repeat split; apply get_field_of.
Qed.

Lemma extract_vc_data_records_witness :
  fst (extract_vc_data (Demo.scripted 200 "" Demo.sparse_reply []) "page" Demo.fresh)
    = Ok (PList Demo.sparse)
  /\ py_len (PList Demo.sparse) = Ok 2
  /\ row_params (PDict [("Name", PStr "Acme Ventures"); ("Focus", PStr "seed")])
       "2024-05-01"
     = Ok (PStr "Acme Ventures", PStr EmptyString, PStr EmptyString,
           PStr "seed", PStr "2024-05-01")
  /\ row_params (PDict []) "2024-05-01"
     = Ok (PStr EmptyString, PStr EmptyString, PStr EmptyString,
           PStr EmptyString, PStr "2024-05-01").
Proof.
  pose proof (extract_vc_data_records
                (Demo.scripted 200 "" Demo.sparse_reply []) "page" Demo.fresh
                Demo.sparse_reply [] Demo.sparse eq_refl eq_refl eq_refl)
    as [Hrun [_ [Hlen Hfields]]].
  split; [ exact Hrun | ]. split; [ exact Hlen | ].
  pose proof (Forall_inv Hfields) as Hfirst.
  pose proof (Forall_inv (Forall_inv_tail Hfields)) as Hsecond.
  split.
  - destruct Hfirst as (d & Hd & Hnd & Hparams). injection Hd as <-.
    destruct (Hparams "2024-05-01")
      as (v1 & v2 & v3 & v4 & Hrow & F1 & F2 & F3 & F4).
    rewrite Hrow.
    rewrite (field_of_unique _ _ _ _ Hnd F1
               (or_introl (or_introl eq_refl))).
    rewrite (field_of_unique _ _ _ _ Hnd F4
               (or_introl (or_intror (or_introl eq_refl)))).
    assert (Hout : forall k, k <> "Name" -> k <> "Focus" ->
                     field_of [("Name", PStr "Acme Ventures"); ("Focus", PStr "seed")]
                       k (PStr EmptyString)).
    { intros k H1 H2. right. split; [ | reflexivity ].
      intros [E | [E | []]]; [ apply H1 | apply H2 ]; symmetry; exact E. }
    rewrite (field_of_unique _ _ _ _ Hnd F2 (Hout "Location" ltac:(discriminate)
                                                 ltac:(discriminate))).
    rewrite (field_of_unique _ _ _ _ Hnd F3 (Hout "Website" ltac:(discriminate)
                                                 ltac:(discriminate))).
    reflexivity.
  - destruct Hsecond as (d & Hd & Hnd & Hparams). injection Hd as <-.
    destruct (Hparams "2024-05-01")
      as (v1 & v2 & v3 & v4 & Hrow & F1 & F2 & F3 & F4).
    rewrite Hrow.
    assert (Hout : forall k, field_of [] k (PStr EmptyString)).
    { intros k. right. split; [ intros [] | reflexivity ]. }
    rewrite (field_of_unique _ _ _ _ Hnd F1 (Hout "Name")).
    rewrite (field_of_unique _ _ _ _ Hnd F2 (Hout "Location")).
    rewrite (field_of_unique _ _ _ _ Hnd F3 (Hout "Website")).
    rewrite (field_of_unique _ _ _ _ Hnd F4 (Hout "Focus")).
    reflexivity.
Defined.

(** C2 does not hold as stated of the records extract_vc_data returns:
    they are the objects of the reply as they are, and a key the reply
    leaves out is not in the record either.  Here the first record has
    no entry for Location or Website and the second has no entry at
    all. *)
Lemma extract_vc_data_keeps_records_partial :
  fst (extract_vc_data (Demo.scripted 200 "" Demo.sparse_reply []) "page" Demo.fresh)
    = Ok (PList [PDict [("Name", PStr "Acme Ventures"); ("Focus", PStr "seed")];
                 PDict []])
  /\ Dict.keys [("Name", PStr "Acme Ventures"); ("Focus", PStr "seed")]
     = ["Name"; "Focus"]
  /\ Dict.lookup "Location" [("Name", PStr "Acme Ventures"); ("Focus", PStr "seed")]
     = None
  /\ Dict.lookup "Website" [("Name", PStr "Acme Ventures"); ("Focus", PStr "seed")]
     = None
  /\ Dict.lookup "Name" [] = None.
Proof. vm_compute. repeat split. Qed.

(* ================================================================= *)
(** ** The record store *)

(** *** Rowids *)

Lemma max_rowid_bounds :
  forall (rs : list row) (r : row), In r rs -> (id r <= max_rowid rs)%Z.
Proof.
  induction rs as [| a rs IH]; intros r Hin; [ contradiction | ].
  cbn [max_rowid fold_right]. destruct Hin as [-> | Hin].
  - lia.
  - specialize (IH r Hin). unfold max_rowid in IH. lia.
Qed.

Lemma max_rowid_nonneg : forall rs : list row, (0 <= max_rowid rs)%Z.
Proof.
  induction rs as [| a rs IH]; cbn [max_rowid fold_right]; [ lia | ].
  unfold max_rowid in IH. lia.
Qed.

Lemma max_rowid_snoc :
  forall (rs : list row) (r : row),
    max_rowid (rs ++ [r]) = Z.max (max_rowid rs) (Z.max (id r) 0).
Proof.
  induction rs as [| a rs IH]; intros r; cbn [max_rowid fold_right app].
  - lia.
  - specialize (IH r). unfold max_rowid in IH. rewrite IH. lia.
Qed.

Lemma next_rowid_above :
  forall (t : table) (r : row), In r (rows t) -> (id r < next_rowid t)%Z.
Proof.
  intros t r Hin. pose proof (max_rowid_bounds _ _ Hin). unfold next_rowid. lia.
Qed.

Lemma next_rowid_positive : forall t : table, (0 < next_rowid t)%Z.
Proof.
  intros t. pose proof (max_rowid_nonneg (rows t)). unfold next_rowid. lia.
Qed.

(** After a row took the next rowid, the next one is one larger. *)
Lemma next_rowid_step :
  forall (t : table) (r : row),
    id r = next_rowid t ->
    next_rowid (mkTable (rows t ++ [r]) (id r)) = (next_rowid t + 1)%Z.
Proof.
  intros t r Hid. unfold next_rowid at 1. cbn [rows sqlite_sequence].
  rewrite max_rowid_snoc, Hid.
  pose proof (next_rowid_positive t).
  assert (max_rowid (rows t) < next_rowid t)%Z by (unfold next_rowid; lia).
  lia.
Qed.

(** *** One INSERT *)

Lemma new_row_shape :
  forall (render : string -> string) (rowid : Z) (params : params5) (r : row),
    new_row render rowid params = Ok r ->
    id r = rowid
    /\ (forall now, snd params = PStr now -> last_updated r = SqlText now).
Proof.
  intros render rowid [[[[p1 p2] p3] p4] p5] r H. unfold new_row, and_then in H.
  destruct (bind_param p1); [ | discriminate ].
  destruct (bind_param p2); [ | discriminate ].
  destruct (bind_param p3); [ | discriminate ].
  destruct (bind_param p4); [ | discriminate ].
  destruct (bind_param p5) eqn:E5; [ | discriminate ].
  injection H as <-. split; [ reflexivity | ].
  cbn [snd last_updated]. intros now ->. cbn in E5.
  destruct (has_surrogate now); [ discriminate | ].
  injection E5 as <-. reflexivity.
Qed.

(** What execute_insert does on a table, in terms of the row. *)
Lemma execute_insert_ok :
  forall (render : string -> string) (params : params5) (conn conn' : connection)
         (t : table),
    vc_firms (working conn) = Some t ->
    execute_insert render params conn = Ok conn' ->
    exists r,
      new_row render (next_rowid t) params = Ok r
      /\ (id r <= largest_rowid)%Z
      /\ conn' = mkConnection
                   (mkDatabase (Some (mkTable (rows t ++ [r]) (id r)))) true.
Proof.
  intros render params conn conn' t Ht H. unfold execute_insert in H.
  rewrite Ht in H. unfold and_then in H.
  destruct (new_row render (next_rowid t) params) as [r |]; [ | discriminate ].
  destruct (Z.ltb_spec largest_rowid (id r)); [ discriminate | ].
  injection H as <-. exists r. repeat split; assumption.
Qed.

Lemma row_params_now :
  forall (record : pyval) (now : string) (params : params5),
    row_params record now = Ok params -> snd params = PStr now.
Proof.
  intros record now params H. unfold row_params, and_then in H.
  destruct (py_get record "Name" _); [ | discriminate ].
  destruct (py_get record "Location" _); [ | discriminate ].
  destruct (py_get record "Website" _); [ | discriminate ].
  destruct (py_get record "Focus" _); [ | discriminate ].
  injection H as <-. reflexivity.
Qed.

(** A storable record gets its parameters and, at an instant whose text
    has no lone surrogate, its row. *)
Lemma storable_row :
  forall (render : string -> string) (record : pyval) (now : string),
    storable record = true ->
    has_surrogate now = false ->
    exists params,
      row_params record now = Ok params
      /\ forall rowid, exists r, new_row render rowid params = Ok r.
Proof.
  intros render record now H Hnow. destruct record; try discriminate.
  cbn in H. unfold bindable in H.
  repeat (apply andb_prop in H; destruct H as [?H H]).
  eexists. split; [ reflexivity | ]. intros rowid. unfold new_row, and_then.
  destruct (bind_param (Dict.get entries "Name" _)); [ | discriminate ].
  destruct (bind_param (Dict.get entries "Location" _)); [ | discriminate ].
  destruct (bind_param (Dict.get entries "Website" _)); [ | discriminate ].
  destruct (bind_param (Dict.get entries "Focus" _)); [ | discriminate ].
  cbn [bind_param]. rewrite Hnow. eexists. reflexivity.
Qed.

(** *** The loop over the batch *)

(** Without the table the loop succeeds on the empty batch only. *)
Lemma insert_each_no_table :
  forall (env : environment) (now : string) (records : list pyval)
         (conn conn' : connection),
    vc_firms (working conn) = None ->
    insert_each env now records conn = Ok conn' ->
    records = [] /\ conn' = conn.
Proof.
  intros env now [| record rest] conn conn' Hnone H; cbn in H.
  - injection H as <-. split; reflexivity.
  - unfold and_then in H. destruct (row_params record now); [ | discriminate ].
    unfold execute_insert in H. rewrite Hnone in H. discriminate.
Qed.

(** When the loop succeeds on a table, it has appended one row per
    record, in order, under the next rowids, each with the instant
    [now]; the rows that were there are untouched. *)
Lemma insert_each_rows :
  forall (env : environment) (now : string) (records : list pyval)
         (conn conn' : connection) (t : table),
    vc_firms (working conn) = Some t ->
    insert_each env now records conn = Ok conn' ->
    exists (t' : table) (new : list row),
      vc_firms (working conn') = Some t'
      /\ rows t' = (rows t ++ new)%list
      /\ Forall2 (row_of_record env now) records new
      /\ Forall (fun r => last_updated r = SqlText now) new
      /\ numbered_from (next_rowid t) new = true
      /\ (records = [] -> conn' = conn)
      /\ (records <> [] -> in_transaction conn' = true).
Proof.
  intros env now records. induction records as [| record rest IH];
    intros conn conn' t Ht H; cbn in H.
  - injection H as <-. exists t, []. rewrite app_nil_r.
    repeat split; try constructor; try assumption. intros Hne; congruence.
  - unfold and_then in H.
    destruct (row_params record now) as [params |] eqn:Hparams; [ | discriminate ].
    destruct (execute_insert (float_text env) params conn) as [conn1 |] eqn:Hexec;
      [ | discriminate ].
    destruct (execute_insert_ok _ _ _ _ _ Ht Hexec) as (r & Hrow & _ & ->).
    destruct (new_row_shape _ _ _ _ Hrow) as [Hid Hstamp].
    destruct (IH (mkConnection
                    (mkDatabase (Some (mkTable (rows t ++ [r]) (id r)))) true)
                 conn' (mkTable (rows t ++ [r]) (id r)) eq_refl H) as (t' & new & Ht' & Hrows & Hall & Hnow & Hnum & Hnil & Hcons).
    rewrite (next_rowid_step t r Hid) in Hnum.
    exists t', (r :: new). cbn [rows] in Hrows.
    rewrite <- app_assoc in Hrows. cbn [app] in Hrows.
    repeat split.
    + exact Ht'.
    + exact Hrows.
    + constructor; [ | exact Hall ].
      exists params. split; [ exact Hparams | ]. rewrite Hid. exact Hrow.
    + constructor; [ | exact Hnow ].
      apply Hstamp. exact (row_params_now _ _ _ Hparams).
    + cbn [numbered_from]. rewrite Hid, Z.eqb_refl. exact Hnum.
    + discriminate.
    + intros _. destruct rest as [| record' rest'].
      * rewrite (Hnil eq_refl). reflexivity.
      * apply Hcons. discriminate.
Qed.

(** Rowids left for a batch are left for its first record, and then
    for the rest. *)
Lemma has_room_step :
  forall (t : table) (r : row) (n : nat),
    has_room t (S n) = true ->
    id r = next_rowid t ->
    (id r <= largest_rowid)%Z
    /\ has_room (mkTable (rows t ++ [r]) (id r)) n = true.
Proof.
  intros t r n H Hid. unfold has_room in H |- *. cbn [Nat.eqb orb] in H.
  apply Z.leb_le in H. split; [ lia | ].
  rewrite (next_rowid_step t r Hid).
  destruct n as [| n]; [ reflexivity | ]. cbn [Nat.eqb orb].
  apply Z.leb_le. lia.
Qed.

(** On a table with rowids left, at an instant whose text has no lone
    surrogate, the loop succeeds on every batch of storable records. *)
Lemma insert_each_storable :
  forall (env : environment) (now : string) (records : list pyval)
         (conn : connection) (t : table),
    vc_firms (working conn) = Some t ->
    forallb storable records = true ->
    has_surrogate now = false ->
    has_room t (List.length records) = true ->
    exists conn', insert_each env now records conn = Ok conn'.
Proof.
  intros env now records. induction records as [| record rest IH];
    intros conn t Ht Hall Hnow Hroom; cbn [insert_each].
  - eexists. reflexivity.
  - cbn in Hall. apply andb_prop in Hall. destruct Hall as [Hrec Hrest].
    destruct (storable_row (float_text env) record now Hrec Hnow)
      as (params & Hparams & Hrow).
    rewrite Hparams. cbn [and_then]. unfold execute_insert. rewrite Ht.
    destruct (Hrow (next_rowid t)) as (r & Hr). rewrite Hr. cbn [and_then].
    destruct (new_row_shape _ _ _ _ Hr) as [Hid _].
    cbn [List.length] in Hroom.
    destruct (has_room_step t r (List.length rest) Hroom Hid) as [Hfits Hroom'].
    destruct (Z.ltb_spec largest_rowid (id r)); [ lia | ].
    exact (IH (mkConnection
                 (mkDatabase (Some (mkTable (rows t ++ [r]) (id r)))) true)
              (mkTable (rows t ++ [r]) (id r)) eq_refl Hrest Hnow Hroom').
Qed.

(** *** insert_vc_records as a whole *)

(** What can be iterated over by the loop has a length. *)
Lemma py_iter_len :
  forall (v : pyval) (records : list pyval),
    py_iter v = Ok records -> py_len v = Ok (List.length records).
Proof.
  intros v records H. destruct v; try discriminate; cbn in H |- *;
    injection H as <-; f_equal.
  - rewrite length_map. reflexivity.
  - unfold Dict.keys. rewrite !length_map. reflexivity.
Qed.

(** The run of insert_vc_records, in terms of its loop. *)
Lemma insert_vc_records_run :
  forall (env : environment) (vc_records : pyval) (w : world),
    insert_vc_records env vc_records w =
      match py_iter vc_records with
      | Raise e => (Raise e, after_clock w)
      | Ok records =>
          match insert_each env (utcnow_isoformat env (clock_reads w)) records
                  (mkConnection (db_file w) false) with
          | Ok conn =>
              (Ok PNone,
               mkWorld
                 (stdout w ++ [inserted_line (List.length records)])
                 (if in_transaction conn then working conn else db_file w)
                 (S (clock_reads w)) (http_sent w) (chat_sent w))
          | Raise e => (Raise e, after_clock w)
          end
      end.
Proof.
  intros env vc_records w.
  unfold insert_vc_records, bind, sqlite3_connect, utcnow_isoformat_call, lift.
  destruct (py_iter vc_records) as [records |] eqn:Hiter; [ | reflexivity ].
  destruct (insert_each env _ records _) as [conn |]; [ | reflexivity ].
  unfold commit, close, ret, write_db, print.
  rewrite (py_iter_len _ _ Hiter).
  destruct (in_transaction conn); reflexivity.
Qed.

(** Every call of insert_vc_records reads the clock once and ends in
    one of two ways: it returns None after writing one row per record of
    the batch, all with the instant read, behind the rows that were
    there; or it raises, and then the file is as it was. *)
Lemma insert_vc_records_outcome :
  forall (env : environment) (vc_records : pyval) (w : world),
    let now := utcnow_isoformat env (clock_reads w) in
    let out := insert_vc_records env vc_records w in
    (exists (records : list pyval) (new : list row),
        py_iter vc_records = Ok records
        /\ fst out = Ok PNone
        /\ stdout (snd out) = (stdout w ++ [inserted_line (List.length records)])%list
        /\ clock_reads (snd out) = S (clock_reads w)
        /\ stored_rows (db_file (snd out)) = (stored_rows (db_file w) ++ new)%list
        /\ Forall2 (row_of_record env now) records new
        /\ Forall (fun r => last_updated r = SqlText now) new
        /\ (forall t, vc_firms (db_file w) = Some t ->
                      numbered_from (next_rowid t) new = true)
        /\ (vc_firms (db_file w) = None -> new = []))
    \/ (exists e, fst out = Raise e /\ snd out = after_clock w).
Proof.
  intros env vc_records w now out. subst out.
  rewrite insert_vc_records_run.
  destruct (py_iter vc_records) as [records | e];
    [ | right; exists e; split; reflexivity ].
  fold now.
  destruct (insert_each env now records _) as [conn | e] eqn:Hloop;
    [ | right; exists e; split; reflexivity ].
  left. exists records.
  destruct (vc_firms (db_file w)) as [t |] eqn:Ht.
  - destruct (insert_each_rows env now records
                (mkConnection (db_file w) false) conn t Ht Hloop)
      as (t' & new & Ht' & Hrows & Hall & Hnow & Hnum & Hnil & Hcons).
    exists new. cbn [fst snd stdout clock_reads db_file].
    repeat split; try assumption.
    + assert (Hold : stored_rows (db_file w) = rows t)
        by (unfold stored_rows; rewrite Ht; reflexivity).
      rewrite Hold.
      destruct records as [| record rest].
      * rewrite (Hnil eq_refl). cbn [in_transaction]. inversion Hall; subst.
        rewrite Hold, app_nil_r. reflexivity.
      * rewrite Hcons by discriminate. unfold stored_rows. rewrite Ht'. exact Hrows.
    + intros t0 Ht0. injection Ht0 as <-. exact Hnum.
    + discriminate.
  - destruct (insert_each_no_table env now records
                (mkConnection (db_file w) false) conn Ht Hloop) as [-> ->].
    exists []. cbn [fst snd stdout clock_reads db_file in_transaction].
    rewrite app_nil_r. repeat split; try constructor.
Qed.

(** On an initialised store with rowids left, when the clock shows a
    text without lone surrogate, a batch of storable records does not
    fail. *)
Lemma insert_vc_records_storable :
  forall (env : environment) (w : world) (t : table) (records : list pyval),
    vc_firms (db_file w) = Some t ->
    forallb storable records = true ->
    plain_instant env w = true ->
    has_room t (List.length records) = true ->
    fst (insert_vc_records env (PList records) w) = Ok PNone.
Proof.
  intros env w t records Ht Hall Hnow Hroom.
  rewrite insert_vc_records_run. cbn [py_iter].
  apply negb_true_iff in Hnow.
  destruct (insert_each_storable env (utcnow_isoformat env (clock_reads w)) records
              (mkConnection (db_file w) false) t Ht Hall Hnow Hroom) as [conn' ->].
  reflexivity.
Qed.

(** C3, as the code has it.  On an initialised store whose table has
    rowids left for the batch, when the clock shows a text without lone
    surrogate, for every batch of storable records (objects whose four
    fields, where present, hold values SQLite takes), insert_vc_records
    writes one row per record, in the order of the batch, behind the
    rows that were there, and prints the number of records of the
    batch; the value it returns is None. *)
Theorem insert_vc_records_one_row_per_record :
  forall (env : environment) (w : world) (t : table) (records : list pyval),
    vc_firms (db_file w) = Some t ->
    forallb storable records = true ->
    plain_instant env w = true ->
    has_room t (List.length records) = true ->
    let now := utcnow_isoformat env (clock_reads w) in
    let out := insert_vc_records env (PList records) w in
    fst out = Ok PNone
    /\ stdout (snd out) = (stdout w ++ [inserted_line (List.length records)])%list
    /\ exists new : list row,
         stored_rows (db_file (snd out)) = (rows t ++ new)%list
         /\ List.length new = List.length records
         /\ Forall2 (row_of_record env now) records new.
Proof.
  intros env w t records Ht Hall Hnow Hroom now out.
  pose proof (insert_vc_records_storable env w t records Ht Hall Hnow Hroom) as Hok.
  destruct (insert_vc_records_outcome env (PList records) w)
    as [(records' & new & Hiter & _ & Hout & _ & Hrows & Hall2 & _) | (e & He & _)].
  - cbn in Hiter. injection Hiter as <-.
    split; [ exact Hok | ]. split; [ exact Hout | ].
    exists new. repeat split.
    + subst out. rewrite Hrows. unfold stored_rows. rewrite Ht. reflexivity.
    + symmetry. exact (Forall2_length Hall2).
    + exact Hall2.
  - rewrite Hok in He. discriminate.
Qed.

Lemma insert_vc_records_one_row_per_record_witness :
  fst (insert_vc_records Demo.env (PList [Demo.acme; PDict []]) Demo.ready) = Ok PNone
  /\ stdout (snd (insert_vc_records Demo.env (PList [Demo.acme; PDict []]) Demo.ready))
     = [Line "Inserted 2 records into the database."].
Proof.
  pose proof (insert_vc_records_one_row_per_record Demo.env Demo.ready
                empty_table [Demo.acme; PDict []] eq_refl eq_refl eq_refl eq_refl)
    as [Hok [Hout _]].
  split; [ exact Hok | exact Hout ].
Defined.

(** C3 does not hold as stated: the call that writes one row returns
    None, not the count 1; the count only appears in the line printed. *)
Lemma insert_vc_records_returns_none :
  let out := insert_vc_records Demo.env (PList [Demo.acme]) Demo.ready in
  fst out = Ok PNone
  /\ List.length (stored_rows (db_file (snd out))) = 1
  /\ stdout (snd out) = [Line "Inserted 1 records into the database."]
  /\ PNone <> PInt 1.
Proof. vm_compute. repeat split. discriminate. Qed.

(** C4. In one call of insert_vc_records on a non-empty batch the clock
    is read exactly once, and every row the call writes has the instant
    read then in last_updated.  The call writes either a row for each
    record or, when it raises, none. *)
Theorem insert_vc_records_one_timestamp :
  forall (env : environment) (records : list pyval) (w : world),
    records <> [] ->
    let now := utcnow_isoformat env (clock_reads w) in
    let out := insert_vc_records env (PList records) w in
    clock_reads (snd out) = S (clock_reads w)
    /\ exists new : list row,
         stored_rows (db_file (snd out)) = (stored_rows (db_file w) ++ new)%list
         /\ Forall (fun r => last_updated r = SqlText now) new
         /\ ((fst out = Ok PNone /\ List.length new = List.length records)
             \/ ((exists e, fst out = Raise e) /\ new = [])).
Proof.
  intros env records w _ now out.
  destruct (insert_vc_records_outcome env (PList records) w)
    as [(records' & new & Hiter & Hok & _ & Hclock & Hrows & Hall2 & Hnow & _)
       | (e & He & Hw)].
  - cbn in Hiter. injection Hiter as <-.
    split; [ exact Hclock | ]. exists new.
    split; [ exact Hrows | ]. split; [ exact Hnow | ].
    left. split; [ exact Hok | ]. symmetry. exact (Forall2_length Hall2).
  - subst out. rewrite Hw. split; [ reflexivity | ]. exists [].
    rewrite app_nil_r. split; [ reflexivity | ]. split; [ constructor | ].
    right. split; [ exists e; exact He | reflexivity ].
Qed.

Lemma insert_vc_records_one_timestamp_witness :
  clock_reads (snd (insert_vc_records Demo.env
                      (PList [Demo.acme; PDict []]) Demo.ready)) = 1
  /\ map last_updated
       (stored_rows (db_file (snd (insert_vc_records Demo.env
                                     (PList [Demo.acme; PDict []]) Demo.ready))))
     = [SqlText "2024-05-01T12:00:00.000000"; SqlText "2024-05-01T12:00:00.000000"].
Proof.
  split.
  - apply (insert_vc_records_one_timestamp Demo.env
             [Demo.acme; PDict []] Demo.ready).
    discriminate.
  - reflexivity.
Defined.

(** C9. When insert_vc_records raises, whatever it was given and at
    whichever record, the file holds what it held before the call: no
    row of the batch is kept. *)
Theorem insert_vc_records_all_or_none :
  forall (env : environment) (vc_records : pyval) (w : world) (e : exn),
    fst (insert_vc_records env vc_records w) = Raise e ->
    db_file (snd (insert_vc_records env vc_records w)) = db_file w.
Proof.
  intros env vc_records w e Hraise.
  destruct (insert_vc_records_outcome env vc_records w)
    as [(records & new & _ & Hok & _) | (e' & _ & Hw)].
  - rewrite Hok in Hraise. discriminate.
  - rewrite Hw. reflexivity.
Qed.

Lemma insert_vc_records_all_or_none_witness :
  fst (insert_vc_records Demo.env (PList [Demo.acme; PInt 5]) Demo.ready)
    = Raise (AttributeError "'int' object has no attribute 'get'")
  /\ db_file (snd (insert_vc_records Demo.env (PList [Demo.acme; PInt 5]) Demo.ready))
     = mkDatabase (Some empty_table).
Proof.
  split.
  - reflexivity.
  - exact (insert_vc_records_all_or_none Demo.env (PList [Demo.acme; PInt 5])
             Demo.ready (AttributeError "'int' object has no attribute 'get'")
             eq_refl).
Defined.

(** The loop sees a record through its parameters only. *)
Lemma insert_each_ext :
  forall (env : environment) (now : string) (rs1 rs2 : list pyval),
    Forall2 (fun r1 r2 => row_params r1 now = row_params r2 now) rs1 rs2 ->
    forall conn, insert_each env now rs1 conn = insert_each env now rs2 conn.
Proof.
  intros env now rs1 rs2 H. induction H as [| r1 r2 l1 l2 Hr _ IH]; intros conn.
  - reflexivity.
  - cbn [insert_each]. rewrite Hr. unfold and_then.
    destruct (row_params r2 now); [ | reflexivity ].
    destruct (execute_insert _ _ conn); [ | reflexivity ].
    apply IH.
Qed.

(** What a dict gives under the four keys decides the parameters. *)
Lemma row_params_same_fields :
  forall (d1 d2 : Dict.t) (now : string),
    same_fields d1 d2 -> row_params (PDict d1) now = row_params (PDict d2) now.
Proof.
  intros d1 d2 now Hd. unfold row_params, py_get, Dict.get.
  rewrite (Hd "Name"), (Hd "Location"), (Hd "Website"), (Hd "Focus");
    cbn; auto 6.
Qed.

(** C10. The row written for a record is a function of what the record
    holds under Name, Location, Website and Focus: two batches whose
    records agree pairwise on these four keys, whatever else the records
    hold, give the same parameters to every INSERT and take the world to
    the same state with the same outcome. *)
Theorem insert_vc_records_reads_four_keys :
  forall (env : environment) (w : world) (ds1 ds2 : list Dict.t),
    Forall2 same_fields ds1 ds2 ->
    Forall2 (fun d1 d2 => forall now,
               row_params (PDict d1) now = row_params (PDict d2) now) ds1 ds2
    /\ insert_vc_records env (PList (map PDict ds1)) w
       = insert_vc_records env (PList (map PDict ds2)) w.
Proof.
  intros env w ds1 ds2 Hsame. split.
  - induction Hsame as [| d1 d2 l1 l2 Hd _ IH]; constructor; [ | exact IH ].
    intros now. apply row_params_same_fields. exact Hd.
  - rewrite !insert_vc_records_run. cbn [py_iter].
    assert (Hlen : List.length (map PDict ds1) = List.length (map PDict ds2))
      by (rewrite !length_map; exact (Forall2_length Hsame)).
    rewrite Hlen. clear Hlen.
    rewrite (insert_each_ext env (utcnow_isoformat env (clock_reads w))
               (map PDict ds1) (map PDict ds2)); [ reflexivity | ].
    induction Hsame as [| d1 d2 l1 l2 Hd _ IH]; cbn [map]; constructor.
    + apply row_params_same_fields. exact Hd.
    + exact IH.
Qed.

Lemma insert_vc_records_reads_four_keys_witness :
  insert_vc_records Demo.env
    (PList [PDict [("Name", PStr "Acme Ventures"); ("Rank", PInt 1)]]) Demo.ready
  = insert_vc_records Demo.env
      (PList [PDict [("Stage", PStr "seed"); ("Name", PStr "Acme Ventures")]])
      Demo.ready.
Proof.
  apply (insert_vc_records_reads_four_keys Demo.env Demo.ready
           [[("Name", PStr "Acme Ventures"); ("Rank", PInt 1)]]
           [[("Stage", PStr "seed"); ("Name", PStr "Acme Ventures")]]).
  constructor; [ | constructor ].
  intros k Hk. cbn in Hk.
  destruct Hk as [<- | [<- | [<- | [<- | []]]]]; reflexivity.
Defined.

(** C7. initialize_database never raises.  Called a second time, it
    leaves the whole world, and with it the table and every row, exactly
    as the first call left them; and the first call keeps the rows that
    were stored before it. *)
Theorem initialize_database_idempotent :
  forall w : world,
    fst (initialize_database w) = Ok PNone
    /\ fst (initialize_database (snd (initialize_database w))) = Ok PNone
    /\ snd (initialize_database (snd (initialize_database w)))
       = snd (initialize_database w)
    /\ vc_firms (db_file (snd (initialize_database w))) <> None
    /\ stored_rows (db_file (snd (initialize_database w))) = stored_rows (db_file w).
Proof.
  intros [out [[t |]] clock http chat]; cbn; repeat split; discriminate.
Qed.

(** *** Reading the table back *)

Lemma numbered_from_ascending :
  forall (new : list row) (k : Z),
    numbered_from k new = true -> ascending (map id new) = true.
Proof.
  induction new as [| r tl IH]; intros k H; [ reflexivity | ].
  cbn [numbered_from] in H. apply andb_prop in H. destruct H as [Hr Htl].
  apply Z.eqb_eq in Hr. cbn [map ascending].
  destruct tl as [| r2 tl2]; [ reflexivity | ].
  pose proof (IH _ Htl) as Hasc. cbn [map] in Hasc |- *.
  rewrite Hasc, andb_true_r.
  cbn [numbered_from] in Htl. apply andb_prop in Htl. destruct Htl as [Hr2 _].
  apply Z.eqb_eq in Hr2. apply Z.ltb_lt. lia.
Qed.

(** Rows numbered from a rowid above all those of an ascending table
    keep the table ascending. *)
Lemma ascending_append :
  forall (old new : list row) (k : Z),
    ascending (map id old) = true ->
    (forall r, In r old -> (id r < k)%Z) ->
    numbered_from k new = true ->
    ascending (map id (old ++ new)) = true.
Proof.
  induction old as [| a tl IH]; intros new k Hold Hbelow Hnew.
  - exact (numbered_from_ascending new k Hnew).
  - cbn [app map ascending]. destruct tl as [| b tl2].
    + cbn [app]. destruct new as [| r new2]; [ reflexivity | ].
      pose proof (numbered_from_ascending _ _ Hnew) as Hasc.
      cbn [map] in Hasc |- *. rewrite Hasc, andb_true_r.
      cbn [numbered_from] in Hnew. apply andb_prop in Hnew. destruct Hnew as [Hr _].
      apply Z.eqb_eq in Hr. apply Z.ltb_lt.
      specialize (Hbelow a (or_introl eq_refl)). lia.
    + cbn [map ascending] in Hold. apply andb_prop in Hold. destruct Hold as [Hab Htl].
      cbn [app map]. rewrite Hab. cbn [andb].
      apply (IH new k).
      * exact Htl.
      * intros r Hr. apply Hbelow. right. exact Hr.
      * exact Hnew.
Qed.

(** The order of the rows is an invariant of the store: no operation of
    the program breaks it, and the table starts empty. *)
Lemma insert_vc_records_keeps_order :
  forall (env : environment) (vc_records : pyval) (w : world),
    ascending (map id (stored_rows (db_file w))) = true ->
    ascending (map id (stored_rows
                         (db_file (snd (insert_vc_records env vc_records w)))))
    = true.
Proof.
  intros env vc_records w Hasc.
  destruct (insert_vc_records_outcome env vc_records w)
    as [(records & new & _ & _ & _ & _ & Hrows & _ & _ & Hnum & Hnone)
       | (e & _ & Hw)].
  - rewrite Hrows. destruct (vc_firms (db_file w)) as [t |] eqn:Ht.
    + assert (Hold : stored_rows (db_file w) = rows t)
        by (unfold stored_rows; rewrite Ht; reflexivity).
      rewrite Hold in Hasc |- *.
      apply (ascending_append (rows t) new (next_rowid t)).
      * exact Hasc.
      * intros r Hr. exact (next_rowid_above t r Hr).
      * exact (Hnum t eq_refl).
    + rewrite (Hnone eq_refl), app_nil_r. exact Hasc.
  - rewrite Hw. exact Hasc.
Qed.

Lemma initialize_database_keeps_order :
  forall w : world,
    ascending (map id (stored_rows (db_file w))) = true ->
    ascending (map id (stored_rows (db_file (snd (initialize_database w)))))
    = true.
Proof.
  intros [out [[t |]] clock http chat] Hasc; cbn in *; [ exact Hasc | reflexivity ].
Qed.

Lemma print_rows_run :
  forall (rs : list row) (w : world),
    print_rows rs w =
      (Ok tt, mkWorld (stdout w ++ map RowTuple rs) (db_file w) (clock_reads w)
                      (http_sent w) (chat_sent w)).
Proof.
  induction rs as [| r rs IH]; intros w.
  - cbn. rewrite app_nil_r. destruct w; reflexivity.
  - cbn [print_rows map]. unfold bind, print. rewrite IH. cbn.
    rewrite <- app_assoc. reflexivity.
Qed.

(** The run of query_all_vc_records on an initialised store. *)
Lemma query_all_vc_records_run :
  forall (w : world) (t : table),
    vc_firms (db_file w) = Some t ->
    query_all_vc_records w =
      (Ok PNone,
       mkWorld (stdout w ++ Line "Current VC Records:" :: map RowTuple (rows t))
               (db_file w) (clock_reads w) (http_sent w) (chat_sent w)).
Proof.
  intros w t Ht.
  unfold query_all_vc_records, bind, sqlite3_connect, lift, execute_select, close, ret.
  cbn [working]. rewrite Ht. unfold print at 1. rewrite print_rows_run. cbn.
  rewrite <- app_assoc. reflexivity.
Qed.

(** The row of a record whose four fields are strings holds these
    strings as they are. *)
Lemma row_of_record_text :
  forall (env : environment) (now : string) (d : Dict.t) (r : row)
         (s1 s2 s3 s4 : string),
    Dict.get d "Name" (PStr EmptyString) = PStr s1 ->
    Dict.get d "Location" (PStr EmptyString) = PStr s2 ->
    Dict.get d "Website" (PStr EmptyString) = PStr s3 ->
    Dict.get d "Focus" (PStr EmptyString) = PStr s4 ->
    row_of_record env now (PDict d) r ->
    r = mkRow (id r) (SqlText s1) (SqlText s2) (SqlText s3) (SqlText s4) (SqlText now).
Proof.
  intros env now d r s1 s2 s3 s4 H1 H2 H3 H4 (params & Hparams & Hrow).
  unfold row_params, py_get, and_then in Hparams.
  rewrite H1, H2, H3, H4 in Hparams. injection Hparams as <-.
  unfold new_row, and_then, bind_param in Hrow.
  destruct (has_surrogate s1); [ discriminate | ].
  destruct (has_surrogate s2); [ discriminate | ].
  destruct (has_surrogate s3); [ discriminate | ].
  destruct (has_surrogate s4); [ discriminate | ].
  destruct (has_surrogate now); [ discriminate | ].
  cbn in Hrow. injection Hrow as Hrow. symmetry. exact Hrow.
Qed.

(** C8, as the code has it.  On an initialised store whose rows are in
    ascending rowid order and whose table has rowids left for the
    batch, when the clock shows a text without lone surrogate,
    insert_vc_records on a batch of storable records followed at once
    by query_all_vc_records prints, after the two heading lines, every
    row of the table: the rows that were there, then one row per record
    of the batch in the order of the batch, with the next rowids in
    ascending order and all with the instant of the batch.
    query_all_vc_records changes nothing in the file and returns
    None. *)
Theorem insert_then_query_all :
  forall (env : environment) (w : world) (t : table) (records : list pyval),
    vc_firms (db_file w) = Some t ->
    ascending (map id (rows t)) = true ->
    forallb storable records = true ->
    plain_instant env w = true ->
    has_room t (List.length records) = true ->
    let now := utcnow_isoformat env (clock_reads w) in
    let w1 := snd (insert_vc_records env (PList records) w) in
    let out := query_all_vc_records w1 in
    fst out = Ok PNone
    /\ db_file (snd out) = db_file w1
    /\ exists new : list row,
         stdout (snd out)
         = (stdout w ++ [inserted_line (List.length records);
                         Line "Current VC Records:"]
                     ++ map RowTuple (rows t ++ new))%list
         /\ Forall2 (row_of_record env now) records new
         /\ Forall (fun r => last_updated r = SqlText now) new
         /\ numbered_from (next_rowid t) new = true
         /\ ascending (map id (rows t ++ new)) = true.
Proof.
  intros env w t records Ht Hasc Hall Hplain Hroom now w1 out.
  pose proof (insert_vc_records_storable env w t records Ht Hall Hplain Hroom) as Hok.
  destruct (insert_vc_records_outcome env (PList records) w)
    as [(records' & new & Hiter & _ & Hout & _ & Hrows & Hall2 & Hnow & Hnum & _)
       | (e & He & _)]; [ | rewrite Hok in He; discriminate ].
  cbn in Hiter. injection Hiter as <-. fold w1 in Hout, Hrows.
  specialize (Hnum t Ht).
  assert (Hold : stored_rows (db_file w) = rows t)
    by (unfold stored_rows; rewrite Ht; reflexivity).
  rewrite Hold in Hrows.
  destruct (vc_firms (db_file w1)) as [t1 |] eqn:Ht1.
  - assert (Hrows1 : rows t1 = (rows t ++ new)%list)
      by (unfold stored_rows in Hrows; rewrite Ht1 in Hrows; exact Hrows).
    subst out. rewrite (query_all_vc_records_run w1 t1 Ht1). cbn [fst snd db_file stdout].
    split; [ reflexivity | ]. split; [ reflexivity | ].
    exists new. rewrite Hout, Hrows1, <- app_assoc. cbn [app].
    repeat split; try assumption.
    apply (ascending_append (rows t) new (next_rowid t)); try assumption.
    intros r Hr. exact (next_rowid_above t r Hr).
  - exfalso. unfold stored_rows in Hrows. rewrite Ht1 in Hrows.
    destruct (rows t) as [| r0 rs0] eqn:Hrt; destruct new as [| r new'];
      try discriminate.
    inversion Hall2; subst.
    revert Ht1. subst w1. rewrite insert_vc_records_run. cbn. rewrite Ht. discriminate.
Qed.

Lemma insert_then_query_all_witness :
  fst (query_all_vc_records
         (snd (insert_vc_records Demo.env (PList [Demo.acme]) Demo.ready)))
    = Ok PNone
  /\ stdout (snd (query_all_vc_records
                    (snd (insert_vc_records Demo.env (PList [Demo.acme]) Demo.ready))))
     = [Line "Inserted 1 records into the database.";
        Line "Current VC Records:";
        RowTuple (mkRow 1 (SqlText "Acme Ventures") (SqlText "SF")
                          (SqlText "acme.vc") (SqlText "seed")
                          (SqlText "2024-05-01T12:00:00.000000"))].
Proof.
  split.
  - apply (insert_then_query_all Demo.env Demo.ready empty_table [Demo.acme]);
      reflexivity.
  - reflexivity.
Defined.

(** C8 does not hold as stated: after a batch of one record was
    inserted, query_all_vc_records returns None; the rows it read are
    printed, not returned. *)
Lemma query_all_vc_records_returns_none :
  let w1 := snd (insert_vc_records Demo.env (PList [Demo.acme]) Demo.ready) in
  List.length (stored_rows (db_file w1)) = 1
  /\ fst (query_all_vc_records w1) = Ok PNone
  /\ PNone <> PList [Demo.acme].
Proof. vm_compute. repeat split. discriminate. Qed.

(* ================================================================= *)
(** ** The text normaliser *)

(** Induction on a tree, with the property known of all children. *)
Lemma node_induction :
  forall P : node -> Prop,
    (forall s, P (NavigableString s)) ->
    (forall s, P (Comment s)) ->
    (forall c s, P (Special c s)) ->
    (forall i nm attrs kids, Forall P kids -> P (Tag i nm attrs kids)) ->
    forall n, P n.
Proof.
  intros P Hs Hc Hx Ht. fix IH 1. intros [s | s | c s | i nm attrs kids].
  - apply Hs.
  - apply Hc.
  - apply Hx.
  - apply Ht. induction kids as [| k kids IHk]; constructor.
    + apply IH.
    + exact IHk.
Qed.

(** From the children to the forest. *)
Lemma flat_map_ext_Forall :
  forall (A B : Type) (f g : A -> list B) (l : list A),
    Forall (fun x => f x = g x) l -> flat_map f l = flat_map g l.
Proof.
  intros A B f g l H. induction H as [| x l Hx _ IH]; cbn; congruence.
Qed.

Lemma flat_map_nested :
  forall (A B C : Type) (f : B -> list C) (g : A -> list B) (l : list A),
    flat_map f (flat_map g l) = flat_map (fun x => flat_map f (g x)) l.
Proof.
  intros A B C f g l. induction l as [| x l IH]; [ reflexivity | ].
  cbn [flat_map]. rewrite flat_map_app, IH. reflexivity.
Qed.

Lemma decompose_prune : forall (i : nat) (n : node), decompose i n = prune [i] n.
Proof.
  intros i. induction n as [s | s | c s | j nm attrs kids IH] using node_induction;
    try reflexivity.
  cbn [decompose prune existsb]. rewrite orb_false_r, (Nat.eqb_sym j i).
  destruct (Nat.eqb i j); [ reflexivity | ].
  rewrite (flat_map_ext_Forall _ _ _ _ _ IH). reflexivity.
Qed.

Lemma prune_nothing : forall n : node, prune [] n = [n].
Proof.
  induction n as [s | s | c s | j nm attrs kids IH] using node_induction;
    try reflexivity.
  cbn [prune existsb].
  rewrite (flat_map_ext_Forall _ _ _ (fun k => [k]) _ IH).
  f_equal. f_equal. clear IH. induction kids as [| k kids IHk]; cbn; congruence.
Qed.

(** Pruning twice is pruning once with both sets of identities. *)
Lemma prune_prune :
  forall (ids1 ids2 : list nat) (n : node),
    flat_map (prune ids2) (prune ids1 n) = prune (ids1 ++ ids2) n.
Proof.
  intros ids1 ids2.
  induction n as [s | s | c s | j nm attrs kids IH] using node_induction;
    try reflexivity.
  cbn [prune]. rewrite existsb_app.
  destruct (existsb (Nat.eqb j) ids1); [ reflexivity | ].
  cbn [flat_map prune orb app]. rewrite app_nil_r.
  destruct (existsb (Nat.eqb j) ids2); [ reflexivity | ].
  f_equal. f_equal. rewrite flat_map_nested.
  apply flat_map_ext_Forall. exact IH.
Qed.

(** The loop of decompose calls removes the tags found, all at once. *)
Lemma decompose_each_prune :
  forall (found : list nat) (soup : list node),
    decompose_each found soup = flat_map (prune found) soup.
Proof.
  induction found as [| i found IH]; intros soup.
  - cbn. rewrite (flat_map_ext_Forall _ _ _ (fun k => [k]) soup).
    + induction soup as [| k soup IHs]; cbn; congruence.
    + apply Forall_forall. intros n _. apply prune_nothing.
  - unfold decompose_each in *. cbn [fold_left]. rewrite IH, flat_map_nested.
    apply flat_map_ext_Forall, Forall_forall. intros n _.
    rewrite decompose_prune. apply (prune_prune [i] found n).
Qed.

(** find_all returns the identities of the tags with a wanted name. *)
Lemma find_all_tags :
  forall (names : list string) (n : node),
    find_all names n = map fst (filter (wanted names) (tags n)).
Proof.
  intros names.
  induction n as [s | s | c s | j nm attrs kids IH] using node_induction;
    try reflexivity.
  cbn [find_all tags filter]. unfold wanted at 1. cbn [snd].
  assert (Hkids : flat_map (find_all names) kids
                  = map fst (filter (wanted names) (flat_map tags kids))).
  { induction IH as [| k kids Hk _ IHk]; [ reflexivity | ].
    cbn [flat_map]. rewrite filter_app, map_app, Hk, IHk. reflexivity. }
  rewrite Hkids. destruct (name_in names nm); reflexivity.
Qed.

Lemma find_all_tags_forest :
  forall (names : list string) (soup : list node),
    flat_map (find_all names) soup
    = map fst (filter (wanted names) (flat_map tags soup)).
Proof.
  intros names soup. induction soup as [| n soup IH]; [ reflexivity | ].
  cbn [flat_map]. rewrite filter_app, map_app, find_all_tags, IH. reflexivity.
Qed.

Lemma existsb_eqb_In :
  forall (i : nat) (l : list nat), existsb (Nat.eqb i) l = true <-> In i l.
Proof.
  intros i l. rewrite existsb_exists. split.
  - intros (x & Hx & Heq). apply Nat.eqb_eq in Heq. subst. exact Hx.
  - intros H. exists i. split; [ exact H | apply Nat.eqb_refl ].
Qed.

(** With distinct identities, an identity has one name. *)
Lemma distinct_one_name :
  forall (l : list (nat * string)) (i : nat) (a b : string),
    distinct (map fst l) = true -> In (i, a) l -> In (i, b) l -> a = b.
Proof.
  induction l as [| [j c] tl IH]; intros i a b Hd Ha Hb; [ contradiction | ].
  cbn [map fst distinct] in Hd. apply andb_prop in Hd. destruct Hd as [Hfresh Htl].
  apply negb_true_iff in Hfresh.
  assert (Hnot : forall x, In (j, x) tl -> False).
  { intros x Hx. apply (in_map fst) in Hx. cbn [fst] in Hx.
    apply existsb_eqb_In in Hx. congruence. }
  destruct Ha as [Ha | Ha]; destruct Hb as [Hb | Hb].
  - congruence.
  - injection Ha as -> ->. exfalso. exact (Hnot _ Hb).
  - injection Hb as -> ->. exfalso. exact (Hnot _ Ha).
  - exact (IH i a b Htl Ha Hb).
Qed.

(** In a well identified tree the identities find_all returns are those
    of the tags with a wanted name, and of no other tag. *)
Lemma find_all_marks :
  forall (names : list string) (soup : list node) (tag : nat * string),
    well_identified soup = true ->
    In tag (flat_map tags soup) ->
    existsb (Nat.eqb (fst tag)) (flat_map (find_all names) soup)
    = name_in names (snd tag).
Proof.
  intros names soup [i nm] Hwf Hin. cbn [fst snd].
  rewrite find_all_tags_forest.
  destruct (name_in names nm) eqn:Hnm.
  - apply existsb_eqb_In. apply (in_map fst _ (i, nm)).
    apply filter_In. split; [ exact Hin | exact Hnm ].
  - apply not_true_is_false. intros H. apply existsb_eqb_In in H.
    apply in_map_iff in H. destruct H as ([i' nm'] & Hfst & Hin').
    cbn [fst] in Hfst. subst i'. apply filter_In in Hin'.
    destruct Hin' as [Hin' Hwanted]. unfold wanted in Hwanted. cbn [snd] in Hwanted.
    rewrite (distinct_one_name _ i nm nm' Hwf Hin Hin') in Hnm. congruence.
Qed.

(** Once the tags marked by [ids] are exactly the script and style tags,
    the strings left after pruning are the strings outside of them. *)
Lemma prune_strings :
  forall (ids : list nat) (n : node),
    (forall tag, In tag (tags n) ->
       existsb (Nat.eqb (fst tag)) ids = name_in ["script"; "style"] (snd tag)) ->
    flat_map all_strings (prune ids n) = content_strings n.
Proof.
  intros ids.
  induction n as [s | s | c s | j nm attrs kids IH] using node_induction;
    intros Hmarks; try reflexivity.
  cbn [prune content_strings].
  pose proof (Hmarks (j, nm) (or_introl eq_refl)) as Hj. cbn [fst snd] in Hj.
  rewrite Hj.
  destruct (name_in ["script"; "style"] nm); [ reflexivity | ].
  cbn [flat_map all_strings]. rewrite app_nil_r, flat_map_nested.
  apply flat_map_ext_Forall. rewrite Forall_forall in IH |- *.
  intros k Hk. apply (IH k Hk). intros tag Htag. apply Hmarks.
  cbn [tags]. right. apply in_flat_map. exists k. split; assumption.
Qed.

(** A tag that survives pruning was in the tree and is not marked. *)
Lemma prune_tags :
  forall (ids : list nat) (n : node) (tag : nat * string),
    In tag (flat_map tags (prune ids n)) ->
    In tag (tags n) /\ existsb (Nat.eqb (fst tag)) ids = false.
Proof.
  intros ids.
  induction n as [s | s | c s | j nm attrs kids IH] using node_induction;
    intros tag Hin; try contradiction.
  cbn [prune] in Hin.
  destruct (existsb (Nat.eqb j) ids) eqn:Hj; [ contradiction | ].
  cbn [flat_map tags] in Hin. rewrite app_nil_r in Hin.
  destruct Hin as [<- | Hin].
  - split; [ left; reflexivity | exact Hj ].
  - rewrite flat_map_nested in Hin. apply in_flat_map in Hin.
    destruct Hin as (k & Hk & Hin). rewrite Forall_forall in IH.
    destruct (IH k Hk tag Hin) as [Htag Hout].
    split; [ | exact Hout ].
    cbn [tags]. right. apply in_flat_map. exists k. split; assumption.
Qed.

(** C6. For every markup whose parsed tree gives each tag its own
    identity: the tree that parse_html_to_text serialises holds no
    script and no style tag any more, and the text returned is made of
    the strings of the text nodes that lie outside every script and
    style element, in document order, joined by line feeds; no string
    from inside such an element is part of it. *)
Theorem parse_html_to_text_drops_scripts :
  forall (env : environment) (html_content : string),
    well_identified (html_parser env html_content) = true ->
    let soup := html_parser env html_content in
    let cleaned := decompose_each (flat_map (find_all ["script"; "style"]) soup) soup in
    parse_html_to_text env html_content = get_text nl cleaned
    /\ Forall (fun tag => name_in ["script"; "style"] (snd tag) = false)
              (flat_map tags cleaned)
    /\ parse_html_to_text env html_content
       = join nl (flat_map content_strings soup).
Proof.
  intros env html_content Hwf soup cleaned.
  assert (Hmarks : forall tag, In tag (flat_map tags soup) ->
            existsb (Nat.eqb (fst tag)) (flat_map (find_all ["script"; "style"]) soup)
            = name_in ["script"; "style"] (snd tag))
    by (intros tag Htag; apply find_all_marks; assumption).
  assert (Hclean : cleaned
                   = flat_map (prune (flat_map (find_all ["script"; "style"]) soup)) soup)
    by apply decompose_each_prune.
  split; [ reflexivity | ]. split.
  - apply Forall_forall. intros tag Htag. rewrite Hclean in Htag.
    rewrite flat_map_nested in Htag. apply in_flat_map in Htag.
    destruct Htag as (n & Hn & Htag). apply prune_tags in Htag.
    destruct Htag as [Htag Hout]. rewrite <- Hmarks.
    + exact Hout.
    + apply in_flat_map. exists n. split; assumption.
  - unfold parse_html_to_text, get_text. fold soup. fold cleaned.
    f_equal. rewrite Hclean, flat_map_nested.
    apply flat_map_ext_Forall, Forall_forall. intros n Hn.
    apply prune_strings. intros tag Htag. apply Hmarks.
    apply in_flat_map. exists n. split; assumption.
Qed.

Lemma parse_html_to_text_drops_scripts_witness :
  parse_html_to_text Demo.env "<html>...</html>"
  = "Directory" ++ nl ++ "Acme Ventures" ++ nl ++ "SF".
Proof.
  apply (parse_html_to_text_drops_scripts Demo.env "<html>...</html>").
  reflexivity.
Defined.

(* ================================================================= *)
(* ================================================================= *)
(** * Further properties of the code *)

(** ** Running each operation *)

Lemma initialize_database_run :
  forall w : world,
    initialize_database w =
      (Ok PNone,
       mkWorld (stdout w) (initialized (db_file w)) (clock_reads w)
               (http_sent w) (chat_sent w)).
Proof.
  intros [out [[t |]] clock http chat]; reflexivity.
Qed.

Lemma initialized_rows :
  forall db : database, stored_rows (initialized db) = stored_rows db.
Proof.
  intros [[t |]]; reflexivity.
Qed.

Lemma initialized_table :
  forall db : database,
    exists t, vc_firms (initialized db) = Some t /\ rows t = stored_rows db.
Proof.
  intros [[t |]]; eexists; split; reflexivity.
Qed.

(** On a store that has the table, query_all_vc_records prints the
    heading and the rows and changes nothing else. *)
Lemma query_all_vc_records_prints :
  forall w : world,
    vc_firms (db_file w) <> None ->
    query_all_vc_records w =
      (Ok PNone,
       printing (Line "Current VC Records:"
                 :: map RowTuple (stored_rows (db_file w))) w).
Proof.
  intros w Ht. destruct (vc_firms (db_file w)) as [t |] eqn:E; [ | congruence ].
  rewrite (query_all_vc_records_run w t E). unfold printing, stored_rows.
  rewrite E. reflexivity.
Qed.

(** insert_vc_records leaves the two request logs alone and never
    removes the table. *)
Lemma insert_vc_records_frame :
  forall (env : environment) (vc_records : pyval) (w : world),
    http_sent (snd (insert_vc_records env vc_records w)) = http_sent w
    /\ chat_sent (snd (insert_vc_records env vc_records w)) = chat_sent w
    /\ clock_reads (snd (insert_vc_records env vc_records w)) = S (clock_reads w)
    /\ (vc_firms (db_file w) <> None ->
        vc_firms (db_file (snd (insert_vc_records env vc_records w))) <> None).
Proof.
  intros env vc_records w. rewrite insert_vc_records_run.
  destruct (py_iter vc_records) as [records | e];
    [ | repeat split; auto ].
  destruct (insert_each env _ records _) as [conn | e] eqn:Hloop;
    [ | repeat split; auto ].
  cbn [fst snd http_sent chat_sent clock_reads db_file].
  repeat split. intros Ht.
  destruct (vc_firms (db_file w)) as [t |] eqn:E; [ | congruence ].
  destruct (insert_each_rows env _ records (mkConnection (db_file w) false) conn t E
              Hloop)
    as (t' & new & Ht' & _).
  destruct (in_transaction conn); congruence.
Qed.

(** main, step by step. *)
Lemma main_run :
  forall (env : environment) (sh : shell) (w : world),
    main env sh w =
      let w0 := mkWorld (stdout w) (initialized (db_file w)) (clock_reads w)
                        (http_sent w) (chat_sent w) in
      match input sh url_prompt with
      | Raise e => (Raise e, w0)
      | Ok line =>
          let url := Str.strip line in
          let w1 := mkWorld (stdout w ++ [Line "Fetching web page content..."])
                            (initialized (db_file w)) (clock_reads w)
                            (http_sent w ++ [page_request url]) (chat_sent w) in
          match requests_get env (List.length (http_sent w)) url
                  [("User-Agent", "Mozilla/5.0")] with
          | Raise e => (Raise e, w1)
          | Ok response =>
              if (status_code response =? 200)%Z then
                match extract_vc_data env (parse_html_to_text env (text response))
                        (printing [Line "Parsing HTML to extract text...";
                                   Line "Extracting VC data from text using AI..."]
                                  w1) with
                | (Raise e, w2) => (Raise e, w2)
                | (Ok vc_data, w2) =>
                    match insert_vc_records env vc_data
                            (printing [Line "Extracted Data:";
                                       Line (json_dumps sh vc_data);
                                       Line "Saving data into the database..."]
                                      w2) with
                    | (Raise e, w3) => (Raise e, w3)
                    | (Ok _, w3) =>
                        match query_all_vc_records w3 with
                        | (Raise e, w4) => (Raise e, w4)
                        | (Ok _, w4) => (Ok PNone, w4)
                        end
                    end
                end
              else
                (Raise (Exception ("Error fetching " ++ url ++ ": "
                                   ++ str_of_Z (status_code response))), w1)
          end
      end.
Proof.
  intros env sh w. unfold main, bind at 1. rewrite initialize_database_run.
  unfold bind at 1, lift, and_then. fold url_prompt.
  destruct (input sh url_prompt) as [line | e]; [ | reflexivity ].
  unfold bind at 1, print at 1. cbn [stdout db_file clock_reads http_sent chat_sent].
  unfold bind at 1, fetch_web_page, bind at 1, requests_get_call.
  cbn [stdout db_file clock_reads http_sent chat_sent]. fold (page_request (Str.strip line)).
  destruct (requests_get env _ _ _) as [response | e]; [ | reflexivity ].
  destruct (status_code response =? 200)%Z; [ | reflexivity ].
  cbn [negb]. unfold ret at 1. unfold bind at 1, print at 1. unfold bind at 1, print at 1.
  cbn [stdout db_file clock_reads http_sent chat_sent].
  unfold printing. cbn [stdout db_file clock_reads http_sent chat_sent].
  rewrite <- app_assoc. cbn [app].
  unfold bind at 1.
  destruct (extract_vc_data env _ _) as [[vc_data | e] w2]; [ | reflexivity ].
  unfold bind at 1, print at 1. unfold bind at 1, print at 1. unfold bind at 1, print at 1.
  cbn [stdout db_file clock_reads http_sent chat_sent].
  rewrite <- !app_assoc. cbn [app].
  unfold bind at 1.
  destruct (insert_vc_records env vc_data _) as [[r | e] w3]; [ | reflexivity ].
  unfold bind at 1.
  destruct (query_all_vc_records w3) as [[r' | e] w4]; reflexivity.
Qed.

Lemma extends_refl : forall rs : list row, extends rs rs.
Proof. intros rs. exists []. rewrite app_nil_r. reflexivity. Qed.

Lemma extends_trans :
  forall a b c : list row, extends a b -> extends b c -> extends a c.
Proof.
  intros a b c [n1 ->] [n2 ->]. exists (n1 ++ n2)%list. rewrite app_assoc. reflexivity.
Qed.

(** Whatever it is given, insert_vc_records only ever adds rows behind
    those that are stored. *)
Lemma insert_vc_records_extends :
  forall (env : environment) (vc_records : pyval) (w : world),
    extends (stored_rows (db_file w))
            (stored_rows (db_file (snd (insert_vc_records env vc_records w)))).
Proof.
  intros env vc_records w.
  destruct (insert_vc_records_outcome env vc_records w)
    as [(records & new & _ & _ & _ & _ & Hrows & _) | (e & _ & Hw)].
  - exists new. exact Hrows.
  - rewrite Hw. apply extends_refl.
Qed.

(** extract_vc_data sends one completion request and touches neither
    the store, nor the clock, nor the log of page requests. *)
Lemma extract_vc_data_frame :
  forall (env : environment) (text : string) (w : world),
    db_file (snd (extract_vc_data env text w)) = db_file w
    /\ clock_reads (snd (extract_vc_data env text w)) = clock_reads w
    /\ http_sent (snd (extract_vc_data env text w)) = http_sent w
    /\ chat_sent (snd (extract_vc_data env text w))
       = (chat_sent w ++ [completion_request (prompt_of text)])%list.
Proof.
  intros env text w.
  unfold extract_vc_data, bind, ChatCompletion_create_call, lift.
  destruct (ChatCompletion_create env _ _) as [[| reply others] | e];
    try (repeat split; reflexivity).
  destruct (Json.loads (json_limits env) reply); repeat split; reflexivity.
Qed.

(** query_all_vc_records changes nothing but the output. *)
Lemma query_all_vc_records_frame :
  forall w : world,
    db_file (snd (query_all_vc_records w)) = db_file w
    /\ clock_reads (snd (query_all_vc_records w)) = clock_reads w
    /\ http_sent (snd (query_all_vc_records w)) = http_sent w
    /\ chat_sent (snd (query_all_vc_records w)) = chat_sent w.
Proof.
  intros w. destruct (vc_firms (db_file w)) as [t |] eqn:E.
  - rewrite (query_all_vc_records_run w t E). repeat split; reflexivity.
  - unfold query_all_vc_records, bind, sqlite3_connect, lift, execute_select.
    cbn [working]. rewrite E. repeat split; reflexivity.
Qed.

(* ================================================================= *)
(** ** The front end *)

(** X1. Without an API key in OPENAI_API_KEY, unset or empty, running the
    file stops at once with the configuration error: main is not entered,
    so nothing is printed, no request is sent and the store is not even
    initialised. *)
Theorem script_needs_api_key :
  forall (env : environment) (sh : shell) (w : world),
    getenv sh "OPENAI_API_KEY" = None
    \/ getenv sh "OPENAI_API_KEY" = Some EmptyString ->
    script env sh w
    = (Raise (Exception "OPENAI_API_KEY environment variable not set."), w).
Proof.
  intros env sh w [H | H]; unfold script, bind, lift, startup; rewrite H; reflexivity.
Qed.

Lemma script_needs_api_key_witness :
  script Demo.env Run.empty_key Demo.fresh
  = (Raise (Exception "OPENAI_API_KEY environment variable not set."), Demo.fresh).
Proof.
  apply (script_needs_api_key Demo.env Run.empty_key Demo.fresh).
  right. reflexivity.
Defined.

(** X2. When the page is answered with a status other than 200, main
    stops with the error of fetch_web_page for the stripped URL.  By then
    it has initialised the store, printed one progress line and sent the
    one page request; no completion request is sent, the clock is not
    read and the rows stored are those that were stored before. *)
Theorem main_stops_on_bad_status :
  forall (env : environment) (sh : shell) (w : world) (line : string)
         (response : http_response),
    input sh url_prompt = Ok line ->
    requests_get env (List.length (http_sent w)) (Str.strip line)
      [("User-Agent", "Mozilla/5.0")] = Ok response ->
    status_code response <> 200%Z ->
    main env sh w
    = (Raise (Exception ("Error fetching " ++ Str.strip line ++ ": "
                         ++ str_of_Z (status_code response))),
       mkWorld (stdout w ++ [Line "Fetching web page content..."])
               (initialized (db_file w)) (clock_reads w)
               (http_sent w ++ [page_request (Str.strip line)]) (chat_sent w))
    /\ stored_rows (initialized (db_file w)) = stored_rows (db_file w).
Proof.
  intros env sh w line response Hline Hget Hstatus.
  split; [ | apply initialized_rows ].
  rewrite main_run, Hline. cbv zeta. rewrite Hget.
  destruct (Z.eqb_spec (status_code response) 200); [ contradiction | reflexivity ].
Qed.

Lemma main_stops_on_bad_status_witness :
  main (Demo.scripted 404 "gone" "" []) (Run.typing "  http://vc.example/list ")
       Demo.fresh
  = (Raise (Exception "Error fetching http://vc.example/list: 404"),
     mkWorld [Line "Fetching web page content..."]
             (mkDatabase (Some empty_table)) 0
             [page_request "http://vc.example/list"] []).
Proof.
  apply (main_stops_on_bad_status (Demo.scripted 404 "gone" "" [])
           (Run.typing "  http://vc.example/list ") Demo.fresh
           "  http://vc.example/list " (mkHttpResponse 404 "gone")).
  - reflexivity.
  - reflexivity.
  - cbn. lia.
Defined.



(** The prompt is the instructions followed by the text and a line
    feed. *)
Lemma completion_request_embeds :
  forall page_text : string,
    completion_request (prompt_of page_text) = request_for page_text.
Proof.
  intros page_text. unfold completion_request, request_for. do 2 f_equal.
Qed.

(** X4. A full run.  When the page is answered with status 200, the
    reply decodes to an array of storable records, the clock shows a
    text without lone surrogate and the table, once the store is
    initialised, has rowids left for the records, main returns None
    after one page request and one completion request, whose user
    message is the instructions followed by the normalised text of the
    page and a line feed; the store holds the rows it held followed by
    one row per record, all with the one instant read from the clock;
    and the output is the six progress lines, the count of the batch,
    the heading and every row of the table, old and new. *)
Theorem main_stores_the_extracted_records :
  forall (env : environment) (sh : shell) (w : world) (line : string)
         (response : http_response) (reply : string) (others : list string)
         (records : list pyval) (t : table),
    input sh url_prompt = Ok line ->
    requests_get env (List.length (http_sent w)) (Str.strip line)
      [("User-Agent", "Mozilla/5.0")] = Ok response ->
    status_code response = 200%Z ->
    ChatCompletion_create env (List.length (chat_sent w))
      (request_for (parse_html_to_text env (text response)))
      = Ok (reply :: others) ->
    Json.loads (json_limits env) reply = Ok (PList records) ->
    forallb storable records = true ->
    plain_instant env w = true ->
    vc_firms (initialized (db_file w)) = Some t ->
    has_room t (List.length records) = true ->
    let out := main env sh w in
    fst out = Ok PNone
    /\ http_sent (snd out) = (http_sent w ++ [page_request (Str.strip line)])%list
    /\ chat_sent (snd out)
       = (chat_sent w
          ++ [mkChatRequest "gpt-4"
                [("system", "You are an expert data extractor.");
                 ("user", (instructions
                           ++ parse_html_to_text env (text response) ++ nl)%string)]
                "0.0" 1500])%list
    /\ clock_reads (snd out) = S (clock_reads w)
    /\ exists new : list row,
         stored_rows (db_file (snd out)) = (stored_rows (db_file w) ++ new)%list
         /\ Forall2 (row_of_record env (utcnow_isoformat env (clock_reads w)))
                    records new
         /\ Forall (fun r => last_updated r
                             = SqlText (utcnow_isoformat env (clock_reads w))) new
         /\ stdout (snd out)
            = (stdout w
               ++ [Line "Fetching web page content...";
                   Line "Parsing HTML to extract text...";
                   Line "Extracting VC data from text using AI...";
                   Line "Extracted Data:";
                   Line (json_dumps sh (PList records));
                   Line "Saving data into the database...";
                   inserted_line (List.length records);
                   Line "Current VC Records:"]
               ++ map RowTuple (stored_rows (db_file w) ++ new))%list.
Proof.
  intros env sh w line response reply others records t
         Hline Hget Hstatus Hreply Hloads Hall Hplain Ht Hroom out.
  rewrite <- completion_request_embeds in Hreply.
  change (mkChatRequest "gpt-4"
            [("system", "You are an expert data extractor.");
             ("user", instructions ++ parse_html_to_text env (text response) ++ nl)]
            "0.0" 1500)
    with (request_for (parse_html_to_text env (text response))).
  rewrite <- completion_request_embeds.
  subst out. rewrite main_run, Hline. cbv zeta. rewrite Hget, Hstatus.
  cbn [Z.eqb Pos.eqb].
  rewrite (extract_vc_data_run env _ _ reply others);
    [ | cbn [printing chat_sent]; exact Hreply ].
  rewrite Hloads. cbv zeta.
  match goal with
  | |- context [insert_vc_records env (PList records) ?w3] => set (w3' := w3)
  end.
  assert (Ht3 : vc_firms (db_file w3') = Some t) by exact Ht.
  assert (Hplain3 : plain_instant env w3' = true) by exact Hplain.
  pose proof (insert_vc_records_storable env w3' t records Ht3 Hall Hplain3 Hroom)
    as Hok.
  destruct (insert_vc_records_outcome env (PList records) w3')
    as [(records' & new & Hiter & _ & Hout & Hclock & Hrows & Hall2 & Hnow & _)
       | (e & He & _)]; [ | rewrite Hok in He; discriminate ].
  cbn in Hiter. injection Hiter as <-.
  destruct (insert_vc_records_frame env (PList records) w3') as (Hhttp & Hchat & _ & Htable).
  destruct (insert_vc_records env (PList records) w3') as [[r | e] w4];
    [ | discriminate ].
  cbn [fst snd] in *.
  rewrite (query_all_vc_records_prints w4)
    by (apply Htable; rewrite Ht3; discriminate).
  cbn [fst snd printing stdout db_file clock_reads http_sent chat_sent].
  split; [ reflexivity | ]. split; [ exact Hhttp | ]. split; [ exact Hchat | ].
  split; [ exact Hclock | ].
  exists new.
  assert (Hold : stored_rows (db_file w3') = stored_rows (db_file w))
    by apply initialized_rows.
  rewrite Hold in Hrows.
  split; [ exact Hrows | ]. split; [ exact Hall2 | ]. split; [ exact Hnow | ].
  rewrite Hout, Hrows. subst w3'. unfold printing.
  cbn [stdout db_file clock_reads http_sent chat_sent].
  rewrite <- !app_assoc. reflexivity.
Qed.

Lemma main_stores_the_extracted_records_witness :
  fst (main Demo.env (Run.typing " http://vc.example/list") Run.stocked) = Ok PNone
  /\ clock_reads (snd (main Demo.env (Run.typing " http://vc.example/list")
                         Run.stocked)) = 4
  /\ map messages
         (chat_sent (snd (main Demo.env (Run.typing " http://vc.example/list")
                            Run.stocked)))
     = [[("system", "You are an expert data extractor.");
         ("user", instructions ++ "Directory" ++ nl ++ "Acme Ventures" ++ nl
                  ++ "SF" ++ nl)]]
  /\ stored_rows (db_file (snd (main Demo.env (Run.typing " http://vc.example/list")
                                  Run.stocked)))
     = [Run.one_row;
        mkRow 8 (SqlText "Acme Ventures") (SqlText "SF") (SqlText "acme.vc")
              (SqlText "seed") (SqlText "2024-05-01T12:00:00.000000")].
Proof.
  pose proof (main_stores_the_extracted_records Demo.env
                (Run.typing " http://vc.example/list") Run.stocked
                " http://vc.example/list" (mkHttpResponse 200 "<p>Acme Ventures</p>")
                Demo.acme_reply [] [Demo.acme] (mkTable [Run.one_row] 7)
                eq_refl eq_refl eq_refl eq_refl eq_refl eq_refl eq_refl eq_refl
                eq_refl)
    as (Hok & _ & Hchat & Hclock & _).
  split; [ exact Hok | ]. split; [ exact Hclock | ].
  split; [ rewrite Hchat; reflexivity | reflexivity ].
Defined.

(** X5. Whatever the shell, the web and the completion service do, and
    however main ends, it leaves the store initialised, with the rows
    that were stored still there, unchanged and in front; it has sent at
    most one page request and at most one completion request, the second
    never without the first, and has read the clock at most once. *)
Theorem main_footprint :
  forall (env : environment) (sh : shell) (w : world),
    let out := main env sh w in
    vc_firms (db_file (snd out)) <> None
    /\ extends (stored_rows (db_file w)) (stored_rows (db_file (snd out)))
    /\ (clock_reads (snd out) = clock_reads w
        \/ clock_reads (snd out) = S (clock_reads w))
    /\ ((http_sent (snd out) = http_sent w /\ chat_sent (snd out) = chat_sent w)
        \/ exists url,
             http_sent (snd out) = (http_sent w ++ [page_request url])%list
             /\ (chat_sent (snd out) = chat_sent w
                 \/ exists request,
                      chat_sent (snd out) = (chat_sent w ++ [request])%list)).
Proof.
  intros env sh w out. subst out. rewrite main_run. cbv zeta.
  assert (Hinit : vc_firms (initialized (db_file w)) <> None)
    by (destruct (initialized_table (db_file w)) as (t & -> & _); discriminate).
  assert (Hsame : extends (stored_rows (db_file w))
                          (stored_rows (initialized (db_file w))))
    by (rewrite initialized_rows; apply extends_refl).
  destruct (input sh url_prompt) as [line | e].
  2: { cbn [snd db_file clock_reads http_sent chat_sent]. auto 6. }
  destruct (requests_get env _ _ _) as [response | e].
  2: { cbn [snd db_file clock_reads http_sent chat_sent].
       repeat split; auto. right. exists (Str.strip line). auto. }
  destruct (status_code response =? 200)%Z.
  2: { cbn [snd db_file clock_reads http_sent chat_sent].
       repeat split; auto. right. exists (Str.strip line). auto. }
  match goal with
  | |- context [extract_vc_data env ?text ?w1] =>
      destruct (extract_vc_data_frame env text w1) as (Hdb & Hclock & Hhttp & Hchat);
      destruct (extract_vc_data env text w1) as [[vc_data | e] w2]
  end; cbn [snd printing db_file clock_reads http_sent chat_sent] in Hdb, Hclock, Hhttp, Hchat.
  2: { cbn [snd]. rewrite Hdb, Hclock, Hhttp, Hchat.
       repeat split; auto. right. exists (Str.strip line). split; eauto. }
  match goal with
  | |- context [insert_vc_records env vc_data ?w3] =>
      destruct (insert_vc_records_frame env vc_data w3) as (Hhttp3 & Hchat3 & Hclock3 & Htable3);
      pose proof (insert_vc_records_extends env vc_data w3) as Hext3;
      destruct (insert_vc_records env vc_data w3) as [[r | e] w4]
  end; cbn [snd printing db_file clock_reads http_sent chat_sent] in Hhttp3, Hchat3, Hclock3, Htable3, Hext3;
    rewrite Hdb in Htable3, Hext3; rewrite Hclock in Hclock3;
    rewrite Hhttp in Hhttp3; rewrite Hchat in Hchat3.
  2: { cbn [snd]. rewrite Hclock3, Hhttp3, Hchat3.
       split; [ auto | ]. split; [ exact (extends_trans _ _ _ Hsame Hext3) | ].
       split; [ auto | ]. right. exists (Str.strip line). split; eauto. }
  destruct (query_all_vc_records_frame w4) as (Hdb4 & Hclock4 & Hhttp4 & Hchat4).
  assert (Hgoal : forall out5 : result pyval * world,
            snd out5 = snd (query_all_vc_records w4) ->
            vc_firms (db_file (snd out5)) <> None
            /\ extends (stored_rows (db_file w)) (stored_rows (db_file (snd out5)))
            /\ (clock_reads (snd out5) = clock_reads w
                \/ clock_reads (snd out5) = S (clock_reads w))
            /\ ((http_sent (snd out5) = http_sent w
                 /\ chat_sent (snd out5) = chat_sent w)
                \/ exists url,
                     http_sent (snd out5) = (http_sent w ++ [page_request url])%list
                     /\ (chat_sent (snd out5) = chat_sent w
                         \/ exists request,
                              chat_sent (snd out5)
                              = (chat_sent w ++ [request])%list))).
  { intros out5 ->. rewrite Hdb4, Hclock4, Hhttp4, Hchat4, Hclock3, Hhttp3, Hchat3.
    split; [ auto | ]. split; [ exact (extends_trans _ _ _ Hsame Hext3) | ].
    split; [ auto | ]. right. exists (Str.strip line). split; eauto. }
  apply Hgoal. destruct (query_all_vc_records w4) as [[r5 | e5] w5]; reflexivity.
Qed.

(* ================================================================= *)
(** ** More on the record store *)

(** A record for which the loop built parameters and wrote a row is
    storable. *)
Lemma insert_each_ok_storable :
  forall (env : environment) (now : string) (records : list pyval)
         (conn conn' : connection),
    insert_each env now records conn = Ok conn' -> forallb storable records = true.
Proof.
  intros env now records. induction records as [| record rest IH];
    intros conn conn' H; [ reflexivity | ].
  cbn [insert_each] in H. unfold and_then in H.
  destruct (row_params record now) as [params |] eqn:Hparams; [ | discriminate ].
  destruct (execute_insert (float_text env) params conn) as [conn1 |] eqn:Hexec;
    [ | discriminate ].
  cbn [forallb]. rewrite (IH conn1 conn' H), andb_true_r.
  destruct record; try discriminate.
  unfold row_params, py_get, and_then in Hparams. injection Hparams as <-.
  unfold execute_insert in Hexec.
  destruct (vc_firms (working conn)); [ | discriminate ].
  unfold and_then, new_row in Hexec.
  unfold storable, bindable, field_keys.
  cbn [forallb]. unfold and_then in Hexec.
  destruct (bind_param (Dict.get entries "Name" _)); [ | discriminate ].
  destruct (bind_param (Dict.get entries "Location" _)); [ | discriminate ].
  destruct (bind_param (Dict.get entries "Website" _)); [ | discriminate ].
  destruct (bind_param (Dict.get entries "Focus" _)); [ | discriminate ].
  reflexivity.
Qed.

(** A text that is not empty has a first character. *)
Lemma code_points_first :
  forall (c : ascii) (s : string),
    exists first others, code_points (String c s) = first :: others.
Proof.
  intros c s. cbn [code_points].
  destruct (code_points s) as [| first others]; [ eauto | ].
  destruct (starts_inside s); eauto.
Qed.

(** What is iterated over when the value is no array of objects holds
    an element that is not storable, unless it is empty. *)
Lemma other_shapes_iterate :
  forall (v : pyval) (records : list pyval),
    is_array_of_objects v = false ->
    py_iter v = Ok records ->
    forallb storable records = true ->
    records = [].
Proof.
  intros v records Hshape Hiter Hall.
  destruct v; try discriminate; cbn [py_iter] in Hiter; injection Hiter as <-.
  - destruct s as [| c s]; [ reflexivity | ].
    destruct (code_points_first c s) as (first & others & E).
    rewrite E in Hall. discriminate.
  - exfalso. cbn in Hshape.
    assert (Hobj : forallb is_object items = true).
    { clear Hshape. induction items as [| x items IH]; [ reflexivity | ].
      cbn in Hall |- *. apply andb_prop in Hall. destruct Hall as [Hx Hrest].
      rewrite (IH Hrest), andb_true_r. destruct x; try discriminate. reflexivity. }
    congruence.
  - destruct entries as [| [k x] entries]; [ reflexivity | discriminate ].
Qed.

(** X6. insert_vc_records writes nothing unless it is given an array of
    objects.  For every other value (a number, a text, a single object,
    an array with an element that is no object) the file is left as it
    was: the call raises, or, for the empty text and the empty object,
    it goes through an empty loop and reports zero records. *)
Theorem insert_vc_records_needs_array_of_objects :
  forall (env : environment) (vc_records : pyval) (w : world),
    is_array_of_objects vc_records = false ->
    let out := insert_vc_records env vc_records w in
    db_file (snd out) = db_file w
    /\ ((exists e, fst out = Raise e)
        \/ (fst out = Ok PNone
            /\ py_len vc_records = Ok 0
            /\ stdout (snd out) = (stdout w ++ [inserted_line 0])%list)).
Proof.
  intros env vc_records w Hshape out. subst out. rewrite insert_vc_records_run.
  destruct (py_iter vc_records) as [records | e] eqn:Hiter;
    [ | split; [ reflexivity | left; exists e; reflexivity ] ].
  destruct (insert_each env _ records _) as [conn | e] eqn:Hloop;
    [ | split; [ reflexivity | left; exists e; reflexivity ] ].
  pose proof (insert_each_ok_storable _ _ _ _ _ Hloop) as Hall.
  pose proof (other_shapes_iterate _ _ Hshape Hiter Hall) as ->.
  cbn in Hloop. injection Hloop as <-.
  cbn [fst snd db_file stdout in_transaction List.length].
  split; [ reflexivity | ]. right.
  split; [ reflexivity | ]. split; [ | reflexivity ].
  exact (py_iter_len _ _ Hiter).
Qed.

Lemma insert_vc_records_needs_array_of_objects_witness :
  fst (insert_vc_records Demo.env (PDict [("Name", PStr "Acme Ventures")]) Run.stocked)
    = Raise (AttributeError "'str' object has no attribute 'get'")
  /\ db_file (snd (insert_vc_records Demo.env
                     (PDict [("Name", PStr "Acme Ventures")]) Run.stocked))
     = db_file Run.stocked.
Proof.
  split.
  - reflexivity.
  - apply (insert_vc_records_needs_array_of_objects Demo.env
             (PDict [("Name", PStr "Acme Ventures")]) Run.stocked).
    reflexivity.
Defined.

(** X7. On a store that was never initialised, insert_vc_records does
    not create the table: whatever it is given, the file stays without
    it; and a batch that starts with an object fails at its first INSERT
    with the error of SQLite for the missing table. *)
Theorem insert_vc_records_without_table :
  forall (env : environment) (w : world),
    vc_firms (db_file w) = None ->
    (forall vc_records,
       db_file (snd (insert_vc_records env vc_records w)) = db_file w)
    /\ (forall d rest,
          insert_vc_records env (PList (PDict d :: rest)) w
          = (Raise (OperationalError "no such table: vc_firms"), after_clock w)).
Proof.
  intros env w Hnone. split.
  - intros vc_records. rewrite insert_vc_records_run.
    destruct (py_iter vc_records) as [records | e]; [ | reflexivity ].
    destruct (insert_each env _ records _) as [conn | e] eqn:Hloop; [ | reflexivity ].
    destruct (insert_each_no_table env _ records (mkConnection (db_file w) false) conn
                Hnone Hloop) as [_ ->].
    reflexivity.
  - intros d rest. rewrite insert_vc_records_run. cbn [py_iter insert_each].
    unfold row_params, py_get, and_then, execute_insert. cbn [working].
    rewrite Hnone. reflexivity.
Qed.

Lemma insert_vc_records_without_table_witness :
  insert_vc_records Demo.env (PList [Demo.acme]) Demo.fresh
  = (Raise (OperationalError "no such table: vc_firms"), after_clock Demo.fresh).
Proof.
  apply (insert_vc_records_without_table Demo.env Demo.fresh). reflexivity.
Defined.

(** X8. query_all_vc_records only reads: the file, the clock and the
    request logs are as before.  On an initialised store it returns None
    after printing the heading and every row in the order of the table;
    on a store without the table it raises the error of SQLite before
    anything is printed. *)
Theorem query_all_vc_records_only_reads :
  forall w : world,
    let out := query_all_vc_records w in
    db_file (snd out) = db_file w
    /\ clock_reads (snd out) = clock_reads w
    /\ http_sent (snd out) = http_sent w
    /\ chat_sent (snd out) = chat_sent w
    /\ match vc_firms (db_file w) with
       | Some t =>
           fst out = Ok PNone
           /\ stdout (snd out)
              = (stdout w ++ Line "Current VC Records:" :: map RowTuple (rows t))%list
       | None =>
           fst out = Raise (OperationalError "no such table: vc_firms")
           /\ stdout (snd out) = stdout w
       end.
Proof.
  intros w out. subst out. destruct (vc_firms (db_file w)) as [t |] eqn:E.
  - rewrite (query_all_vc_records_run w t E). repeat split; reflexivity.
  - unfold query_all_vc_records, bind, sqlite3_connect, lift, execute_select.
    cbn [working]. rewrite E. repeat split; reflexivity.
Qed.

(** X9. Calling query_all_vc_records twice in a row gives the same
    result and prints the same block twice: nothing it does the first
    time shows in the second. *)
Theorem query_all_vc_records_twice :
  forall w : world,
    let first := query_all_vc_records w in
    let second := query_all_vc_records (snd first) in
    fst second = fst first
    /\ exists block : list printed,
         stdout (snd first) = (stdout w ++ block)%list
         /\ stdout (snd second) = (stdout w ++ block ++ block)%list.
Proof.
  intros w first second. subst first second.
  destruct (vc_firms (db_file w)) as [t |] eqn:E.
  - rewrite (query_all_vc_records_run w t E). cbn [snd].
    rewrite (query_all_vc_records_run _ t) by exact E.
    split; [ reflexivity | ].
    exists (Line "Current VC Records:" :: map RowTuple (rows t)).
    cbn [snd stdout]. rewrite <- app_assoc. split; reflexivity.
  - assert (H : query_all_vc_records w
                = (Raise (OperationalError "no such table: vc_firms"), w)).
    { unfold query_all_vc_records, bind, sqlite3_connect, lift, execute_select.
      cbn [working]. rewrite E. reflexivity. }
    rewrite H. cbn [snd]. rewrite H. split; [ reflexivity | ].
    exists []. cbn [snd]. rewrite !app_nil_r. split; reflexivity.
Qed.
(** *** Rowids over several batches *)

Lemma ascending_below :
  forall (a : Z) (zs : list Z),
    ascending (a :: zs) = true -> forall b, In b zs -> (a < b)%Z.
Proof.
  intros a zs. revert a. induction zs as [| c zs IH]; intros a H b Hb;
    [ contradiction | ].
  cbn [ascending] in H. apply andb_prop in H. destruct H as [Hac Hrest].
  apply Z.ltb_lt in Hac. destruct Hb as [<- | Hb]; [ exact Hac | ].
  specialize (IH c Hrest b Hb). lia.
Qed.

Lemma ascending_tail :
  forall (a : Z) (zs : list Z), ascending (a :: zs) = true -> ascending zs = true.
Proof.
  intros a [| c zs] H; [ reflexivity | ].
  cbn [ascending] in H. apply andb_prop in H. exact (proj2 H).
Qed.

(** Rowids in ascending order are pairwise distinct. *)
Lemma ascending_NoDup : forall zs : list Z, ascending zs = true -> NoDup zs.
Proof.
  induction zs as [| a zs IH]; intros H; constructor.
  - intros Hin. pose proof (ascending_below a zs H a Hin). lia.
  - apply IH. exact (ascending_tail a zs H).
Qed.

(** The store main leaves behind is the initialised store, or what one
    call of insert_vc_records made of it. *)
Lemma main_store :
  forall (env : environment) (sh : shell) (w : world),
    db_file (snd (main env sh w)) = initialized (db_file w)
    \/ exists vc_data w3,
         db_file w3 = initialized (db_file w)
         /\ db_file (snd (main env sh w))
            = db_file (snd (insert_vc_records env vc_data w3)).
Proof.
  intros env sh w. rewrite main_run. cbv zeta.
  destruct (input sh url_prompt) as [line | e]; [ | left; reflexivity ].
  destruct (requests_get env _ _ _) as [response | e]; [ | left; reflexivity ].
  destruct (status_code response =? 200)%Z; [ | left; reflexivity ].
  match goal with
  | |- context [extract_vc_data env ?text ?w1] =>
      destruct (extract_vc_data_frame env text w1) as (Hdb & _);
      destruct (extract_vc_data env text w1) as [[vc_data | e] w2]
  end; cbn [snd printing db_file] in Hdb; [ | left; exact Hdb ].
  right.
  match goal with
  | |- context [insert_vc_records env vc_data ?w3] => exists vc_data, w3
  end.
  split; [ exact Hdb | ].
  match goal with
  | |- context [insert_vc_records env vc_data ?w3] =>
      destruct (insert_vc_records env vc_data w3) as [[r | e] w4]
  end; [ | reflexivity ].
  cbn [snd]. destruct (query_all_vc_records_frame w4) as (Hdb4 & _).
  destruct (query_all_vc_records w4) as [[r5 | e5] w5]; exact Hdb4.
Qed.

(** X10. The ids of the stored rows stay in ascending order, hence
    pairwise distinct, through every run of main, however it ends: a
    store that has the property before main has it after. *)
Theorem main_keeps_ids_distinct :
  forall (env : environment) (sh : shell) (w : world),
    ascending (map id (stored_rows (db_file w))) = true ->
    ascending (map id (stored_rows (db_file (snd (main env sh w))))) = true
    /\ NoDup (map id (stored_rows (db_file (snd (main env sh w))))).
Proof.
  intros env sh w Hasc.
  assert (H : ascending (map id (stored_rows (db_file (snd (main env sh w))))) = true).
  { destruct (main_store env sh w) as [-> | (vc_data & w3 & Hdb3 & ->)].
    - rewrite initialized_rows. exact Hasc.
    - apply insert_vc_records_keeps_order. rewrite Hdb3, initialized_rows. exact Hasc. }
  split; [ exact H | exact (ascending_NoDup _ H) ].
Qed.

Lemma main_keeps_ids_distinct_witness :
  NoDup (map id (stored_rows
                   (db_file (snd (main Demo.env (Run.typing "http://vc.example/list")
                                       Run.stocked))))).
Proof.
  apply (main_keeps_ids_distinct Demo.env (Run.typing "http://vc.example/list")
           Run.stocked).
  reflexivity.
Defined.

Lemma numbered_from_app :
  forall (a b : list row) (k : Z),
    numbered_from k (a ++ b)
    = numbered_from k a && numbered_from (k + Z.of_nat (List.length a)) b.
Proof.
  induction a as [| r a IH]; intros b k.
  - cbn. f_equal. lia.
  - cbn [app numbered_from List.length]. rewrite IH, andb_assoc.
    f_equal. f_equal. lia.
Qed.

(** After the loop the next rowid has advanced by the size of the batch. *)
Lemma insert_each_next_rowid :
  forall (env : environment) (now : string) (records : list pyval)
         (conn conn' : connection) (t t' : table),
    vc_firms (working conn) = Some t ->
    insert_each env now records conn = Ok conn' ->
    vc_firms (working conn') = Some t' ->
    next_rowid t' = (next_rowid t + Z.of_nat (List.length records))%Z.
Proof.
  intros env now records. induction records as [| record rest IH];
    intros conn conn' t t' Ht H Ht'; cbn [insert_each] in H.
  - injection H as <-. rewrite Ht in Ht'. injection Ht' as <-. cbn. lia.
  - unfold and_then in H.
    destruct (row_params record now) as [params |]; [ | discriminate ].
    destruct (execute_insert (float_text env) params conn) as [conn1 |] eqn:Hexec;
      [ | discriminate ].
    destruct (execute_insert_ok _ _ _ _ _ Ht Hexec) as (r & Hrow & _ & ->).
    destruct (new_row_shape _ _ _ _ Hrow) as [Hid _].
    rewrite (IH (mkConnection
                   (mkDatabase (Some (mkTable (rows t ++ [r]) (id r)))) true)
                conn' (mkTable (rows t ++ [r]) (id r)) t' eq_refl H Ht').
    rewrite (next_rowid_step t r Hid). cbn [List.length]. lia.
Qed.

(** The loop succeeds only when the table has rowids left for the
    batch. *)
Lemma insert_each_ok_room :
  forall (env : environment) (now : string) (records : list pyval)
         (conn conn' : connection) (t : table),
    vc_firms (working conn) = Some t ->
    insert_each env now records conn = Ok conn' ->
    has_room t (List.length records) = true.
Proof.
  intros env now records. induction records as [| record rest IH];
    intros conn conn' t Ht H; [ reflexivity | ].
  cbn [insert_each] in H. unfold and_then in H.
  destruct (row_params record now) as [params |]; [ | discriminate ].
  destruct (execute_insert (float_text env) params conn) as [conn1 |] eqn:Hexec;
    [ | discriminate ].
  destruct (execute_insert_ok _ _ _ _ _ Ht Hexec) as (r & Hrow & Hfits & ->).
  destruct (new_row_shape _ _ _ _ Hrow) as [Hid _].
  pose proof (IH (mkConnection
                    (mkDatabase (Some (mkTable (rows t ++ [r]) (id r)))) true)
                 conn' (mkTable (rows t ++ [r]) (id r)) eq_refl H) as Hrest.
  unfold has_room in Hrest |- *. rewrite (next_rowid_step t r Hid) in Hrest.
  cbn [List.length Nat.eqb orb]. apply Z.leb_le.
  destruct (List.length rest) as [| n]; [ lia | ].
  cbn [Nat.eqb orb] in Hrest. apply Z.leb_le in Hrest. lia.
Qed.

(** Rowids left for two batches are left for the first, and then for
    the second. *)
Lemma has_room_first :
  forall (t : table) (a b : nat),
    has_room t (a + b) = true -> has_room t a = true.
Proof.
  intros t a b H. unfold has_room in *.
  destruct a as [| a]; [ reflexivity | ]. cbn [Nat.eqb orb Nat.add] in *.
  apply Z.leb_le. apply Z.leb_le in H. lia.
Qed.

Lemma has_room_second :
  forall (t t' : table) (a b : nat),
    has_room t (a + b) = true ->
    next_rowid t' = (next_rowid t + Z.of_nat a)%Z ->
    has_room t' b = true.
Proof.
  intros t t' a b H Hnext. unfold has_room in *. rewrite Hnext.
  destruct b as [| b]; [ reflexivity | ].
  destruct a as [| a]; cbn [Nat.eqb orb Nat.add] in *;
    apply Z.leb_le; apply Z.leb_le in H; lia.
Qed.

(** The table a successful batch leaves on an initialised store. *)
Lemma insert_vc_records_table :
  forall (env : environment) (w : world) (t : table) (records : list pyval),
    vc_firms (db_file w) = Some t ->
    fst (insert_vc_records env (PList records) w) = Ok PNone ->
    exists (t' : table) (new : list row),
      vc_firms (db_file (snd (insert_vc_records env (PList records) w))) = Some t'
      /\ rows t' = (rows t ++ new)%list
      /\ Forall2 (row_of_record env (utcnow_isoformat env (clock_reads w))) records new
      /\ numbered_from (next_rowid t) new = true
      /\ next_rowid t' = (next_rowid t + Z.of_nat (List.length new))%Z.
Proof.
  intros env w t records Ht. rewrite insert_vc_records_run. cbn [py_iter].
  destruct (insert_each env _ records _) as [conn |] eqn:Hloop; [ | discriminate ].
  intros _. cbn [snd db_file].
  destruct (insert_each_rows env _ records (mkConnection (db_file w) false) conn t Ht
              Hloop)
    as (t' & new & Ht' & Hrows & Hall & _ & Hnum & Hnil & Hcons).
  pose proof (insert_each_next_rowid env _ records (mkConnection (db_file w) false)
                conn t t' Ht Hloop Ht') as Hnext.
  rewrite (Forall2_length Hall) in Hnext.
  exists t', new. repeat split; try assumption.
  destruct records as [| record rest].
  - rewrite (Hnil eq_refl) in Ht' |- *. exact Ht'.
  - rewrite Hcons by discriminate. exact Ht'.
Qed.

(** X11. The store never updates a row in place of adding one.  Two
    batches of storable records inserted one after the other on an
    initialised store whose table has rowids left for both, be they the
    same records or not, while the clock shows texts without lone
    surrogate, leave the rows that were there, then one row per record
    of the first batch, then one per record of the second; the rowids
    run on without a gap over both batches, and each batch carries the
    instant of its own reading of the clock. *)
Theorem insert_vc_records_twice :
  forall (env : environment) (w : world) (t : table) (first second : list pyval),
    vc_firms (db_file w) = Some t ->
    forallb storable first = true ->
    forallb storable second = true ->
    plain_instant env w = true ->
    plain_instant env (after_clock w) = true ->
    has_room t (List.length first + List.length second) = true ->
    let w1 := snd (insert_vc_records env (PList first) w) in
    let out := insert_vc_records env (PList second) w1 in
    fst out = Ok PNone
    /\ exists new1 new2 : list row,
         stored_rows (db_file (snd out)) = (rows t ++ new1 ++ new2)%list
         /\ Forall2 (row_of_record env (utcnow_isoformat env (clock_reads w)))
                    first new1
         /\ Forall2 (row_of_record env (utcnow_isoformat env (S (clock_reads w))))
                    second new2
         /\ numbered_from (next_rowid t) (new1 ++ new2) = true.
Proof.
  intros env w t first second Ht Hfirst Hsecond Hplain1 Hplain2 Hroom w1 out.
  pose proof (has_room_first t (List.length first) (List.length second) Hroom)
    as Hroom1.
  pose proof (insert_vc_records_storable env w t first Ht Hfirst Hplain1 Hroom1) as Hok1.
  destruct (insert_vc_records_table env w t first Ht Hok1)
    as (t1 & new1 & Ht1 & Hrows1 & Hall1 & Hnum1 & Hnext1).
  fold w1 in Ht1.
  assert (Hclock : clock_reads w1 = S (clock_reads w))
    by (destruct (insert_vc_records_frame env (PList first) w) as (_ & _ & H & _);
        exact H).
  assert (Hplain1' : plain_instant env w1 = true)
    by (unfold plain_instant in *; rewrite Hclock; exact Hplain2).
  assert (Hroom2 : has_room t1 (List.length second) = true).
  { rewrite <- (Forall2_length Hall1) in Hnext1.
    exact (has_room_second t t1 _ _ Hroom Hnext1). }
  rewrite <- (Forall2_length Hall1) in Hnext1.
  pose proof (insert_vc_records_storable env w1 t1 second Ht1 Hsecond Hplain1' Hroom2)
    as Hok2.
  destruct (insert_vc_records_table env w1 t1 second Ht1 Hok2)
    as (t2 & new2 & Ht2 & Hrows2 & Hall2 & Hnum2 & _).
  fold out in Ht2, Hok2.
  rewrite Hclock in Hall2.
  split; [ exact Hok2 | ]. exists new1, new2.
  split; [ | split; [ exact Hall1 | split; [ exact Hall2 | ] ] ].
  - unfold stored_rows. rewrite Ht2, Hrows2, Hrows1, <- app_assoc. reflexivity.
  - rewrite numbered_from_app, Hnum1, <- (Forall2_length Hall1), <- Hnext1.
    exact Hnum2.
Qed.

Lemma insert_vc_records_twice_witness :
  map id (stored_rows
            (db_file (snd (insert_vc_records Demo.env (PList [Demo.acme])
                             (snd (insert_vc_records Demo.env (PList [Demo.acme])
                                     Run.stocked))))))
  = [7; 8; 9]%Z
  /\ fst (insert_vc_records Demo.env (PList [Demo.acme])
            (snd (insert_vc_records Demo.env (PList [Demo.acme]) Run.stocked)))
     = Ok PNone.
Proof.
  split.
  - reflexivity.
  - apply (insert_vc_records_twice Demo.env Run.stocked (mkTable [Run.one_row] 7)
             [Demo.acme] [Demo.acme]); reflexivity.
Defined.

(** The row written for a record shows that the record is storable. *)
Lemma insert_vc_records_ok_storable :
  forall (env : environment) (w : world) (records : list pyval) (v : pyval),
    fst (insert_vc_records env (PList records) w) = Ok v ->
    forallb storable records = true.
Proof.
  intros env w records v. rewrite insert_vc_records_run. cbn [py_iter].
  destruct (insert_each env _ records _) as [conn |] eqn:Hloop; [ | discriminate ].
  intros _. exact (insert_each_ok_storable _ _ _ _ _ Hloop).
Qed.

(** A batch that went through found rowids left in the table. *)
Lemma insert_vc_records_ok_room :
  forall (env : environment) (w : world) (t : table) (records : list pyval)
         (v : pyval),
    vc_firms (db_file w) = Some t ->
    fst (insert_vc_records env (PList records) w) = Ok v ->
    has_room t (List.length records) = true.
Proof.
  intros env w t records v Ht. rewrite insert_vc_records_run. cbn [py_iter].
  destruct (insert_each env _ records _) as [conn |] eqn:Hloop; [ | discriminate ].
  intros _.
  exact (insert_each_ok_room env _ records (mkConnection (db_file w) false) conn t
           Ht Hloop).
Qed.

(** X12. On an initialised store, when the clock shows a text without
    lone surrogate, a batch goes through exactly when the table has
    rowids left for it and every record of it is an object whose four
    fields, where present, hold a text without lone surrogate, an
    integer that fits 64 bits, a float, a boolean or null.  One record
    that is no object, or that holds an array, an object, an integer
    beyond 64 bits or a text with a lone surrogate under one of the
    four keys, fails the whole batch. *)
Theorem insert_vc_records_succeeds_iff_storable :
  forall (env : environment) (w : world) (t : table) (records : list pyval),
    vc_firms (db_file w) = Some t ->
    plain_instant env w = true ->
    (fst (insert_vc_records env (PList records) w) = Ok PNone
     <-> forallb storable records = true
         /\ has_room t (List.length records) = true).
Proof.
  intros env w t records Ht Hplain. split.
  - intros Hok. split.
    + exact (insert_vc_records_ok_storable env w records PNone Hok).
    + exact (insert_vc_records_ok_room env w t records PNone Ht Hok).
  - intros [Hall Hroom].
    exact (insert_vc_records_storable env w t records Ht Hall Hplain Hroom).
Qed.

Lemma insert_vc_records_succeeds_iff_storable_witness :
  fst (insert_vc_records Demo.env
         (PList [Demo.acme; PDict [("Name", PInt 5); ("Focus", PNone)]]) Demo.ready)
  = Ok PNone
  /\ (fst (insert_vc_records Demo.env (PList [PDict [("Name", Run.lone)]]) Demo.ready)
      = Ok PNone
      <-> forallb storable [PDict [("Name", Run.lone)]] = true
          /\ has_room empty_table 1 = true)
  /\ forallb storable [PDict [("Name", Run.lone)]] = false
  /\ fst (insert_vc_records Demo.env (PList [PDict [("Name", Run.lone)]]) Demo.ready)
     = Raise UnicodeEncodeError.
Proof.
  split; [ | split; [ | split ] ].
  - apply (insert_vc_records_succeeds_iff_storable Demo.env Demo.ready empty_table
             [Demo.acme; PDict [("Name", PInt 5); ("Focus", PNone)]] eq_refl eq_refl).
    split; reflexivity.
  - exact (insert_vc_records_succeeds_iff_storable Demo.env Demo.ready empty_table
             [PDict [("Name", Run.lone)]] eq_refl eq_refl).
  - reflexivity.
  - reflexivity.
Defined.

(** X13. A store that had no table gets its first rows numbered from 1:
    after initialize_database, a batch of storable records that is not
    larger than the number of rowids there are, inserted while the clock
    shows a text without lone surrogate, is stored under the ids 1, 2,
    3, ... in the order of the batch. *)
Theorem first_batch_is_numbered_from_one :
  forall (env : environment) (w : world) (records : list pyval),
    vc_firms (db_file w) = None ->
    forallb storable records = true ->
    plain_instant env w = true ->
    has_room empty_table (List.length records) = true ->
    let w0 := snd (initialize_database w) in
    let out := insert_vc_records env (PList records) w0 in
    fst out = Ok PNone
    /\ List.length (stored_rows (db_file (snd out))) = List.length records
    /\ numbered_from 1 (stored_rows (db_file (snd out))) = true.
Proof.
  intros env w records Hnone Hall Hplain Hroom w0 out.
  assert (Ht0 : vc_firms (db_file w0) = Some empty_table).
  { subst w0. rewrite initialize_database_run. cbn [snd db_file].
    unfold initialized. rewrite Hnone. reflexivity. }
  assert (Hplain0 : plain_instant env w0 = true).
  { subst w0. rewrite initialize_database_run. exact Hplain. }
  pose proof (insert_vc_records_storable env w0 empty_table records Ht0 Hall
                Hplain0 Hroom) as Hok.
  destruct (insert_vc_records_table env w0 empty_table records Ht0 Hok)
    as (t' & new & Ht' & Hrows & Hall2 & Hnum & _).
  fold out in Ht', Hok. split; [ exact Hok | ].
  unfold stored_rows. rewrite Ht', Hrows. cbn [rows empty_table app].
  split; [ symmetry; exact (Forall2_length Hall2) | exact Hnum ].
Qed.

Lemma first_batch_is_numbered_from_one_witness :
  map id (stored_rows
            (db_file (snd (insert_vc_records Demo.env (PList [Demo.acme; PDict []])
                             (snd (initialize_database Demo.fresh))))))
  = [1; 2]%Z
  /\ numbered_from 1
       (stored_rows
          (db_file (snd (insert_vc_records Demo.env (PList [Demo.acme; PDict []])
                           (snd (initialize_database Demo.fresh)))))) = true.
Proof.
  split.
  - reflexivity.
  - apply (first_batch_is_numbered_from_one Demo.env Demo.fresh
             [Demo.acme; PDict []]); reflexivity.
Defined.

(* ================================================================= *)
(** ** More on the fetcher, the extractor and the normaliser *)

(** X14. fetch_web_page sends exactly one request, whatever comes back,
    and touches nothing else: no output, no store, no clock.  It returns
    a body only when the transport answered with status 200, and then
    the body of that answer; an exception of the transport comes out as
    it is. *)
Theorem fetch_web_page_outcome :
  forall (env : environment) (url : string) (w : world),
    let out := fetch_web_page env url w in
    snd out = mkWorld (stdout w) (db_file w) (clock_reads w)
                      (http_sent w ++ [page_request url]) (chat_sent w)
    /\ (forall body,
          fst out = Ok body
          <-> exists response,
                requests_get env (List.length (http_sent w)) url
                  [("User-Agent", "Mozilla/5.0")] = Ok response
                /\ status_code response = 200%Z
                /\ text response = body)
    /\ (forall e,
          requests_get env (List.length (http_sent w)) url
            [("User-Agent", "Mozilla/5.0")] = Raise e ->
          fst out = Raise e).
Proof.
  intros env url w out. subst out.
  unfold fetch_web_page, bind, requests_get_call.
  destruct (requests_get env _ url _) as [response | e0].
  - destruct (Z.eqb_spec (status_code response) 200) as [E | E]; cbn.
    + split; [ reflexivity | ]. split; [ | discriminate ].
      intros body. split.
      * intros H. injection H as <-. exists response. auto.
      * intros (response' & H & _ & <-). injection H as <-. reflexivity.
    + split; [ reflexivity | ]. split; [ | discriminate ].
      intros body. split; [ discriminate | ].
      intros (response' & H & Hs & _). injection H as <-. contradiction.
  - cbn. split; [ reflexivity | ]. split.
    + intros body. split; [ discriminate | ].
      intros (response' & H & _). discriminate.
    + intros e H. injection H as <-. reflexivity.
Qed.


Lemma filter_none :
  forall (A : Type) (f : A -> bool) (l : list A),
    forallb (fun x => negb (f x)) l = true -> filter f l = [].
Proof.
  intros A f l. induction l as [| x l IH]; intros H; [ reflexivity | ].
  cbn in H |- *. apply andb_prop in H. destruct H as [Hx Hl].
  apply negb_true_iff in Hx. rewrite Hx. exact (IH Hl).
Qed.

(** X16. On a page that holds neither a script nor a style tag the
    removal loop has nothing to remove: the tree that is serialised is
    the tree as parsed, and parse_html_to_text returns what get_text
    gives for it, that is the strings of the classes get_text takes, in
    document order, joined by line feeds.  Comments, and the text the
    parser sets apart in a class of its own (that of a template
    element, for one), are not part of it.  This needs nothing of the
    identities of the tags. *)
Theorem parse_html_to_text_plain_page :
  forall (env : environment) (html_content : string),
    forallb (fun tag => negb (wanted ["script"; "style"] tag))
            (flat_map tags (html_parser env html_content)) = true ->
    let soup := html_parser env html_content in
    decompose_each (flat_map (find_all ["script"; "style"]) soup) soup = soup
    /\ parse_html_to_text env html_content = get_text nl soup
    /\ parse_html_to_text env html_content = join nl (flat_map all_strings soup).
Proof.
  intros env html_content Hplain soup. unfold parse_html_to_text. fold soup.
  subst soup. rewrite find_all_tags_forest, (filter_none _ _ _ Hplain).
  repeat split.
Qed.

Lemma parse_html_to_text_plain_page_witness :
  parse_html_to_text (Demo.scripted 200 "" "" Run.plain_page) "<p>...</p>"
  = "Acme Ventures" ++ nl ++ "SF".
Proof.
  apply (parse_html_to_text_plain_page (Demo.scripted 200 "" "" Run.plain_page)
           "<p>...</p>").
  reflexivity.
Defined.

(** *** What the columns hold *)

(** What a TEXT column keeps of a bound value. *)
Lemma bound_column :
  forall (env : environment) (d : Dict.t) (k : string) (x : sqlval),
    bind_param (Dict.get d k (PStr EmptyString)) = Ok x ->
    column_holds env (Dict.lookup k d) (text_affinity (float_text env) x).
Proof.
  intros env d k x. unfold Dict.get.
  destruct (Dict.lookup k d) as [[| b | z | l | s | items | entries] |];
    cbn; intros H; try discriminate.
  - injection H as <-. reflexivity.
  - injection H as <-. destruct b; reflexivity.
  - destruct (fits_int64 z); [ | discriminate ]. injection H as <-. reflexivity.
  - destruct (String.eqb l "NaN"); injection H as <-; reflexivity.
  - destruct (has_surrogate s); [ discriminate | ]. injection H as <-. reflexivity.
  - injection H as <-. reflexivity.
Qed.

Lemma row_of_record_holds :
  forall (env : environment) (now : string) (record : pyval) (r : row),
    row_of_record env now record r -> row_holds env now record r.
Proof.
  intros env now record r (params & Hparams & Hrow).
  destruct record; try discriminate.
  unfold row_params, py_get, and_then in Hparams. injection Hparams as <-.
  unfold new_row, and_then in Hrow.
  destruct (bind_param (Dict.get entries "Name" _)) as [v1 |] eqn:E1; [ | discriminate ].
  destruct (bind_param (Dict.get entries "Location" _)) as [v2 |] eqn:E2; [ | discriminate ].
  destruct (bind_param (Dict.get entries "Website" _)) as [v3 |] eqn:E3; [ | discriminate ].
  destruct (bind_param (Dict.get entries "Focus" _)) as [v4 |] eqn:E4; [ | discriminate ].
  cbn [bind_param] in Hrow.
  destruct (has_surrogate now); [ discriminate | ].
  cbn in Hrow. injection Hrow as <-. cbn [row_holds name location website focus last_updated].
  repeat split; try (apply bound_column; assumption).
Qed.

(** X17. What a batch leaves in the columns.  On an initialised store
    whose table has rowids left for the batch, when the clock shows a
    text without lone surrogate, the rows written for a batch of
    storable records hold, for each of the four keys: the text of the
    record as it is; the empty text when the record has no such key;
    NULL, not the empty text, when the key is there with null or with
    the float NaN; the decimal text of an integer, 1 and 0 for a
    boolean; and for any other float the text SQLite makes of it, which
    is an input of the model ([float_text]) and is not computed here.
    Every row of the batch has the instant read at the start of the
    call in last_updated. *)
Theorem insert_vc_records_columns :
  forall (env : environment) (w : world) (t : table) (records : list pyval),
    vc_firms (db_file w) = Some t ->
    forallb storable records = true ->
    plain_instant env w = true ->
    has_room t (List.length records) = true ->
    exists new : list row,
      stored_rows (db_file (snd (insert_vc_records env (PList records) w)))
      = (rows t ++ new)%list
      /\ Forall2 (row_holds env (utcnow_isoformat env (clock_reads w))) records new.
Proof.
  intros env w t records Ht Hall Hplain Hroom.
  pose proof (insert_vc_records_storable env w t records Ht Hall Hplain Hroom) as Hok.
  destruct (insert_vc_records_outcome env (PList records) w)
    as [(records' & new & Hiter & _ & _ & _ & Hrows & Hall2 & _) | (e & He & _)];
    [ | rewrite Hok in He; discriminate ].
  cbn in Hiter. injection Hiter as <-. exists new. split.
  - rewrite Hrows. unfold stored_rows. rewrite Ht. reflexivity.
  - eapply Forall2_impl; [ | exact Hall2 ].
    intros record r. apply row_of_record_holds.
Qed.

Lemma insert_vc_records_columns_witness :
  Forall2 (row_holds Demo.env "2024-05-01T12:00:00.000000")
          [PDict [("Name", PNone); ("Location", PFloat "1e2"); ("Focus", PInt 5)]]
          [mkRow 1 SqlNull (SqlText "100.0") (SqlText EmptyString)
                 (SqlText "5") (SqlText "2024-05-01T12:00:00.000000")].
Proof.
  destruct (insert_vc_records_columns Demo.env Demo.ready empty_table
              [PDict [("Name", PNone); ("Location", PFloat "1e2"); ("Focus", PInt 5)]]
              eq_refl eq_refl eq_refl eq_refl)
    as (new & Hrows & Hall).
  cbn in Hrows. subst new. exact Hall.
Defined.
